(** * Attune focus tracker: the monitoring loop and the session analysis

    A shallow embedding of [backend/database.py], [backend/monitor.py],
    [backend/analysis.py] and the session routes of [backend/app.py].

    Conventions of the embedding.
    - A [datetime] is an integer count of microseconds (the resolution of
      Python's [datetime]); [total_seconds] is the exact rational number of
      seconds of a [timedelta] and [int] is Python's truncation toward zero.
    - Python floats are exact rationals ([Q]); equalities between them are
      stated with [==].
    - A Python [str] is a [string] of 8-bit characters; [upper], [strip] and
      [isspace] are the ASCII parts of the Python operations.
    - The SQLite store is a record of tables; every table is the list of its
      rows in insertion (rowid) order, the [sessions] table is a finite map
      keyed by its primary key.
    - The language model, the vision model, the clock, the notification
      centre and [time.sleep] are the outside world: what they return is an
      input of the functions below, what is sent to them is an output. *)

From Stdlib Require Import ZArith QArith Bool List Ascii Lia.
From Stdlib Require String.
From stdpp Require Import gmap strings list sorting.

Local Open Scope Z_scope.

(** ** Time *)

Abbreviation datetime := Z (only parsing).

(** [(b - a).total_seconds()] *)
Definition total_seconds (delta : Z) : Q := delta # 1000000.

(** Python's [int(x)] on a number: truncation toward zero. *)
Definition int (x : Q) : Z := Z.quot (Qnum x) (Z.pos (Qden x)).

(** [int((next_time - current_time).total_seconds())] *)
Definition seconds_between (current_time next_time : datetime) : Z :=
  int (total_seconds (next_time - current_time)).

(** ** Python string operations *)

(** [str.isspace] on the characters below 128: TAB, LF, VT, FF, CR, the
    four separators FS, GS, RS, US, and the space. *)
Definition isspace (c : ascii) : bool :=
  let n := nat_of_ascii c in
  ((9 <=? n)%nat && (n <=? 13)%nat) || ((28 <=? n)%nat && (n <=? 32)%nat).

Definition upper_char (c : ascii) : ascii :=
  let n := nat_of_ascii c in
  if ((97 <=? n)%nat && (n <=? 122)%nat)%bool then ascii_of_nat (n - 32) else c.

(** [s.upper()] *)
Fixpoint upper (s : string) : string :=
  match s with
  | EmptyString => EmptyString
  | String c s' => String (upper_char c) (upper s')
  end.

(** [s.lstrip(chars)], [s.rstrip(chars)], [s.strip(chars)]: [drop] tells
    which characters are removed from the ends. *)
Fixpoint lstrip_with (drop : ascii → bool) (s : string) : string :=
  match s with
  | EmptyString => EmptyString
  | String c s' => if drop c then lstrip_with drop s' else s
  end.

Fixpoint rstrip_with (drop : ascii → bool) (s : string) : string :=
  match s with
  | EmptyString => EmptyString
  | String c s' =>
      match rstrip_with drop s' with
      | EmptyString => if drop c then EmptyString else String c EmptyString
      | r => String c r
      end
  end.

Definition strip_with (drop : ascii → bool) (s : string) : string :=
  rstrip_with drop (lstrip_with drop s).

(** [s.strip()] *)
Definition strip (s : string) : string := strip_with isspace s.

(** [s.split('\n', 1)]: the text before the first line feed and, when there
    is a line feed, the text after it.  The result list of Python has one
    element in the first case and two in the second. *)
Definition newline : ascii := ascii_of_nat 10.

Fixpoint split_newline_once (s : string) : string * option string :=
  match s with
  | EmptyString => (EmptyString, None)
  | String c s' =>
      if Ascii.eqb c newline then (EmptyString, Some s')
      else let '(line, rest) := split_newline_once s' in (String c line, rest)
  end.

(** [pat in s] *)
Fixpoint contains (pat s : string) : bool :=
  String.prefix pat s ||
  match s with
  | EmptyString => false
  | String _ s' => contains pat s'
  end.

(** [pat] occurs in [line] when the case of the letters is ignored. *)
Definition occurs_ignoring_case (pat line : string) : Prop :=
  ∃ pre mid suf, line = pre +:+ mid +:+ suf ∧ upper mid = upper pat.

(** The first line of a text. *)
Definition first_line (s : string) : string := (split_newline_once s).1.

(** The text after the first line, when there is a line feed. *)
Definition after_first_line (s : string) : option string :=
  (split_newline_once s).2.

(** Whether a text has a line feed. *)
Fixpoint has_newline (s : string) : bool :=
  match s with
  | EmptyString => false
  | String c s' => Ascii.eqb c newline || has_newline s'
  end.

(** Truth value of a string: [if s:] *)
Definition truthy (s : string) : bool :=
  match s with EmptyString => false | _ => true end.

(** ** The store ([database.py]) *)

Module Database.

(** A row of [sessions]; the primary key [id] is the key of the map.  The
    columns that are NULL until the session ends are options. *)
Record session := {
  title : option string;
  goal : string;
  time_started : datetime;
  time_ended : option datetime;
  focus_percentage : Q;
  productive_time : Z;
  not_productive_time : Z;
  nudges_received : Z;
  ai_analysis : option string;
  ai_structured_output : option (gmap string Z);
  status : string
}.

Record interval := {
  interval_session_id : string;
  interval_time_started : datetime;
  interval_time_ended : datetime;
  interval_focused : bool
}.

Record nudge := {
  nudge_session_id : string;
  nudge_timestamp : datetime;
  nudge_reason : string
}.

Record screenshot_analysis := {
  analysis_session_id : string;
  timestamp : datetime;
  focused : bool;
  explanation : string
}.

Record t := {
  sessions : gmap string session;
  intervals : list interval;
  nudges : list nudge;
  screenshot_analyses : list screenshot_analysis
}.

(** [ORDER BY key ASC] *)
Definition key_le {A} (key : A → Z) : relation A := λ x y, key x ≤ key y.

#[global] Instance key_le_dec {A} (key : A → Z) x y : Decision (key_le key x y) :=
  Z.le_dec (key x) (key y).

Definition order_by {A} (key : A → Z) (rows : list A) : list A :=
  merge_sort (key_le key) rows.

(** [INSERT INTO sessions ... VALUES (?, ?, ?, ?, ?, 'active')]; the primary
    key makes the insertion of an existing id fail ([None]). *)
Definition create_session (db : t) (now : datetime) (session_id goal : string)
  : option t :=
  match sessions db !! session_id with
  | Some _ => None
  | None =>
      Some {| sessions :=
                <[session_id :=
                    {| title := None; goal := goal; time_started := now;
                       time_ended := None; focus_percentage := 0%Q;
                       productive_time := 0; not_productive_time := 0;
                       nudges_received := 0; ai_analysis := None;
                       ai_structured_output := None;
                       status := "active" |}]> (sessions db);
              intervals := intervals db;
              nudges := nudges db;
              screenshot_analyses := screenshot_analyses db |}
  end.

Definition get_session (db : t) (session_id : string) : option session :=
  sessions db !! session_id.

(** [UPDATE sessions SET ..., status = 'completed' WHERE id = ?]: a row with
    this id is overwritten whatever its status, no row means no change. *)
Definition end_session (db : t) (now : datetime) (session_id : string)
    (title : string) (focus_percentage : Q)
    (productive_time not_productive_time nudges_received : Z)
    (ai_analysis : string) (ai_structured_output : gmap string Z) : t :=
  {| sessions :=
       alter (λ s,
         {| Database.title := Some title; goal := goal s;
            time_started := time_started s; time_ended := Some now;
            Database.focus_percentage := focus_percentage;
            Database.productive_time := productive_time;
            Database.not_productive_time := not_productive_time;
            Database.nudges_received := nudges_received;
            Database.ai_analysis := Some ai_analysis;
            Database.ai_structured_output := Some ai_structured_output;
            status := "completed" |}) session_id (sessions db);
     intervals := intervals db;
     nudges := nudges db;
     screenshot_analyses := screenshot_analyses db |}.

(** [return row and row["status"] == "active"] *)
Definition check_session_active (db : t) (session_id : string) : bool :=
  match sessions db !! session_id with
  | Some row => String.eqb (status row) "active"
  | None => false
  end.

(** The column [focused] is [BOOLEAN NOT NULL]: inserting Python's [None]
    raises [sqlite3.IntegrityError] ([None] here) and writes nothing. *)
Definition add_interval (db : t) (session_id : string)
    (time_started time_ended : datetime) (focused : option bool) : option t :=
  match focused with
  | None => None
  | Some state =>
      Some {| sessions := sessions db;
              intervals := intervals db ++
                [{| interval_session_id := session_id;
                    interval_time_started := time_started;
                    interval_time_ended := time_ended;
                    interval_focused := state |}];
              nudges := nudges db;
              screenshot_analyses := screenshot_analyses db |}
  end.

Definition get_session_intervals (db : t) (session_id : string) : list interval :=
  order_by interval_time_started
    (filter (λ r, interval_session_id r = session_id) (intervals db)).

Definition add_nudge (db : t) (now : datetime) (session_id reason : string) : t :=
  {| sessions := sessions db;
     intervals := intervals db;
     nudges := nudges db ++
       [{| nudge_session_id := session_id; nudge_timestamp := now;
           nudge_reason := reason |}];
     screenshot_analyses := screenshot_analyses db |}.

Definition get_session_nudges (db : t) (session_id : string) : list nudge :=
  order_by nudge_timestamp
    (filter (λ r, nudge_session_id r = session_id) (nudges db)).

(** The column [explanation] is [TEXT NOT NULL]: inserting Python's [None]
    raises [sqlite3.IntegrityError] ([None] here) and writes nothing. *)
Definition add_screenshot_analysis (db : t) (session_id : string)
    (timestamp : datetime) (focused : bool) (explanation : option string)
  : option t :=
  match explanation with
  | None => None
  | Some text =>
      Some {| sessions := sessions db;
              intervals := intervals db;
              nudges := nudges db;
              screenshot_analyses := screenshot_analyses db ++
                [{| analysis_session_id := session_id;
                    Database.timestamp := timestamp;
                    Database.focused := focused;
                    Database.explanation := text |}] |}
  end.

Definition get_screenshot_analyses (db : t) (session_id : string)
  : list screenshot_analysis :=
  order_by timestamp
    (filter (λ r, analysis_session_id r = session_id) (screenshot_analyses db)).

End Database.

(** ** Duration accounting shared by the monitor, the analyzer and the routes

    The loop
    [for i, analysis in enumerate(analyses): if i < len(analyses) - 1: ...]
    of [get_session_summary], [analyze_and_end_session], [stop_monitoring]:
    an analysis that has a successor lasts until the successor, the last one
    lasts [estimate] seconds.  The accumulator is
    [(productive_time, not_productive_time)]. *)

Fixpoint accumulate_durations (estimate : Z)
    (analyses : list Database.screenshot_analysis) (acc : Z * Z) : Z * Z :=
  match analyses with
  | [] => acc
  | analysis :: rest =>
      let duration :=
        match rest with
        | next :: _ =>
            seconds_between (Database.timestamp analysis) (Database.timestamp next)
        | [] => estimate
        end in
      accumulate_durations estimate rest
        (if Database.focused analysis
         then (fst acc + duration, snd acc)
         else (fst acc, snd acc + duration))
  end.

(** [(productive_time / total_time * 100) if total_time > 0 else 0] *)
Definition percentage (productive_time total_time : Z) : Q :=
  if 0 <? total_time
  then (inject_Z productive_time / inject_Z total_time * 100)%Q
  else 0%Q.

(** The duration of the judgment number [i] in the words of the
    specification: the time to the next judgment, the fixed estimate for the
    last one. *)
Definition inferred_duration (estimate : Z)
    (analyses : list Database.screenshot_analysis) (i : nat) : Z :=
  match analyses !! i with
  | Some analysis =>
      match analyses !! S i with
      | Some next =>
          seconds_between (Database.timestamp analysis) (Database.timestamp next)
      | None => estimate
      end
  | None => 0
  end.

(** The duration of the judgment number [i] when its state is [state], and 0
    when it is not. *)
Definition duration_in_state (state : bool) (estimate : Z)
    (analyses : list Database.screenshot_analysis) (i : nat) : Z :=
  match analyses !! i with
  | Some analysis =>
      if Bool.eqb (Database.focused analysis) state
      then inferred_duration estimate analyses i
      else 0
  | None => 0
  end.

Definition sum_Z (xs : list Z) : Z := foldr Z.add 0 xs.

(** The sum of [f i] over the positions [i] of a list. *)
Definition sum_over {A} (l : list A) (f : nat → Z) : Z :=
  sum_Z (map f (seq 0 (length l))).

Record summary := {
  summary_productive_time : Z;
  summary_not_productive_time : Z;
  summary_focus_percentage : Q;
  summary_nudges_received : Z
}.

(** ** The monitor ([monitor.py]) *)

Module FocusMonitor.

(** What the monitor does to the outside world. *)
Inductive event :=
| Sleep (seconds : Z)
| Notification (title message : string).

(** The attributes of a [FocusMonitor] object; [db] is the store it writes. *)
Record t := {
  session_id : string;
  goal : string;
  screenshot_interval : Z;
  db : Database.t;
  consecutive_distractions : Z;
  nudges_sent : Z;
  current_interval_start : option datetime;
  current_interval_focused : option bool;
  consecutive_distractions_for_nudge : Z
}.

(** [__init__]; the default of [screenshot_interval] is 0. *)
Definition init (store : Database.t) (session_id goal : string)
    (screenshot_interval : Z) : t :=
  {| session_id := session_id; goal := goal;
     screenshot_interval := screenshot_interval; db := store;
     consecutive_distractions := 0; nudges_sent := 0;
     current_interval_start := None; current_interval_focused := None;
     consecutive_distractions_for_nudge := 3 |}.

(** Attribute assignments. *)
Definition with_db (self : t) (store : Database.t) : t :=
  {| session_id := session_id self; goal := goal self;
     screenshot_interval := screenshot_interval self; db := store;
     consecutive_distractions := consecutive_distractions self;
     nudges_sent := nudges_sent self;
     current_interval_start := current_interval_start self;
     current_interval_focused := current_interval_focused self;
     consecutive_distractions_for_nudge := consecutive_distractions_for_nudge self |}.

Definition with_current_interval (self : t)
    (start : option datetime) (focused : option bool) : t :=
  {| session_id := session_id self; goal := goal self;
     screenshot_interval := screenshot_interval self; db := db self;
     consecutive_distractions := consecutive_distractions self;
     nudges_sent := nudges_sent self;
     current_interval_start := start;
     current_interval_focused := focused;
     consecutive_distractions_for_nudge := consecutive_distractions_for_nudge self |}.

Definition with_consecutive_distractions (self : t) (n : Z) : t :=
  {| session_id := session_id self; goal := goal self;
     screenshot_interval := screenshot_interval self; db := db self;
     consecutive_distractions := n;
     nudges_sent := nudges_sent self;
     current_interval_start := current_interval_start self;
     current_interval_focused := current_interval_focused self;
     consecutive_distractions_for_nudge := consecutive_distractions_for_nudge self |}.

Definition with_nudges_sent (self : t) (n : Z) : t :=
  {| session_id := session_id self; goal := goal self;
     screenshot_interval := screenshot_interval self; db := db self;
     consecutive_distractions := consecutive_distractions self;
     nudges_sent := n;
     current_interval_start := current_interval_start self;
     current_interval_focused := current_interval_focused self;
     consecutive_distractions_for_nudge := consecutive_distractions_for_nudge self |}.

(** *** Methods as computations

    A method takes the object, and returns the object as the method left it,
    the effects it had, and its result: [Some] value when it returned, [None]
    when an exception left it (the only exceptions that are modelled are the
    constraint violations of the store). *)
Definition M (A : Type) : Type := t → t * list event * option A.

Definition ret {A} (a : A) : M A := λ self, (self, [], Some a).

Definition bind {A B} (c : M A) (k : A → M B) : M B :=
  λ self,
    match c self with
    | (self1, out1, Some a) =>
        let '(self2, out2, r) := k a self1 in (self2, out1 ++ out2, r)
    | (self1, out1, None) => (self1, out1, None)
    end.

#[global] Instance M_ret : MRet M := @ret.
#[global] Instance M_bind : MBind M := λ A B k c, bind c k.

Definition get : M t := λ self, (self, [], Some self).
Definition modify (f : t → t) : M unit := λ self, (f self, [], Some tt).
Definition emit (e : event) : M unit := λ self, (self, [e], Some tt).
Definition raise {A} : M A := λ self, (self, [], None).

(** A call of the store that can violate a constraint. *)
Definition store (r : option Database.t) : M unit :=
  match r with
  | Some d => modify (λ self, with_db self d)
  | None => raise
  end.

(** [analyze_with_qwen]: [vision] is what [ollama.chat] returned, [None] when
    it raised. *)
Definition analyze_with_qwen (vision : option string) : option string :=
  match vision with
  | Some content => Some (strip content)
  | None => None
  end.

(** [analyze_with_claude]: [response] is the text of the reply of the
    language model, [None] when the call raised.  The result is the pair
    [(classification, explanation)], [(None, None)] after an exception. *)
Definition analyze_with_claude (response : option string)
  : option string * option string :=
  match response with
  | Some text =>
      let result := strip text in
      let '(line, rest) := split_newline_once result in
      let classification := upper (strip line) in
      let explanation :=
        match rest with Some r => strip r | None => "" end in
      (Some classification, Some explanation)
  | None => (None, None)
  end.

(** [show_notification] *)
Definition show_notification (title message : string) : M unit :=
  emit (Notification title message).

(** [f"{x}"] of a value that is a [str] or [None] *)
Definition format_str (x : option string) : string :=
  match x with Some s => s | None => "None" end.

(** [handle_interval_change] *)
Definition handle_interval_change (focused : bool) (timestamp : datetime) : M unit :=
  self ← get;
  match current_interval_start self with
  | Some start =>
      store (Database.add_interval (db self) (session_id self)
               start timestamp (current_interval_focused self))
  | None => ret tt
  end;;
  modify (λ self, with_current_interval self (Some timestamp) (Some focused)).

(** What one pass of the loop reads from the outside world. *)
Record tick := {
  now : datetime;            (* [datetime.now()] at the top of the pass *)
  vision : option string;    (* [ollama.chat], [None] when it raised *)
  response : option string;  (* [messages.create], [None] when it raised *)
  nudge_now : datetime       (* [datetime.now()] inside [add_nudge] *)
}.

(** "Handle interval tracking" in [monitor_loop] *)
Definition track_interval (focused : bool) (timestamp : datetime) : M unit :=
  self ← get;
  match current_interval_focused self with
  | None =>
      modify (λ self, with_current_interval self (Some timestamp) (Some focused))
  | Some state =>
      if negb (Bool.eqb state focused)
      then handle_interval_change focused timestamp
      else mret tt
  end.

(** The title of the notification of a nudge. *)
Definition reminder_title : string := "🎯 Focus Reminder".

(** "Update consecutive distractions" in [monitor_loop] *)
Definition update_consecutive_distractions (tk : tick) (focused : bool)
    (explanation : option string) : M unit :=
  if focused
  then modify (λ self, with_consecutive_distractions self 0)
  else
    modify (λ self,
      with_consecutive_distractions self (consecutive_distractions self + 1));;
    self ← get;
    if consecutive_distractions_for_nudge self <=? consecutive_distractions self
    then
      modify (λ self, with_nudges_sent self (nudges_sent self + 1));;
      modify (λ self, with_consecutive_distractions self 0);;
      let nudge_reason :=
        "Consecutive distractions detected: " +:+ format_str explanation in
      modify (λ self,
        with_db self
          (Database.add_nudge (db self) (nudge_now tk) (session_id self)
             nudge_reason));;
      show_notification reminder_title ("Get back to: " +:+ goal self)
    else mret tt.

(** The body of [while True:] after the check of the session.  The
    screenshot file, which is written at the start of the pass and removed
    before the sleep, is left out. *)
Definition iteration (tk : tick) : M unit :=
  let timestamp := now tk in
  let description := analyze_with_qwen (vision tk) in
  match description with
  | Some d =>
      if truthy d then
        let '(classification, explanation) := analyze_with_claude (response tk) in
        match classification with
        | Some c =>
            if truthy c then
              let focused := contains "FOCUSED" c in
              (self ← get;
               store (Database.add_screenshot_analysis (db self)
                        (session_id self) timestamp focused explanation));;
              track_interval focused timestamp;;
              update_consecutive_distractions tk focused explanation
            else mret tt
        | None => mret tt
        end
      else mret tt
  | None => mret tt
  end;;
  emit (Sleep 30).

(** [while True:] run on the passes that begin before the interruption; the
    end of the list is the [KeyboardInterrupt]. *)
Fixpoint while_true (ticks : list tick) : M unit :=
  match ticks with
  | [] => mret tt
  | tk :: rest =>
      self ← get;
      if negb (Database.check_session_active (db self) (session_id self))
      then mret tt
      else iteration tk;; while_true rest
  end.

(** The [finally:] clause: "Save final interval if exists". *)
Definition save_final_interval (end_now : datetime) : M unit :=
  self ← get;
  match current_interval_start self with
  | Some start =>
      store (Database.add_interval (db self) (session_id self)
               start end_now (current_interval_focused self))
  | None => mret tt
  end.

(** [monitor_loop]: the [try] block, then the [finally] clause whether or not
    the block raised. *)
Definition monitor_loop (ticks : list tick) (end_now : datetime) : M unit :=
  λ self,
    let '(self1, out1, r1) := (emit (Sleep 10);; while_true ticks) self in
    let '(self2, out2, r2) := save_final_interval end_now self1 in
    (self2, out1 ++ out2, match r1 with Some _ => r2 | None => None end).

(** [get_session_summary] *)
Definition get_session_summary (self : t) : summary :=
  let analyses := Database.get_screenshot_analyses (db self) (session_id self) in
  let nudges := Database.get_session_nudges (db self) (session_id self) in
  match analyses with
  | [] =>
      {| summary_productive_time := 0; summary_not_productive_time := 0;
         summary_focus_percentage := 0%Q;
         summary_nudges_received := Z.of_nat (length nudges) |}
  | _ =>
      let estimate :=
        if 0 <? screenshot_interval self then screenshot_interval self else 30 in
      let '(productive_time, not_productive_time) :=
        accumulate_durations estimate analyses (0, 0) in
      let total_time := productive_time + not_productive_time in
      {| summary_productive_time := productive_time;
         summary_not_productive_time := not_productive_time;
         summary_focus_percentage := percentage productive_time total_time;
         summary_nudges_received := Z.of_nat (length nudges) |}
  end.

(** *** The components of the specification, read off the loop *)

(** The Sample Classifier: the two stages with the two truth tests of
    [monitor_loop]; [None] is "Unavailable". *)
Definition classify (vision response : option string) : option (bool * string) :=
  match analyze_with_qwen vision with
  | Some d =>
      if truthy d then
        match analyze_with_claude response with
        | (Some c, Some e) =>
            if truthy c then Some (contains "FOCUSED" c, e) else None
        | _ => None
        end
      else None
  | None => None
  end.

(** A judgment: the pass that produced it, its state and its explanation. *)
Abbreviation judgment := (tick * bool * string)%type (only parsing).

Definition judgment_of (tk : tick) : option judgment :=
  match classify (vision tk) (response tk) with
  | Some (f, e) => Some (tk, f, e)
  | None => None
  end.

(** The successfully classified judgments of a run, in order. *)
Definition judgments (ticks : list tick) : list judgment := omap judgment_of ticks.

(** What the Interval Tracker sees of a judgment. *)
Abbreviation sample := (datetime * bool)%type (only parsing).
Definition sample_of (j : judgment) : sample := (now j.1.1, j.1.2).
Definition state_of (j : judgment) : bool := j.1.2.

(** The open interval held in the two attributes of the monitor. *)
Definition open_interval (self : t) : option sample :=
  match current_interval_start self, current_interval_focused self with
  | Some start, Some state => Some (start, state)
  | _, _ => None
  end.

(** The two attributes are set together. *)
Definition consistent (self : t) : Prop :=
  is_Some (current_interval_start self) ↔ is_Some (current_interval_focused self).

Definition interval_row (session_id : string) (start ended : datetime)
    (state : bool) : Database.interval :=
  {| Database.interval_session_id := session_id;
     Database.interval_time_started := start;
     Database.interval_time_ended := ended;
     Database.interval_focused := state |}.

(** The transition rule of the Interval Tracker (specification, 4.2): the
    intervals closed by a sample and the interval open after it. *)
Definition tracker_step (session_id : string) (open : option sample)
    (j : sample) : list Database.interval * option sample :=
  match open with
  | None => ([], Some j)
  | Some (start, state) =>
      if Bool.eqb state j.2 then ([], open)
      else ([interval_row session_id start j.1 state], Some j)
  end.

Fixpoint tracker_run (session_id : string) (open : option sample)
    (js : list sample) : list Database.interval * option sample :=
  match js with
  | [] => ([], open)
  | j :: rest =>
      let '(closed, open1) := tracker_step session_id open j in
      let '(closed', open2) := tracker_run session_id open1 rest in
      (closed ++ closed', open2)
  end.

(** Termination of the tracker: the open interval is closed at [end_now]. *)
Definition tracker_close (session_id : string) (open : option sample)
    (end_now : datetime) : list Database.interval :=
  match open with
  | Some (start, state) => [interval_row session_id start end_now state]
  | None => []
  end.

(** The maximal runs of consecutive samples of one state. *)
Fixpoint maximal_runs (js : list sample) : list (list sample) :=
  match js with
  | [] => []
  | j :: rest =>
      match maximal_runs rest with
      | (j' :: run) :: more =>
          if Bool.eqb j.2 j'.2 then (j :: j' :: run) :: more
          else [j] :: (j' :: run) :: more
      | _ => [[j]]
      end
  end.

(** A run: at least one sample, all of state [b]. *)
Definition run_of_state (b : bool) (run : list sample) : Prop :=
  run ≠ [] ∧ Forall (λ j, j.2 = b) run.

(** A run-length decomposition: runs whose states alternate. *)
Inductive alternating : list (list sample) → Prop :=
| alternating_nil : alternating []
| alternating_one run b : run_of_state b run → alternating [run]
| alternating_cons run b run' more :
    run_of_state b run → run_of_state (negb b) run' →
    alternating (run' :: more) → alternating (run :: run' :: more).

(** One interval for each run: from the first sample of the run to the first
    sample of the next run, to [end_now] for the last run. *)
Fixpoint intervals_of_runs (session_id : string) (runs : list (list sample))
    (end_now : datetime) : list Database.interval :=
  match runs with
  | [] => []
  | run :: more =>
      match run with
      | [] => intervals_of_runs session_id more end_now
      | (start, state) :: _ =>
          interval_row session_id start
            match more with
            | ((next, _) :: _) :: _ => next
            | _ => end_now
            end state
          :: intervals_of_runs session_id more end_now
      end
  end.

(** The transition rule of the Nudge Policy (specification, 4.3): whether a
    nudge is emitted and the counter after the judgment. *)
Definition policy_step (threshold counter : Z) (focused : bool) : bool * Z :=
  if focused then (false, 0)
  else if threshold <=? counter + 1 then (true, 0)
  else (false, counter + 1).

(** The judgments of a stream at which the policy emits a nudge, and the
    counter after the stream. *)
Fixpoint policy_run (threshold counter : Z) (js : list judgment)
  : list judgment * Z :=
  match js with
  | [] => ([], counter)
  | j :: rest =>
      let '(nudged, counter1) := policy_step threshold counter (state_of j) in
      let '(nudging, counter2) := policy_run threshold counter1 rest in
      ((if nudged then [j] else []) ++ nudging, counter2)
  end.

(** The number of distracted judgments at the end of a stream, back to the
    last focused one. *)
Fixpoint distraction_streak_rev (states_rev : list bool) : nat :=
  match states_rev with
  | false :: rest => S (distraction_streak_rev rest)
  | _ => O
  end.

Definition distraction_streak (states : list bool) : nat :=
  distraction_streak_rev (reverse states).

Definition nudge_row (self : t) (j : judgment) : Database.nudge :=
  {| Database.nudge_session_id := session_id self;
     Database.nudge_timestamp := nudge_now j.1.1;
     Database.nudge_reason := "Consecutive distractions detected: " +:+ j.2 |}.

Definition analysis_row (session_id : string) (j : judgment)
  : Database.screenshot_analysis :=
  {| Database.analysis_session_id := session_id;
     Database.timestamp := now j.1.1;
     Database.focused := j.1.2;
     Database.explanation := j.2 |}.

(** The scenario of the specification: a store with one active session
    ["s1"], and passes every 30 seconds whose replies are [FOCUSED] twice and
    then [DISTRACTED]. *)
Definition scenario_session : Database.session :=
  {| Database.title := None; Database.goal := "write the report";
     Database.time_started := 0; Database.time_ended := None;
     Database.focus_percentage := 0%Q; Database.productive_time := 0;
     Database.not_productive_time := 0; Database.nudges_received := 0;
     Database.ai_analysis := None; Database.ai_structured_output := None;
     Database.status := "active" |}.

Definition scenario_store : Database.t :=
  {| Database.sessions := {["s1" := scenario_session]};
     Database.intervals := []; Database.nudges := [];
     Database.screenshot_analyses := [] |}.

(** The same store after one distracted judgment at time 0. *)
Definition distracted_store : Database.t :=
  {| Database.sessions := {["s1" := scenario_session]};
     Database.intervals := []; Database.nudges := [];
     Database.screenshot_analyses :=
       [{| Database.analysis_session_id := "s1"; Database.timestamp := 0;
           Database.focused := false;
           Database.explanation := "A video site is open." |}] |}.

Definition reply_line (label why : string) : string :=
  label +:+ String newline why.

Definition scenario_tick (seconds : Z) (label : string) : tick :=
  {| now := seconds * 1000000;
     vision := Some "An editor window with a document";
     response := Some (reply_line label "The screen shows this.");
     nudge_now := seconds * 1000000 + 1 |}.

Definition scenario_ticks (labels : list string) : list tick :=
  imap (λ i label, scenario_tick (30 * Z.of_nat i) label) labels.

(** The object and the effects of a computation that has run. *)
Definition object_after {A} (r : t * list event * option A) : t := r.1.1.
Definition effects_of {A} (r : t * list event * option A) : list event := r.1.2.
Definition returned {A} (r : t * list event * option A) : option A := r.2.

End FocusMonitor.

(** ** The analyzer ([analysis.py]) *)

(** [s.split(sep)]: the text before the first occurrence of [sep] and the
    text after it, [None] when [sep] does not occur. *)
Fixpoint string_drop (n : nat) (s : string) : string :=
  match n, s with
  | S n', String _ s' => string_drop n' s'
  | _, _ => s
  end.

Fixpoint partition_at (sep s : string) : option (string * string) :=
  if String.prefix sep s then Some (EmptyString, string_drop (String.length sep) s)
  else
    match s with
    | EmptyString => None
    | String c s' =>
        match partition_at sep s' with
        | Some (before, after) => Some (String c before, after)
        | None => None
        end
    end.

(** [s.split(sep)[0]] *)
Definition split_item0 (sep s : string) : string :=
  match partition_at sep s with
  | Some (before, _) => before
  | None => s
  end.

(** [s.split(sep)[1]], which exists when [sep in s] *)
Definition split_item1 (sep s : string) : option string :=
  match partition_at sep s with
  | Some (_, after) => Some (split_item0 sep after)
  | None => None
  end.

(** [l[::step]] for a positive [step] *)
Fixpoint slice_step_from {A} (step skip : nat) (l : list A) : list A :=
  match l with
  | [] => []
  | x :: rest =>
      match skip with
      | O => x :: slice_step_from step (step - 1) rest
      | S k => slice_step_from step k rest
      end
  end.

Definition slice_step {A} (step : nat) (l : list A) : list A :=
  slice_step_from step 0 l.

(** [sum(xs)] of floats *)
Definition sum_Q (xs : list Q) : Q := fold_left Qplus xs 0%Q.

Module SessionAnalyzer.

(** What a request to the language model is built from. *)
Inductive prompt :=
| TitlePrompt (goal : string) (focused_count distracted_count nudges : nat)
| DistractionPrompt (avg_interval : Q)
    (distraction_summary : list (nat * datetime * string))
| AnalysisPrompt (goal : string) (focus_percentage : Q)
    (productive_time not_productive_time : Z)
    (focused_count distracted_count nudges : nat)
    (interval_summary : list (datetime * bool)) (more_intervals : option nat)
    (distraction_examples : list (datetime * string)).

Inductive error := ValueError (message : string).

(** [[(times[i+1] - times[i]).total_seconds() for i in range(len(times)-1)]] *)
Fixpoint time_diffs (times : list datetime) : list Q :=
  match times with
  | current :: (next :: _) as rest =>
      total_seconds (next - current) :: time_diffs rest
  | _ => []
  end.

(** "Calculate time between screenshots" in [analyze_distractions] *)
Definition avg_interval (screenshot_analyses : list Database.screenshot_analysis)
  : Q :=
  if (1 <? length screenshot_analyses)%nat then
    let times := map Database.timestamp screenshot_analyses in
    let diffs := time_diffs times in
    match diffs with
    | [] => 30%Q
    | _ => (sum_Q diffs / inject_Z (Z.of_nat (length diffs)))%Q
    end
  else 30%Q.

(** [[a for a in screenshot_analyses if not a["focused"]]] *)
Definition distracted (screenshot_analyses : list Database.screenshot_analysis)
  : list Database.screenshot_analysis :=
  filter (λ a, Database.focused a = false) screenshot_analyses.

(** [sum(1 for i in intervals if i["focused"])] *)
Definition focused_intervals (intervals : list Database.interval) : nat :=
  length (filter (λ i, Database.interval_focused i = true) intervals).

(** The time from the judgment number [i] to the next one, in seconds. *)
Definition gap (screenshot_analyses : list Database.screenshot_analysis)
    (i : nat) : Q :=
  match screenshot_analyses !! i, screenshot_analyses !! S i with
  | Some current, Some next =>
      total_seconds (Database.timestamp next - Database.timestamp current)
  | _, _ => 0%Q
  end.

(** A store with one active session and two distracted judgments, 30.9
    seconds apart. *)
Definition fractional_store : Database.t :=
  {| Database.sessions := {["s1" := FocusMonitor.scenario_session]};
     Database.intervals := []; Database.nudges := [];
     Database.screenshot_analyses :=
       [{| Database.analysis_session_id := "s1"; Database.timestamp := 0;
           Database.focused := false;
           Database.explanation := "A video site is open." |};
        {| Database.analysis_session_id := "s1"; Database.timestamp := 30900000;
           Database.focused := false;
           Database.explanation := "A video is playing." |}] |}.

Definition double_quote : ascii := ascii_of_nat 34.
Definition single_quote : ascii := ascii_of_nat 39.

Section Services.

(** The language model: the text of its reply to a request, [None] when the
    call raises. *)
Variable claude : prompt → option string.

(** [json.loads] on the replies that hold a mapping from names to integers;
    [None] when it raises. *)
Variable json_loads : string → option (gmap string Z).

(** [f"{x:.1f}"] *)
Variable format_1f : Q → string.

(** [generate_session_title] *)
Definition generate_session_title (goal : string)
    (intervals : list Database.interval) (nudges : list Database.nudge)
  : string :=
  let focused_count := focused_intervals intervals in
  let distracted_count := (length intervals - focused_count)%nat in
  match claude (TitlePrompt goal focused_count distracted_count (length nudges)) with
  | Some text =>
      let title := strip text in
      strip_with (Ascii.eqb single_quote) (strip_with (Ascii.eqb double_quote) title)
  | None => "Focus Session"
  end.

(** The request of [analyze_distractions]. *)
Definition distraction_prompt
    (screenshot_analyses : list Database.screenshot_analysis) : prompt :=
  DistractionPrompt (avg_interval screenshot_analyses)
    (imap (λ i a, (S i, Database.timestamp a, Database.explanation a))
       (distracted screenshot_analyses)).

(** "Extract JSON from response (handle markdown code blocks)" *)
Definition extract_json (result_text : string) : string :=
  if contains "```json" result_text then
    match split_item1 "```json" result_text with
    | Some block => strip (split_item0 "```" block)
    | None => result_text
    end
  else if contains "```" result_text then
    match split_item1 "```" result_text with
    | Some block => strip (split_item0 "```" block)
    | None => result_text
    end
  else result_text.

(** [analyze_distractions]: the breakdown and the requests that were sent. *)
Definition analyze_distractions (db : Database.t) (session_id : string)
  : gmap string Z * list prompt :=
  let screenshot_analyses := Database.get_screenshot_analyses db session_id in
  let distracted_analyses := distracted screenshot_analyses in
  match distracted_analyses with
  | [] => (∅, [])
  | _ =>
      let request := distraction_prompt screenshot_analyses in
      let attempt :=
        match claude request with
        | Some text => json_loads (extract_json (strip text))
        | None => None
        end in
      match attempt with
      | Some distraction_data => (distraction_data, [request])
      | None =>
          let total_distraction_time :=
            Z.of_nat (length distracted_analyses)
            * int (avg_interval screenshot_analyses) in
          ({["General distraction" := total_distraction_time]}, [request])
      end
  end.

(** The request of [generate_session_analysis]. *)
Definition analysis_prompt (db : Database.t) (goal : string)
    (intervals : list Database.interval) (nudges : list Database.nudge)
    (focus_percentage : Q) (productive_time not_productive_time : Z)
    (session_id : string) : prompt :=
  let focused_count := focused_intervals intervals in
  let distracted_count := (length intervals - focused_count)%nat in
  let interval_summary :=
    map (λ i, (Database.interval_time_started i, Database.interval_focused i))
      (take 10 intervals) in
  let more_intervals :=
    if (10 <? length intervals)%nat then Some (length intervals - 10)%nat
    else None in
  let screenshot_analyses := Database.get_screenshot_analyses db session_id in
  let distracted_analyses := distracted screenshot_analyses in
  let distraction_examples :=
    match distracted_analyses with
    | [] => []
    | _ =>
        let step := Nat.max 1 (length distracted_analyses / 5) in
        let sample_distractions := take 5 (slice_step step distracted_analyses) in
        map (λ a, (Database.timestamp a, Database.explanation a))
          sample_distractions
    end in
  AnalysisPrompt goal focus_percentage productive_time not_productive_time
    focused_count distracted_count (length nudges)
    interval_summary more_intervals distraction_examples.

(** [generate_session_analysis] *)
Definition generate_session_analysis (db : Database.t) (goal : string)
    (intervals : list Database.interval) (nudges : list Database.nudge)
    (focus_percentage : Q) (productive_time not_productive_time : Z)
    (session_id : string) : string :=
  match claude (analysis_prompt db goal intervals nudges focus_percentage
                  productive_time not_productive_time session_id) with
  | Some text => strip text
  | None =>
      "You worked on: " +:+ goal +:+ ". Your focus percentage was "
        +:+ format_1f focus_percentage +:+ "%."
  end.

(** [analyze_and_end_session]: [inl] is the exception that leaves the method,
    [inr] the store after the method and the session it returns.  [now] is
    [datetime.now()] inside [Database.end_session]. *)
Definition analyze_and_end_session (db : Database.t) (now : datetime)
    (session_id : string) : error + Database.t * option Database.session :=
  match Database.get_session db session_id with
  | None => inl (ValueError ("Session " +:+ session_id +:+ " not found"))
  | Some session =>
      if negb (String.eqb (Database.status session) "active")
      then inl (ValueError ("Session " +:+ session_id +:+ " is not active"))
      else
        let screenshot_analyses := Database.get_screenshot_analyses db session_id in
        let intervals := Database.get_session_intervals db session_id in
        let nudges := Database.get_session_nudges db session_id in
        let '(productive_time, not_productive_time) :=
          match screenshot_analyses with
          | [] => (0, 0)
          | _ => accumulate_durations 30 screenshot_analyses (0, 0)
          end in
        let total_time := productive_time + not_productive_time in
        let focus_percentage := percentage productive_time total_time in
        let title :=
          generate_session_title (Database.goal session) intervals nudges in
        let ai_analysis :=
          generate_session_analysis db (Database.goal session) intervals nudges
            focus_percentage productive_time not_productive_time session_id in
        let ai_structured_output := fst (analyze_distractions db session_id) in
        let db' :=
          Database.end_session db now session_id title focus_percentage
            productive_time not_productive_time (Z.of_nat (length nudges))
            ai_analysis ai_structured_output in
        inr (db', Database.get_session db' session_id)
  end.

End Services.

End SessionAnalyzer.

(** ** The route that ends a session ([app.py]) *)

Module App.

Record SessionEndRequest := {
  title : string;
  focus_percentage : Q;
  productive_time : Z;
  not_productive_time : Z;
  nudges_received : Z;
  ai_analysis : string;
  ai_structured_output : gmap string Z
}.

Inductive HTTPException := HTTP (status_code : Z) (detail : string).

(** [POST /api/sessions/{session_id}/end] *)
Definition end_session (db : Database.t) (now : datetime) (session_id : string)
    (data : SessionEndRequest) : HTTPException + Database.t :=
  if negb (Database.check_session_active db session_id)
  then inl (HTTP 400 "Session is not active")
  else
    inr (Database.end_session db now session_id (title data)
           (focus_percentage data) (productive_time data)
           (not_productive_time data) (nudges_received data)
           (ai_analysis data) (ai_structured_output data)).

End App.

(** ** The rest of the store ([database.py]) *)

Module DatabaseRest.

(** [delete_screenshot_analyses]: [DELETE FROM screenshot_analyses WHERE
    session_id = ?] *)
Definition delete_screenshot_analyses (db : Database.t) (session_id : string)
  : Database.t :=
  {| Database.sessions := Database.sessions db;
     Database.intervals := Database.intervals db;
     Database.nudges := Database.nudges db;
     Database.screenshot_analyses :=
       filter (λ r, Database.analysis_session_id r ≠ session_id)
         (Database.screenshot_analyses db) |}.

End DatabaseRest.

(** ** What a run of the monitor shows *)

Module Observe.

Definition is_sleep (e : FocusMonitor.event) : bool :=
  match e with FocusMonitor.Sleep _ => true | _ => false end.

Definition is_notification (e : FocusMonitor.event) : bool :=
  match e with FocusMonitor.Notification _ _ => true | _ => false end.

(** The length of an interval. *)
Definition span (iv : Database.interval) : Z :=
  Database.interval_time_ended iv - Database.interval_time_started iv.

(** The number of distracted judgments of a stream. *)
Definition distractions (js : list (FocusMonitor.tick * bool * string)) : nat :=
  length (filter (λ j, FocusMonitor.state_of j = false) js).

(** The rows of a session in each table, in insertion order. *)
Definition intervals_of (db : Database.t) (session_id : string)
  : list Database.interval :=
  filter (λ r, Database.interval_session_id r = session_id) (Database.intervals db).

Definition nudges_of (db : Database.t) (session_id : string)
  : list Database.nudge :=
  filter (λ r, Database.nudge_session_id r = session_id) (Database.nudges db).

Definition analyses_of (db : Database.t) (session_id : string)
  : list Database.screenshot_analysis :=
  filter (λ r, Database.analysis_session_id r = session_id)
    (Database.screenshot_analyses db).

End Observe.

(** ** The other routes ([app.py]) *)

Module Routes.

(** The process: the store and the registry [active_monitors].  The
    attribute [db] of a monitor of the registry is a handle on the database
    file of the process, so a monitor taken from the registry reads the
    store of the process. *)
Record state := {
  db : Database.t;
  active_monitors : gmap string FocusMonitor.t
}.

(** [session_id in active_monitors] *)
Definition monitored (app : state) (session_id : string) : bool :=
  match active_monitors app !! session_id with
  | Some _ => true
  | None => false
  end.

(** The answer of [POST /api/sessions]. *)
Record created_session := {
  created_session_id : string;
  created_goal : string;
  created_time_started : datetime;
  created_status : string
}.

(** [POST /api/sessions]: [uuid] is [str(uuid.uuid4())], [now] the clock
    inside [Database.create_session].  The failed insertion is
    [sqlite3.IntegrityError], turned into the status 500. *)
Definition create_session (app : state) (now : datetime) (uuid goal : string)
  : App.HTTPException + state * created_session :=
  match Database.create_session (db app) now uuid goal with
  | Some db' =>
      inr ({| db := db'; active_monitors := active_monitors app |},
           {| created_session_id := uuid; created_goal := goal;
              created_time_started := now; created_status := "active" |})
  | None => inl (App.HTTP 500 "UNIQUE constraint failed: sessions.id")
  end.

(** [GET /api/sessions/{session_id}] *)
Definition get_session (app : state) (session_id : string)
  : App.HTTPException + Database.session :=
  match Database.get_session (db app) session_id with
  | Some session => inr session
  | None => inl (App.HTTP 404 "Session not found")
  end.

(** [GET /api/sessions/{session_id}/active]: the pair [(active, monitoring)] *)
Definition check_session_active (app : state) (session_id : string) : bool * bool :=
  (Database.check_session_active (db app) session_id, monitored app session_id).

(** [POST /api/sessions/{session_id}/start-monitoring], up to the scheduling
    of the background task: [inr] is the session and the goal that
    [run_monitor] is scheduled with. *)
Definition start_monitoring (app : state) (session_id : string)
  : App.HTTPException + string * string :=
  if negb (Database.check_session_active (db app) session_id)
  then inl (App.HTTP 400 "Session is not active")
  else if monitored app session_id
  then inl (App.HTTP 400 "Session is already being monitored")
  else
    match Database.get_session (db app) session_id with
    | None => inl (App.HTTP 404 "Session not found")
    | Some session => inr (session_id, Database.goal session)
    end.

(** [run_monitor], the background task, run without any other request in
    between: the monitor is registered, the loop runs on the store of the
    process, and the entry is removed whether or not the loop raised. *)
Definition run_monitor (app : state) (session_id goal : string)
    (ticks : list FocusMonitor.tick) (end_now : datetime) : state :=
  let monitor := FocusMonitor.init (db app) session_id goal 30 in
  let registry := <[session_id := monitor]> (active_monitors app) in
  let '(monitor', _, _) := FocusMonitor.monitor_loop ticks end_now monitor in
  {| db := FocusMonitor.db monitor';
     active_monitors :=
       match registry !! session_id with
       | Some _ => delete session_id registry
       | None => registry
       end |}.

(** [POST /api/sessions/{session_id}/stop-monitoring]: [now] is the clock
    inside [Database.end_session].  The summary is computed and not used. *)
Definition stop_monitoring (claude : SessionAnalyzer.prompt → option string)
    (json_loads : string → option (gmap string Z)) (format_1f : Q → string)
    (app : state) (now : datetime) (session_id : string)
  : App.HTTPException + state * option Database.session :=
  if negb (monitored app session_id)
     && negb (Database.check_session_active (db app) session_id)
  then inl (App.HTTP 400 "Session is not active")
  else
    let monitor := active_monitors app !! session_id in
    let summary :=
      match monitor with
      | Some m => FocusMonitor.get_session_summary (FocusMonitor.with_db m (db app))
      | None =>
          let analyses := Database.get_screenshot_analyses (db app) session_id in
          let nudges := Database.get_session_nudges (db app) session_id in
          let '(productive_time, not_productive_time) :=
            match analyses with
            | [] => (0, 0)
            | _ => accumulate_durations 30 analyses (0, 0)
            end in
          let total_time := productive_time + not_productive_time in
          {| summary_productive_time := productive_time;
             summary_not_productive_time := not_productive_time;
             summary_focus_percentage := percentage productive_time total_time;
             summary_nudges_received := Z.of_nat (length nudges) |}
      end in
    match SessionAnalyzer.analyze_and_end_session claude json_loads format_1f
            (db app) now session_id with
    | inl (SessionAnalyzer.ValueError message) => inl (App.HTTP 500 message)
    | inr (db', result) =>
        inr ({| db := db';
                active_monitors :=
                  if monitored app session_id
                  then delete session_id (active_monitors app)
                  else active_monitors app |},
             result)
    end.

(** The loop of [get_live_session_stats]: as [accumulate_durations], but the
    last judgment lasts the time since its timestamp, at most 120 seconds. *)
Fixpoint accumulate_live (now : datetime)
    (analyses : list Database.screenshot_analysis) (acc : Z * Z) : Z * Z :=
  match analyses with
  | [] => acc
  | analysis :: rest =>
      let duration :=
        match rest with
        | next :: _ =>
            seconds_between (Database.timestamp analysis) (Database.timestamp next)
        | [] =>
            let last_time := Database.timestamp analysis in
            Z.min (seconds_between last_time now) 120
        end in
      accumulate_live now rest
        (if Database.focused analysis
         then (fst acc + duration, snd acc)
         else (fst acc, snd acc + duration))
  end.

Record live_stats := {
  live_productive_time : Z;
  live_not_productive_time : Z;
  live_focus_percentage : Q;
  live_nudges_received : Z;
  live_analyses_count : Z
}.

(** [GET /api/sessions/{session_id}/live-stats]: [now] is [datetime.now()] *)
Definition get_live_session_stats (app : state) (now : datetime)
    (session_id : string) : live_stats :=
  let analyses := Database.get_screenshot_analyses (db app) session_id in
  let nudges := Database.get_session_nudges (db app) session_id in
  let '(productive_time, not_productive_time) :=
    match analyses with
    | [] => (0, 0)
    | _ => accumulate_live now analyses (0, 0)
    end in
  let total_time := productive_time + not_productive_time in
  {| live_productive_time := productive_time;
     live_not_productive_time := not_productive_time;
     live_focus_percentage := percentage productive_time total_time;
     live_nudges_received := Z.of_nat (length nudges);
     live_analyses_count := Z.of_nat (length analyses) |}.

End Routes.

(** ** The command line ([main.py]) *)

Module Main.

(** What [create_new_session] comes to: [None] for an empty goal, the pair
    [(session_id, goal)] with the store after the insertion, or the exception
    of the insertion. *)
Inductive creation :=
| EmptyGoal
| Created (db : Database.t) (session_id goal : string)
| InsertionRaised.

(** [create_new_session]: [typed] is the line read by [input], [uuid] is
    [str(uuid.uuid4())]. *)
Definition create_new_session (db : Database.t) (now : datetime)
    (typed uuid : string) : creation :=
  let goal := strip typed in
  if negb (truthy goal) then EmptyGoal
  else
    match Database.create_session db now uuid goal with
    | Some db' => Created db' uuid goal
    | None => InsertionRaised
    end.




End Main.

(** ** Texts without a given character *)

(** Whether the character [c] occurs in a text. *)
Fixpoint has_char (c : ascii) (s : string) : bool :=
  match s with
  | EmptyString => false
  | String x s' => Ascii.eqb x c || has_char c s'
  end.

(** The backtick of the fences of a reply. *)
Definition backtick : ascii := ascii_of_nat 96.

(** * Properties *)

(** ** The loop of the monitor *)

Module MonitorFacts.
Import FocusMonitor.

(** Unfolding of the computations of the monitor on an explicit object. *)
Ltac run_monitor :=
  cbv [mbind M_bind bind mret M_ret ret get modify emit raise store
       track_interval handle_interval_change update_consecutive_distractions
       show_notification save_final_interval
       with_db with_current_interval with_consecutive_distractions
       with_nudges_sent Database.add_interval Database.add_screenshot_analysis
       Database.add_nudge format_str];
  cbn.

Lemma analyze_with_claude_some text :
  ∃ c e, analyze_with_claude (Some text) = (Some c, Some e) ∧
         c = upper (strip (split_newline_once (strip text)).1) ∧
         e = match (split_newline_once (strip text)).2 with
             | Some r => strip r
             | None => ""
             end.
Proof.
  unfold analyze_with_claude.
  destruct (split_newline_once (strip text)) as [line rest]; simpl.
  eauto.
Qed.

(** A classification that is present comes with an explanation. *)
Lemma analyze_with_claude_explained response c :
  (analyze_with_claude response).1 = Some c →
  is_Some (analyze_with_claude response).2.
Proof.
  destruct response as [text|]; [|discriminate].
  destruct (analyze_with_claude_some text) as (c' & e & -> & _); simpl; eauto.
Qed.

Lemma iteration_unavailable tk self :
  judgment_of tk = None → iteration tk self = (self, [Sleep 30], Some tt).
Proof.
  unfold judgment_of, classify, iteration.
  destruct (analyze_with_qwen (vision tk)) as [d|]; [|reflexivity].
  destruct (truthy d); [|reflexivity].
  destruct (response tk) as [text|]; [|reflexivity].
  destruct (analyze_with_claude_some text) as (c & e & -> & _).
  destruct (truthy c); [discriminate|reflexivity].
Qed.

Lemma iteration_classified tk f e self :
  consistent self →
  judgment_of tk = Some (tk, f, e) →
  ∃ self' (nudged : bool),
    iteration tk self =
      (self',
       (if nudged then [Notification reminder_title ("Get back to: " +:+ goal self)]
        else []) ++ [Sleep 30],
       Some tt)
    ∧ consistent self'
    ∧ session_id self' = session_id self
    ∧ goal self' = goal self
    ∧ screenshot_interval self' = screenshot_interval self
    ∧ consecutive_distractions_for_nudge self' = consecutive_distractions_for_nudge self
    ∧ Database.sessions (db self') = Database.sessions (db self)
    ∧ Database.screenshot_analyses (db self') =
        Database.screenshot_analyses (db self) ++ [analysis_row (session_id self) (tk, f, e)]
    ∧ (Database.intervals (db self'), open_interval self') =
        (let '(closed, open) :=
           tracker_step (session_id self) (open_interval self) (now tk, f) in
         (Database.intervals (db self) ++ closed, open))
    ∧ (nudged, consecutive_distractions self') =
        policy_step (consecutive_distractions_for_nudge self)
          (consecutive_distractions self) f
    ∧ nudges_sent self' = (if nudged then nudges_sent self + 1 else nudges_sent self)
    ∧ Database.nudges (db self') =
        Database.nudges (db self) ++
          (if nudged then [nudge_row self (tk, f, e)] else []).
Proof.
  intros Hwf Hj. unfold judgment_of, classify in Hj. unfold iteration.
  destruct (analyze_with_qwen (vision tk)) as [d|]; [|discriminate].
  destruct (truthy d); [|discriminate].
  destruct (analyze_with_claude (response tk)) as [[c|] [e'|]]; try discriminate.
  destruct (truthy c); [|discriminate].
  injection Hj as <- <-.
  generalize (contains "FOCUSED" c); intros f; clear c d.
  destruct self as [sid g si store cd ns start foc thr].
  unfold consistent in Hwf; simpl in Hwf.
  unfold policy_step, tracker_step, open_interval, consistent, nudge_row, analysis_row.
  destruct start as [start|], foc as [state|].
  2: { exfalso. apply (@is_Some_None bool), Hwf. eauto. }
  2: { exfalso. apply (@is_Some_None datetime), Hwf. eauto. }
  - destruct f, state; run_monitor.
    all: try (eexists _, false; run_monitor; rewrite ?app_nil_r;
              repeat split; eauto; fail).
    all: destruct (thr <=? cd + 1) eqn:Hthr.
    all: try (eexists _, true; run_monitor; rewrite ?Hthr; run_monitor;
              rewrite ?app_nil_r; repeat split; eauto; fail).
    all: try (eexists _, false; run_monitor; rewrite ?Hthr; run_monitor;
              rewrite ?app_nil_r; repeat split; eauto; fail).
  - destruct f; run_monitor.
    all: try (eexists _, false; run_monitor; rewrite ?app_nil_r;
              repeat split; eauto; fail).
    all: destruct (thr <=? cd + 1) eqn:Hthr.
    all: try (eexists _, true; run_monitor; rewrite ?Hthr; run_monitor;
              rewrite ?app_nil_r; repeat split; eauto; fail).
    all: try (eexists _, false; run_monitor; rewrite ?Hthr; run_monitor;
              rewrite ?app_nil_r; repeat split; eauto; fail).
Qed.

Lemma while_true_cons tk rest self :
  Database.check_session_active (db self) (session_id self) = true →
  while_true (tk :: rest) self =
    match iteration tk self with
    | (self1, out1, Some _) =>
        let '(self2, out2, r) := while_true rest self1 in (self2, out1 ++ out2, r)
    | (self1, out1, None) => (self1, out1, None)
    end.
Proof.
  intros Hactive. cbn [while_true].
  unfold mbind at 1, M_bind at 1, bind at 1, get. rewrite Hactive. cbn.
  unfold mbind, M_bind, bind.
  destruct (iteration tk self) as [[self1 out1] [[]|]]; [|reflexivity].
  destruct (while_true rest self1) as [[self2 out2] r]; reflexivity.
Qed.

Lemma check_session_active_sessions db1 db2 sid :
  Database.sessions db1 = Database.sessions db2 →
  Database.check_session_active db1 sid = Database.check_session_active db2 sid.
Proof. unfold Database.check_session_active. intros ->. reflexivity. Qed.

(** The loop on a list of passes, in closed form: the judgments are stored,
    the tracker and the policy are run on them. *)
Lemma while_true_run ticks : ∀ self,
  consistent self →
  Database.check_session_active (db self) (session_id self) = true →
  ∃ self' out,
    while_true ticks self = (self', out, Some tt)
    ∧ consistent self'
    ∧ session_id self' = session_id self
    ∧ goal self' = goal self
    ∧ screenshot_interval self' = screenshot_interval self
    ∧ consecutive_distractions_for_nudge self' = consecutive_distractions_for_nudge self
    ∧ Database.sessions (db self') = Database.sessions (db self)
    ∧ Database.screenshot_analyses (db self') =
        Database.screenshot_analyses (db self)
          ++ map (analysis_row (session_id self)) (judgments ticks)
    ∧ (Database.intervals (db self'), open_interval self') =
        (let '(closed, open) :=
           tracker_run (session_id self) (open_interval self)
             (map sample_of (judgments ticks)) in
         (Database.intervals (db self) ++ closed, open))
    ∧ (let '(nudging, counter) :=
         policy_run (consecutive_distractions_for_nudge self)
           (consecutive_distractions self) (judgments ticks) in
       consecutive_distractions self' = counter
       ∧ nudges_sent self' = nudges_sent self + Z.of_nat (length nudging)
       ∧ Database.nudges (db self') =
           Database.nudges (db self) ++ map (nudge_row self) nudging).
Proof.
  induction ticks as [|tk rest IH]; intros self Hwf Hactive.
  - exists self, []. cbn. rewrite !app_nil_r, Z.add_0_r.
    destruct (open_interval self); repeat split; auto; apply Hwf.
  - rewrite while_true_cons by assumption.
    unfold judgments. cbn [omap list_omap]. fold (judgments rest).
    destruct (judgment_of tk) as [[[tk' f] e]|] eqn:Hj.
    + assert (tk' = tk) as ->.
      { unfold judgment_of in Hj. destruct (classify _ _) as [[]|]; congruence. }
      destruct (iteration_classified tk f e self Hwf Hj)
        as (self1 & nudged & -> & Hwf1 & Hsid & Hgoal & Hsi & Hthr & Hsess
            & Han & Htr & Hpol & Hns & Hnud).
      destruct (IH self1 Hwf1) as (self2 & out2 & -> & Hwf2 & Hsid2 & Hgoal2
            & Hsi2 & Hthr2 & Hsess2 & Han2 & Htr2 & Hpol2).
      { rewrite Hsid, (check_session_active_sessions _ (db self)); auto. }
      eexists _, _. split; [reflexivity|].
      rewrite Hsid2, Hgoal2, Hsi2, Hthr2, Hsess2, Han2, Htr2.
      rewrite Hsid, Hgoal, Hsi, Hthr, Hsess, Han.
      repeat (split; [solve [auto]|]).
      split; [cbn; rewrite <- app_assoc; reflexivity|].
      split.
      * cbn [map tracker_run].
        change (sample_of (tk, f, e)) with (now tk, f).
        destruct (tracker_step (session_id self) (open_interval self) (now tk, f))
          as [closed open1] eqn:Hstep.
        injection Htr as Hint Hopen. rewrite Hint, Hopen.
        destruct (tracker_run (session_id self) open1 (map sample_of (judgments rest)))
          as [closed' open2].
        rewrite app_assoc. reflexivity.
      * cbn [policy_run].
        change (state_of (tk, f, e)) with f.
        destruct (policy_step (consecutive_distractions_for_nudge self)
                    (consecutive_distractions self) f) as [nudged' counter1] eqn:Hstep.
        injection Hpol as -> Hc. rewrite Hc, Hthr in Hpol2.
        destruct (policy_run (consecutive_distractions_for_nudge self) counter1
                    (judgments rest)) as [nudging counter2].
        destruct Hpol2 as (Hc2 & Hns2 & Hnud2).
        split; [exact Hc2|]. split.
        -- rewrite Hns2, Hns, length_app. destruct nudged'; cbn [length]; lia.
        -- rewrite Hnud2, Hnud, map_app, app_assoc.
           f_equal; [|unfold nudge_row; rewrite Hsid; reflexivity].
           destruct nudged'; reflexivity.
    + rewrite (iteration_unavailable tk self Hj).
      destruct (IH self Hwf Hactive) as (self2 & out2 & -> & H).
      eexists _, _. split; [reflexivity|]. exact H.
Qed.

(** [monitor_loop] in closed form. *)
Lemma monitor_loop_run store sid goal si ticks end_now :
  Database.check_session_active store sid = true →
  ∃ self' out,
    monitor_loop ticks end_now (init store sid goal si) = (self', out, Some tt)
    ∧ Database.intervals (db self') =
        Database.intervals store ++
          (let '(closed, open) :=
             tracker_run sid None (map sample_of (judgments ticks)) in
           closed ++ tracker_close sid open end_now).
Proof.
  intros Hactive. unfold monitor_loop.
  unfold mbind at 1, M_bind at 1, bind at 1, emit at 1.
  destruct (while_true_run ticks (init store sid goal si))
    as (self1 & out1 & -> & Hwf & Hsid & _ & _ & _ & _ & _ & Htr & _).
  { unfold consistent; cbn. split; intros H; destruct (is_Some_None H). }
  { exact Hactive. }
  cbn [init open_interval current_interval_start session_id db] in Htr.
  destruct (tracker_run sid None (map sample_of (judgments ticks)))
    as [closed open] eqn:Hrun.
  injection Htr as Hint Hopen.
  unfold save_final_interval, mbind, M_bind, bind, get, FocusMonitor.store.
  unfold open_interval in Hopen. unfold consistent in Hwf.
  destruct (current_interval_start self1) as [start|] eqn:Hs,
           (current_interval_focused self1) as [state|] eqn:Hf.
  2: { exfalso. apply (@is_Some_None bool), Hwf. eauto. }
  2: { exfalso. apply (@is_Some_None datetime), Hwf. eauto. }
  - subst open. cbn. eexists _, _. split; [reflexivity|].
    cbn. rewrite Hint, Hsid, <- app_assoc. reflexivity.
  - subst open. cbn. eexists _, _. split; [reflexivity|].
    rewrite Hint, app_nil_r. reflexivity.
Qed.

(** ** Runs *)

Lemma maximal_runs_cons j rest :
  ∃ run more, maximal_runs (j :: rest) = (j :: run) :: more.
Proof.
  cbn. destruct (maximal_runs rest) as [|[|j' run] more]; eauto.
  destruct (Bool.eqb j.2 j'.2); eauto.
Qed.

Lemma maximal_runs_same a b rest :
  a.2 = b.2 →
  ∃ run more,
    maximal_runs (a :: rest) = (a :: run) :: more
    ∧ maximal_runs (a :: b :: rest) = (a :: b :: run) :: more.
Proof.
  intros Hab. cbn.
  destruct (maximal_runs rest) as [|[|j' run] more].
  - rewrite Hab, eqb_reflx. eauto.
  - rewrite Hab, eqb_reflx. eauto.
  - rewrite Hab. destruct (Bool.eqb b.2 j'.2) eqn:Hb.
    + rewrite eqb_reflx. eauto.
    + rewrite eqb_reflx. eauto.
Qed.

Lemma maximal_runs_shape js :
  (js = [] ∧ maximal_runs js = [])
  ∨ ∃ j run more, maximal_runs js = (j :: run) :: more.
Proof.
  destruct js as [|j rest]; [left; split; reflexivity|right].
  destruct (maximal_runs_cons j rest) as (run & more & H). eauto.
Qed.

Lemma maximal_runs_concat js : concat (maximal_runs js) = js.
Proof.
  induction js as [|j rest IH]; [reflexivity|]. cbn.
  destruct (maximal_runs_shape rest) as [[-> ->]|(j' & run & more & Hrest)].
  - reflexivity.
  - rewrite Hrest in *.
    destruct (Bool.eqb j.2 j'.2); cbn in *; rewrite <- IH; reflexivity.
Qed.

Lemma maximal_runs_alternating js : alternating (maximal_runs js).
Proof.
  induction js as [|j rest IH]; [constructor|]. cbn.
  destruct (maximal_runs_shape rest) as [[-> ->]|(j' & run & more & Hrest)].
  - apply (alternating_one _ j.2). split; [discriminate|]. repeat constructor.
  - rewrite Hrest in *. destruct (Bool.eqb j.2 j'.2) eqn:Hjj.
    + apply eqb_prop in Hjj.
      inversion IH as [|run0 b [Hne Hall] Heq|run0 b run1 more1 [Hne Hall] Hr1 Halt Heq];
        subst.
      * apply (alternating_one _ b). split; [discriminate|].
        constructor; [|exact Hall]. rewrite Hjj. inversion Hall; assumption.
      * apply (alternating_cons _ b); [|assumption..]. split; [discriminate|].
        constructor; [|exact Hall]. rewrite Hjj. inversion Hall; assumption.
    + apply eqb_false_iff in Hjj.
      assert (run_of_state (negb j.2) (j' :: run)) as Hrun'.
      { inversion IH as [|run0 b [Hne Hall] Heq|run0 b run1 more1 [Hne Hall] Hr1 Halt Heq];
          subst.
        - assert (b = negb j.2) as ->; [|split; assumption].
          inversion Hall; subst. destruct j.2, j'.2; cbn; congruence.
        - assert (b = negb j.2) as ->; [|split; assumption].
          inversion Hall; subst. destruct j.2, j'.2; cbn; congruence. }
      apply (alternating_cons _ j.2); [|assumption..].
      split; [discriminate|]. repeat constructor.
Qed.

(** The tracker, run to its termination, writes one interval for each
    maximal run. *)
Lemma tracker_run_open sid end_now js : ∀ start state,
  (let '(closed, open) := tracker_run sid (Some (start, state)) js in
   closed ++ tracker_close sid open end_now) =
  intervals_of_runs sid (maximal_runs ((start, state) :: js)) end_now.
Proof.
  induction js as [|[t f] rest IH]; intros start state.
  - reflexivity.
  - cbn [tracker_run tracker_step snd fst].
    destruct (Bool.eqb state f) eqn:Hsf.
    + apply eqb_prop in Hsf. subst f.
      specialize (IH start state).
      destruct (tracker_run sid (Some (start, state)) rest) as [closed open].
      rewrite app_nil_l, IH.
      destruct (maximal_runs_same (start, state) (t, state) rest eq_refl)
        as (run & more & H1 & H2).
      rewrite H1, H2. reflexivity.
    + specialize (IH t f).
      destruct (tracker_run sid (Some (t, f)) rest) as [closed open].
      cbn [app]. rewrite IH.
      cbn [maximal_runs].
      destruct (maximal_runs_cons (t, f) rest) as (run & more & Hrun).
      cbn [maximal_runs] in Hrun. rewrite Hrun.
      cbn [snd]. rewrite Hsf. reflexivity.
Qed.

Lemma tracker_run_closed sid end_now js :
  (let '(closed, open) := tracker_run sid None js in
   closed ++ tracker_close sid open end_now) =
  intervals_of_runs sid (maximal_runs js) end_now.
Proof.
  destruct js as [|[t f] rest]; [reflexivity|].
  cbn [tracker_run tracker_step].
  pose proof (tracker_run_open sid end_now rest t f) as H.
  destruct (tracker_run sid (Some (t, f)) rest) as [closed open].
  exact H.
Qed.

Lemma alternating_nonempty runs :
  alternating runs → Forall (λ run : list sample, run ≠ []) runs.
Proof.
  induction 1 as [|run b [Hne _]|run b run' more [Hne _] _ _ IH].
  - constructor.
  - constructor; [exact Hne|constructor].
  - constructor; [exact Hne|exact IH].
Qed.

Lemma intervals_of_runs_length sid runs end_now :
  Forall (λ run : list sample, run ≠ []) runs →
  length (intervals_of_runs sid runs end_now) = length runs.
Proof.
  induction 1 as [|[|[start state] run] more Hne _ IH]; cbn; congruence.
Qed.

Lemma intervals_of_runs_lookup sid end_now runs :
  Forall (λ run : list sample, run ≠ []) runs →
  ∀ i run, runs !! i = Some run →
    ∃ first, head run = Some first
      ∧ intervals_of_runs sid runs end_now !! i =
          Some (interval_row sid first.1
                  match intervals_of_runs sid runs end_now !! S i with
                  | Some next => Database.interval_time_started next
                  | None => end_now
                  end first.2).
Proof.
  induction 1 as [|[|[start state] run0] more Hne Hmore IH]; intros i run Hi.
  - destruct i; discriminate.
  - congruence.
  - destruct i as [|i]; cbn in Hi.
    + injection Hi as <-. exists (start, state). split; [reflexivity|].
      cbn. repeat f_equal.
      destruct Hmore as [|[|[next ?] ?] ? Hne' ?]; [reflexivity|congruence|reflexivity].
    + destruct (IH i run Hi) as (first & Hfirst & Hlook).
      exists first. split; [exact Hfirst|]. exact Hlook.
Qed.

(** C1. The intervals that a run of the monitor writes are the run-length
    encoding of the states of its successfully classified judgments: the
    maximal runs of one state partition the judgments in order, and the run
    number [i] is written as the interval number [i], with the state of the
    run, starting at the timestamp of the first judgment of the run, and
    ending where the next interval starts, the last one at the termination
    time [end_now]. *)
Theorem C1_intervals_are_run_length_encoding store sid goal si ticks end_now :
  Database.check_session_active store sid = true →
  let samples := map sample_of (judgments ticks) in
  let runs := maximal_runs samples in
  ∃ self out written,
    monitor_loop ticks end_now (init store sid goal si) = (self, out, Some tt)
    ∧ Database.intervals (db self) = Database.intervals store ++ written
    ∧ concat runs = samples
    ∧ alternating runs
    ∧ length written = length runs
    ∧ ∀ i run, runs !! i = Some run →
        ∃ first iv,
          head run = Some first
          ∧ written !! i = Some iv
          ∧ Database.interval_session_id iv = sid
          ∧ Database.interval_focused iv = first.2
          ∧ Database.interval_time_started iv = first.1
          ∧ Database.interval_time_ended iv =
              match written !! S i with
              | Some next => Database.interval_time_started next
              | None => end_now
              end.
Proof.
  intros Hactive samples runs.
  destruct (monitor_loop_run store sid goal si ticks end_now Hactive)
    as (self & out & Hrun & Hint).
  fold samples in Hint. rewrite tracker_run_closed in Hint. fold runs in Hint.
  pose proof (maximal_runs_alternating samples) as Halt. fold runs in Halt.
  pose proof (alternating_nonempty runs Halt) as Hne.
  exists self, out, (intervals_of_runs sid runs end_now).
  split; [exact Hrun|]. split; [exact Hint|].
  split; [apply maximal_runs_concat|]. split; [exact Halt|].
  split; [apply intervals_of_runs_length, Hne|].
  intros i run Hi.
  destruct (intervals_of_runs_lookup sid end_now runs Hne i run Hi)
    as (first & Hfirst & Hlook).
  eexists first, _. split; [exact Hfirst|]. split; [exact Hlook|].
  repeat split.
Qed.

Lemma C1_witness :
  let ticks :=
    scenario_ticks ["FOCUSED"; "FOCUSED"; "DISTRACTED"; "DISTRACTED"; "DISTRACTED"] in
  let samples := map sample_of (judgments ticks) in
  let runs := maximal_runs samples in
  ∃ self out written,
    monitor_loop ticks 150000000 (init scenario_store "s1" "write the report" 30)
      = (self, out, Some tt)
    ∧ Database.intervals (db self) = Database.intervals scenario_store ++ written
    ∧ concat runs = samples
    ∧ alternating runs
    ∧ length written = length runs
    ∧ ∀ i run, runs !! i = Some run →
        ∃ first iv,
          head run = Some first
          ∧ written !! i = Some iv
          ∧ Database.interval_session_id iv = "s1"
          ∧ Database.interval_focused iv = first.2
          ∧ Database.interval_time_started iv = first.1
          ∧ Database.interval_time_ended iv =
              match written !! S i with
              | Some next => Database.interval_time_started next
              | None => 150000000
              end.
Proof.
  apply (C1_intervals_are_run_length_encoding scenario_store "s1"
           "write the report" 30).
  vm_compute. reflexivity.
Defined.

(** The scenario of the specification, evaluated: two intervals. *)
Example scenario_intervals :
  Database.intervals
    (db (object_after
           (monitor_loop
              (scenario_ticks
                 ["FOCUSED"; "FOCUSED"; "DISTRACTED"; "DISTRACTED"; "DISTRACTED"])
              150000000 (init scenario_store "s1" "write the report" 30)))) =
  [interval_row "s1" 0 60000000 true; interval_row "s1" 60000000 150000000 false].
Proof. vm_compute. reflexivity. Qed.

(** ** The nudge policy *)

Lemma iteration_returns tk self :
  consistent self →
  ∃ self' out,
    iteration tk self = (self', out, Some tt)
    ∧ consistent self'
    ∧ session_id self' = session_id self
    ∧ goal self' = goal self
    ∧ consecutive_distractions_for_nudge self' = consecutive_distractions_for_nudge self
    ∧ Database.sessions (db self') = Database.sessions (db self).
Proof.
  intros Hwf. destruct (judgment_of tk) as [[[tk' f] e]|] eqn:Hj.
  - assert (tk' = tk) as ->.
    { unfold judgment_of in Hj. destruct (classify _ _) as [[]|]; congruence. }
    destruct (iteration_classified tk f e self Hwf Hj)
      as (self1 & nudged & H & Hwf1 & Hsid & Hgoal & _ & Hthr & Hsess & _).
    eauto 10.
  - rewrite (iteration_unavailable tk self Hj). eauto 10.
Qed.

Lemma while_true_snoc pre tk : ∀ self,
  consistent self →
  Database.check_session_active (db self) (session_id self) = true →
  ∃ self1 out1 self2 out2,
    while_true pre self = (self1, out1, Some tt)
    ∧ iteration tk self1 = (self2, out2, Some tt)
    ∧ while_true (pre ++ [tk]) self = (self2, out1 ++ out2, Some tt)
    ∧ consistent self1
    ∧ session_id self1 = session_id self
    ∧ goal self1 = goal self
    ∧ consecutive_distractions_for_nudge self1 = consecutive_distractions_for_nudge self.
Proof.
  induction pre as [|tk0 pre IH]; intros self Hwf Hactive.
  - destruct (iteration_returns tk self Hwf) as (self2 & out2 & Hit & _).
    exists self, [], self2, out2. cbn [app].
    rewrite while_true_cons, Hit by assumption. cbn. rewrite app_nil_r. auto 10.
  - cbn [app]. rewrite !while_true_cons by assumption.
    destruct (iteration_returns tk0 self Hwf)
      as (self0 & out0 & -> & Hwf0 & Hsid0 & Hgoal0 & Hthr0 & Hsess0).
    destruct (IH self0 Hwf0)
      as (self1 & out1 & self2 & out2 & -> & Hit & -> & Hwf1 & Hsid1 & Hgoal1 & Hthr1).
    { rewrite Hsid0, (check_session_active_sessions _ (db self)); auto. }
    exists self1, (out0 ++ out1), self2, out2.
    rewrite app_assoc. split; [reflexivity|]. split; [exact Hit|].
    split; [reflexivity|]. split; [exact Hwf1|]. repeat split; congruence.
Qed.

Lemma policy_run_snoc thr js j : ∀ c,
  policy_run thr c (js ++ [j]) =
    (let '(nudging, c1) := policy_run thr c js in
     let '(nudged, c2) := policy_step thr c1 (state_of j) in
     (nudging ++ (if nudged then [j] else []), c2)).
Proof.
  induction js as [|j0 js IH]; intros c; cbn [app policy_run].
  - destruct (policy_step thr c (state_of j)) as [nudged c2].
    rewrite app_nil_r. reflexivity.
  - destruct (policy_step thr c (state_of j0)) as [nudged0 c0].
    rewrite IH. destruct (policy_run thr c0 js) as [nudging c1].
    destruct (policy_step thr c1 (state_of j)) as [nudged c2].
    rewrite app_assoc. reflexivity.
Qed.

Lemma distraction_streak_snoc states f :
  distraction_streak (states ++ [f]) =
    if f then O else S (distraction_streak states).
Proof.
  unfold distraction_streak. rewrite reverse_snoc. destruct f; reflexivity.
Qed.

Lemma succ_mod_3 k :
  (S k mod 3 = if (k mod 3 =? 2) then 0 else S (k mod 3))%nat.
Proof.
  pose proof (Nat.div_mod_eq k 3) as Hk.
  pose proof (Nat.mod_upper_bound k 3 ltac:(lia)) as Hlt.
  destruct (k mod 3 =? 2)%nat eqn:H2.
  - apply Nat.eqb_eq in H2. symmetry.
    apply (Nat.mod_unique (S k) 3 (S (k / 3)) 0); lia.
  - apply Nat.eqb_neq in H2. symmetry.
    apply (Nat.mod_unique (S k) 3 (k / 3) (S (k mod 3))); lia.
Qed.

(** From a fresh counter, the counter is the length of the current streak of
    distractions modulo 3. *)
Lemma policy_run_counter js :
  (policy_run 3 0 js).2 =
    Z.of_nat (distraction_streak (map state_of js) mod 3).
Proof.
  induction js as [|j js IH] using rev_ind; [reflexivity|].
  rewrite policy_run_snoc, map_app. cbn [map]. rewrite distraction_streak_snoc.
  destruct (policy_run 3 0 js) as [nudging c1]. cbn [snd] in IH. subst c1.
  unfold policy_step. destruct (state_of j); [reflexivity|].
  rewrite succ_mod_3.
  pose proof (Nat.mod_upper_bound (distraction_streak (map state_of js)) 3
                ltac:(lia)) as Hlt.
  destruct (distraction_streak (map state_of js) mod 3 =? 2)%nat eqn:H2.
  - apply Nat.eqb_eq in H2. rewrite H2. reflexivity.
  - apply Nat.eqb_neq in H2.
    destruct (3 <=? Z.of_nat (distraction_streak (map state_of js) mod 3) + 1)
      eqn:Hle; cbn [snd]; lia.
Qed.

Lemma init_consistent store sid goal si : consistent (init store sid goal si).
Proof. unfold consistent; cbn. split; intros H; destruct (is_Some_None H). Qed.

Lemma while_true_fresh store sid goal si ticks :
  Database.check_session_active store sid = true →
  ∃ self out,
    while_true ticks (init store sid goal si) = (self, out, Some tt)
    ∧ consistent self
    ∧ session_id self = sid
    ∧ consecutive_distractions_for_nudge self = 3
    ∧ consecutive_distractions self =
        Z.of_nat (distraction_streak (map state_of (judgments ticks)) mod 3)
    ∧ nudges_sent self =
        Z.of_nat (length (policy_run 3 0 (judgments ticks)).1)
    ∧ Database.nudges (db self) =
        Database.nudges store ++
          map (nudge_row (init store sid goal si)) (policy_run 3 0 (judgments ticks)).1.
Proof.
  intros Hactive.
  destruct (while_true_run ticks (init store sid goal si)
              (init_consistent store sid goal si) Hactive)
    as (self & out & Hrun & Hwf & Hsid & _ & _ & Hthr & _ & _ & _ & Hpol).
  cbn [init consecutive_distractions_for_nudge consecutive_distractions
       nudges_sent db] in Hpol, Hthr.
  pose proof (policy_run_counter (judgments ticks)) as Hc.
  destruct (policy_run 3 0 (judgments ticks)) as [nudging counter].
  destruct Hpol as (Hcount & Hns & Hnud). cbn [fst snd] in *.
  exists self, out. split; [exact Hrun|]. split; [exact Hwf|].
  split; [exact Hsid|]. split; [exact Hthr|]. split; [congruence|].
  split; [lia|exact Hnud].
Qed.

Lemma save_final_interval_returns end_now self :
  consistent self →
  ∃ self',
    save_final_interval end_now self = (self', [], Some tt)
    ∧ nudges_sent self' = nudges_sent self
    ∧ consecutive_distractions self' = consecutive_distractions self
    ∧ Database.nudges (db self') = Database.nudges (db self)
    ∧ Database.screenshot_analyses (db self') = Database.screenshot_analyses (db self)
    ∧ Database.sessions (db self') = Database.sessions (db self).
Proof.
  unfold consistent. intros Hwf.
  unfold save_final_interval, mbind, M_bind, bind, get, FocusMonitor.store.
  destruct (current_interval_start self) as [start|] eqn:Hs,
           (current_interval_focused self) as [state|] eqn:Hf.
  2: { exfalso. apply (@is_Some_None bool), Hwf. eauto. }
  2: { exfalso. apply (@is_Some_None datetime), Hwf. eauto. }
  - cbn. eexists. split; [reflexivity|]. cbn. auto.
  - cbn. eexists. split; [reflexivity|]. auto.
Qed.

(** C2. With the threshold 3 of the constructor, a judgment nudges exactly
    when it is a distraction that brings the count of consecutive
    distractions since the last reset to 3: then one nudge is stored, one
    notification is shown, and the count returns to 0.  A focused judgment
    resets the count, any other distraction adds one to it.  The count is the
    length of the current streak of distractions modulo 3.  A stream of six
    distractions followed by a focused judgment gives exactly two nudges, at
    the third and at the sixth distraction. *)
Theorem C2_nudge_every_third_distraction store sid g si pre tk f e :
  Database.check_session_active store sid = true →
  judgment_of tk = Some (tk, f, e) →
  let fresh := init store sid g si in
  let before := while_true pre fresh in
  let after := while_true (pre ++ [tk]) fresh in
  let count := consecutive_distractions (object_after before) in
  let streak := distraction_streak (map state_of (judgments (pre ++ [tk]))) in
  (consecutive_distractions_for_nudge (object_after before) = 3
   ∧ count = Z.of_nat (distraction_streak (map state_of (judgments pre)) mod 3)
   ∧ consecutive_distractions (object_after after) = Z.of_nat (streak mod 3)
   ∧ if negb f && (3 <=? count + 1)
     then
       count + 1 = 3
       ∧ consecutive_distractions (object_after after) = 0
       ∧ nudges_sent (object_after after) = nudges_sent (object_after before) + 1
       ∧ Database.nudges (db (object_after after)) =
           Database.nudges (db (object_after before)) ++ [nudge_row fresh (tk, f, e)]
       ∧ effects_of after =
           effects_of before ++
             [Notification reminder_title ("Get back to: " +:+ g); Sleep 30]
     else
       consecutive_distractions (object_after after) = (if f then 0 else count + 1)
       ∧ nudges_sent (object_after after) = nudges_sent (object_after before)
       ∧ Database.nudges (db (object_after after)) =
           Database.nudges (db (object_after before))
       ∧ effects_of after = effects_of before ++ [Sleep 30])
  ∧ (∀ ticks end_now,
       map state_of (judgments ticks) =
         [false; false; false; false; false; false; true] →
       let finished := object_after (monitor_loop ticks end_now fresh) in
       nudges_sent finished = 2
       ∧ ∃ j1 j2 j3 j4 j5 j6 j7,
           judgments ticks = [j1; j2; j3; j4; j5; j6; j7]
           ∧ Database.nudges (db finished) =
               Database.nudges store ++ [nudge_row fresh j3; nudge_row fresh j6]).
Proof.
  intros Hactive Hj fresh before after count streak. split.
  - subst before after count streak fresh.
    destruct (while_true_snoc pre tk _ (init_consistent store sid g si) Hactive)
      as (self1 & out1 & self2 & out2 & Hpre & Hit & Hall & Hwf1 & Hsid1 & Hgoal1 & Hthr1).
    destruct (while_true_fresh store sid g si pre Hactive)
      as (self1' & out1' & Hpre' & _ & _ & _ & Hc1 & _).
    destruct (while_true_fresh store sid g si (pre ++ [tk]) Hactive)
      as (self2' & out2' & Hall' & _ & _ & _ & Hc2 & _).
    rewrite Hpre in Hpre'. rewrite Hall in Hall'.
    injection Hpre' as <- <-. injection Hall' as <- _.
    destruct (iteration_classified tk f e self1 Hwf1 Hj)
      as (self2' & nudged & Hit' & _ & _ & _ & _ & _ & _ & _ & _ & Hpol & Hns & Hnud).
    rewrite Hit in Hit'. injection Hit' as <- ->.
    rewrite Hpre, Hall.
    unfold object_after, effects_of. cbn [fst snd].
    rewrite Hthr1, Hgoal1 in *. cbn [init consecutive_distractions_for_nudge goal] in *.
    split; [reflexivity|]. split; [exact Hc1|]. split; [exact Hc2|].
    unfold policy_step in Hpol.
    pose proof (Nat.mod_upper_bound
                  (distraction_streak (map state_of (judgments pre))) 3 ltac:(lia)).
    destruct f; cbn [negb andb].
    + injection Hpol as -> Hc. rewrite Hns, Hnud, app_nil_r. cbn [app]. auto.
    + destruct (3 <=? consecutive_distractions self1 + 1) eqn:Hle;
        injection Hpol as -> Hc; rewrite Hns, Hnud.
      * apply Z.leb_le in Hle. unfold nudge_row. rewrite Hsid1.
        cbn [app]. repeat split; auto; lia.
      * rewrite app_nil_r. cbn [app]. auto.
  - intros ticks end_now Hstates finished.
    destruct (while_true_fresh store sid g si ticks Hactive)
      as (self1 & out1 & Hrun & Hwf1 & _ & _ & _ & Hns & Hnud).
    destruct (save_final_interval_returns end_now self1 Hwf1)
      as (self2 & Hfin & Hns2 & _ & Hnud2 & _).
    assert (finished = self2) as ->.
    { subst finished. unfold monitor_loop.
      unfold mbind at 1, M_bind at 1, bind at 1, emit at 1.
      subst fresh. rewrite Hrun, Hfin. reflexivity. }
    rewrite Hns2, Hnud2, Hns, Hnud.
    destruct (judgments ticks) as [|j1 [|j2 [|j3 [|j4 [|j5 [|j6 [|j7 [|]]]]]]]];
      try discriminate Hstates.
    cbn [map] in Hstates.
    injection Hstates as H1 H2 H3 H4 H5 H6 H7.
    cbn [policy_run]. rewrite H1, H2, H3, H4, H5, H6, H7.
    cbn. split; [reflexivity|]. eauto 10.
Qed.

Lemma C2_witness :
  let fresh := init scenario_store "s1" "write the report" 30 in
  let pre := scenario_ticks ["DISTRACTED"; "DISTRACTED"] in
  let tk := scenario_tick 60 "DISTRACTED" in
  Database.check_session_active scenario_store "s1" = true
  ∧ judgment_of tk = Some (tk, false, "The screen shows this.")
  ∧ consecutive_distractions (object_after (while_true pre fresh)) = 2
  ∧ consecutive_distractions (object_after (while_true (pre ++ [tk]) fresh)) = 0
  ∧ nudges_sent (object_after (while_true (pre ++ [tk]) fresh)) = 1.
Proof.
  intros fresh pre tk. subst fresh.
  assert (Database.check_session_active scenario_store "s1" = true) as Hactive
    by (vm_compute; reflexivity).
  assert (judgment_of tk = Some (tk, false, "The screen shows this.")) as Hj
    by (vm_compute; reflexivity).
  split; [exact Hactive|]. split; [exact Hj|].
  destruct (C2_nudge_every_third_distraction scenario_store "s1"
              "write the report" 30 pre tk false "The screen shows this."
              Hactive Hj) as [(_ & Hcount & _ & Hstep) _].
  split; [rewrite Hcount; vm_compute; reflexivity|].
  rewrite Hcount in Hstep.
  change (negb false && (3 <=? Z.of_nat
            (distraction_streak (map state_of (judgments pre)) mod 3) + 1))
    with true in Hstep.
  destruct Hstep as (_ & Hzero & Hsent & _).
  split; [exact Hzero|]. rewrite Hsent. vm_compute. reflexivity.
Defined.

(** Six distractions and a focused judgment, evaluated: two nudges, stored
    during the third and the sixth pass. *)
Example scenario_nudges :
  let finished :=
    object_after
      (monitor_loop
         (scenario_ticks
            ["DISTRACTED"; "DISTRACTED"; "DISTRACTED"; "DISTRACTED";
             "DISTRACTED"; "DISTRACTED"; "FOCUSED"])
         210000000 (init scenario_store "s1" "write the report" 30)) in
  nudges_sent finished = 2
  ∧ consecutive_distractions finished = 0
  ∧ map Database.nudge_timestamp (Database.nudges (db finished)) =
      [60000001; 150000001].
Proof. vm_compute. auto. Qed.

End MonitorFacts.

(** ** The accounting of durations *)

Module AggregatorFacts.

Lemma key_le_total {A} (key : A → Z) : Total (Database.key_le key).
Proof. intros x y. unfold Database.key_le. lia. Qed.

Lemma order_by_sorted {A} (key : A → Z) rows :
  Sorted (Database.key_le key) (Database.order_by key rows).
Proof. apply Sorted_merge_sort, key_le_total. Qed.

Lemma order_by_length {A} (key : A → Z) (rows : list A) :
  length (Database.order_by key rows) = length rows.
Proof. apply Permutation_length, merge_sort_Permutation. Qed.

Lemma seconds_between_nonneg a b : a ≤ b → 0 ≤ seconds_between a b.
Proof.
  intros Hab. unfold seconds_between, int, total_seconds. cbn.
  apply Z.quot_pos; lia.
Qed.

Lemma sum_over_cons {A} (x : A) l f :
  sum_over (x :: l) f = f O + sum_over l (λ i, f (S i)).
Proof.
  unfold sum_over. cbn [length seq map sum_Z foldr]. f_equal.
  rewrite <- seq_shift, map_map. reflexivity.
Qed.

Lemma sum_over_ext {A} (l : list A) f g :
  (∀ i, f i = g i) → sum_over l f = sum_over l g.
Proof.
  intros Hfg. unfold sum_over. f_equal. apply map_ext. intros i. apply Hfg.
Qed.

(** The loop adds to each accumulator the durations of the judgments of its
    state. *)
Lemma accumulate_durations_sums estimate analyses : ∀ p n,
  accumulate_durations estimate analyses (p, n) =
    (p + sum_over analyses (duration_in_state true estimate analyses),
     n + sum_over analyses (duration_in_state false estimate analyses)).
Proof.
  induction analyses as [|a rest IH]; intros p n.
  - cbn. f_equal; lia.
  - cbn [accumulate_durations fst snd]. rewrite !sum_over_cons.
    rewrite (sum_over_ext rest (λ i, duration_in_state true estimate (a :: rest) (S i))
               (duration_in_state true estimate rest)) by reflexivity.
    rewrite (sum_over_ext rest (λ i, duration_in_state false estimate (a :: rest) (S i))
               (duration_in_state false estimate rest)) by reflexivity.
    unfold duration_in_state at 1 3. unfold inferred_duration. cbn [lookup list_lookup].
    destruct (Database.focused a); cbn [Bool.eqb]; rewrite IH;
      destruct rest; cbn [lookup list_lookup]; f_equal; lia.
Qed.

Lemma duration_in_state_split estimate analyses i :
  duration_in_state true estimate analyses i
  + duration_in_state false estimate analyses i
  = inferred_duration estimate analyses i.
Proof.
  unfold duration_in_state, inferred_duration.
  destruct (analyses !! i) as [a|]; [|reflexivity].
  destruct (Database.focused a); cbn; lia.
Qed.

Lemma sum_over_add {A} (l : list A) f g :
  sum_over l f + sum_over l g = sum_over l (λ i, f i + g i).
Proof.
  unfold sum_over. induction (seq 0 (length l)) as [|i more IH]; cbn; [reflexivity|].
  unfold sum_Z in IH. lia.
Qed.

Lemma sum_over_nonneg {A} (l : list A) f :
  (∀ i, 0 ≤ f i) → 0 ≤ sum_over l f.
Proof.
  intros Hf. unfold sum_over.
  induction (seq 0 (length l)) as [|i more IH]; cbn; [lia|].
  specialize (Hf i). unfold sum_Z in IH. lia.
Qed.

Lemma inferred_duration_nonneg estimate analyses i :
  0 ≤ estimate →
  Sorted (Database.key_le Database.timestamp) analyses →
  0 ≤ inferred_duration estimate analyses i.
Proof.
  intros Hest Hsorted. revert i.
  induction Hsorted as [|a rest Hrest IH Hhd]; intros i.
  - unfold inferred_duration. rewrite lookup_nil. lia.
  - destruct i as [|i].
    + unfold inferred_duration. cbn [lookup list_lookup].
      destruct Hhd as [|b rest' Hab]; cbn [lookup list_lookup]; [lia|].
      apply seconds_between_nonneg, Hab.
    + apply (IH i).
Qed.

Lemma duration_in_state_nonneg state estimate analyses i :
  0 ≤ estimate →
  Sorted (Database.key_le Database.timestamp) analyses →
  0 ≤ duration_in_state state estimate analyses i.
Proof.
  intros Hest Hsorted. unfold duration_in_state.
  destruct (analyses !! i) as [a|]; [|lia].
  destruct (Bool.eqb _ _); [|lia].
  apply inferred_duration_nonneg; assumption.
Qed.

(** The last judgment lasts the estimate, so some time is always counted. *)
Lemma total_at_least_estimate estimate analyses :
  0 ≤ estimate →
  Sorted (Database.key_le Database.timestamp) analyses →
  analyses ≠ [] →
  estimate ≤ sum_over analyses (inferred_duration estimate analyses).
Proof.
  intros Hest Hsorted. induction Hsorted as [|a rest Hrest IH Hhd]; intros Hne.
  - congruence.
  - rewrite sum_over_cons.
    rewrite (sum_over_ext rest (λ i, inferred_duration estimate (a :: rest) (S i))
               (inferred_duration estimate rest)) by reflexivity.
    destruct rest as [|b rest'].
    + unfold sum_over. cbn. unfold inferred_duration. cbn. lia.
    + pose proof (inferred_duration_nonneg estimate (a :: b :: rest') 0 Hest
                    (Sorted_cons Hrest Hhd)).
      specialize (IH ltac:(discriminate)). lia.
Qed.

Lemma percentage_fraction p t :
  0 < t → (percentage p t == (100 * p # Z.to_pos t))%Q.
Proof.
  intros Ht. unfold percentage. destruct (0 <? t) eqn:Hlt; [|lia].
  destruct t as [|t|t]; try lia.
  unfold Qeq, Qdiv, Qmult, Qinv, inject_Z. cbn. lia.
Qed.

Lemma percentage_bounds p t :
  0 ≤ p ≤ t → 0 < t →
  (0 <= percentage p t)%Q ∧ (percentage p t <= 100)%Q
  ∧ ((percentage p t == 0)%Q ↔ p = 0).
Proof.
  intros Hp Ht. rewrite (percentage_fraction p t Ht).
  destruct t as [|t|t]; try lia.
  unfold Qle, Qeq. cbn. repeat split; try lia.
Qed.

(** What the loop computes on the judgments of a session. *)
Lemma accounting estimate analyses p n :
  0 < estimate →
  Sorted (Database.key_le Database.timestamp) analyses →
  accumulate_durations estimate analyses (0, 0) = (p, n) →
  p = sum_over analyses (duration_in_state true estimate analyses)
  ∧ n = sum_over analyses (duration_in_state false estimate analyses)
  ∧ p + n = sum_over analyses (inferred_duration estimate analyses)
  ∧ 0 ≤ p ∧ 0 ≤ n
  ∧ (analyses ≠ [] → 0 < p + n).
Proof.
  intros Hest Hsorted Hacc.
  rewrite accumulate_durations_sums in Hacc. injection Hacc as <- <-.
  rewrite !Z.add_0_l.
  split; [reflexivity|]. split; [reflexivity|].
  split.
  { rewrite sum_over_add. apply sum_over_ext. intros i.
    apply duration_in_state_split. }
  split; [apply sum_over_nonneg; intros i; apply duration_in_state_nonneg; [lia|assumption]|].
  split; [apply sum_over_nonneg; intros i; apply duration_in_state_nonneg; [lia|assumption]|].
  intros Hne. rewrite sum_over_add.
  rewrite (sum_over_ext analyses _ (inferred_duration estimate analyses))
    by (intros i; apply duration_in_state_split).
  pose proof (total_at_least_estimate estimate analyses ltac:(lia) Hsorted Hne). lia.
Qed.

Lemma get_screenshot_analyses_sorted db sid :
  Sorted (Database.key_le Database.timestamp)
    (Database.get_screenshot_analyses db sid).
Proof. apply order_by_sorted. Qed.

(** [analyze_and_end_session] on an active session, in closed form. *)
Lemma analyze_and_end_session_active claude json_loads format_1f db now sid session :
  Database.get_session db sid = Some session →
  Database.status session = "active" →
  ∃ db' ended,
    SessionAnalyzer.analyze_and_end_session claude json_loads format_1f db now sid
      = inr (db', Some ended)
    ∧ Database.get_session db' sid = Some ended
    ∧ (∀ other, other ≠ sid →
         Database.get_session db' other = Database.get_session db other)
    ∧ Database.status ended = "completed"
    ∧ Database.goal ended = Database.goal session
    ∧ Database.time_ended ended = Some now
    ∧ (let analyses := Database.get_screenshot_analyses db sid in
       let intervals := Database.get_session_intervals db sid in
       let nudges := Database.get_session_nudges db sid in
       let '(p, n) := accumulate_durations 30 analyses (0, 0) in
       Database.productive_time ended = p
       ∧ Database.not_productive_time ended = n
       ∧ Database.focus_percentage ended = percentage p (p + n)
       ∧ Database.nudges_received ended = Z.of_nat (length nudges)
       ∧ Database.title ended =
           Some (SessionAnalyzer.generate_session_title claude
                   (Database.goal session) intervals nudges)
       ∧ Database.ai_analysis ended =
           Some (SessionAnalyzer.generate_session_analysis claude format_1f db
                   (Database.goal session) intervals nudges
                   (percentage p (p + n)) p n sid)
       ∧ Database.ai_structured_output ended =
           Some (SessionAnalyzer.analyze_distractions claude json_loads db sid).1).
Proof.
  intros Hget Hstatus. unfold SessionAnalyzer.analyze_and_end_session.
  rewrite Hget, Hstatus. cbn [String.eqb Ascii.eqb Bool.eqb negb].
  change (String.eqb "active" "active") with true. cbn [negb].
  set (analyses := Database.get_screenshot_analyses db sid).
  assert (match analyses with
          | [] => (0, 0)
          | _ :: _ => accumulate_durations 30 analyses (0, 0)
          end = accumulate_durations 30 analyses (0, 0)) as ->
    by (destruct analyses; reflexivity).
  destruct (accumulate_durations 30 analyses (0, 0)) as [p n].
  unfold Database.get_session in *. unfold Database.end_session.
  cbn [Database.sessions].
  eexists _, _. split.
  { cbn [Database.sessions]. rewrite lookup_alter_eq, Hget. cbn. reflexivity. }
  cbn [Database.sessions].
  split; [rewrite lookup_alter_eq, Hget; reflexivity|].
  split; [intros other Hother; apply lookup_alter_ne; congruence|].
  cbn. auto 10.
Qed.

Lemma accounting_percentage estimate analyses p n :
  0 < estimate →
  Sorted (Database.key_le Database.timestamp) analyses →
  accumulate_durations estimate analyses (0, 0) = (p, n) →
  p = sum_over analyses (duration_in_state true estimate analyses)
  ∧ n = sum_over analyses (duration_in_state false estimate analyses)
  ∧ p + n = sum_over analyses (inferred_duration estimate analyses)
  ∧ (analyses = [] → (percentage p (p + n) == 0)%Q)
  ∧ (analyses ≠ [] →
       0 < p + n
       ∧ (percentage p (p + n) == inject_Z p / inject_Z (p + n) * 100)%Q
       ∧ (0 <= percentage p (p + n))%Q
       ∧ (percentage p (p + n) <= 100)%Q
       ∧ ((percentage p (p + n) == 0)%Q ↔ p = 0)).
Proof.
  intros Hest Hsorted Hacc.
  destruct (accounting estimate analyses p n Hest Hsorted Hacc)
    as (Hp & Hn & Hsum & Hp0 & Hn0 & Htotal).
  split; [exact Hp|]. split; [exact Hn|]. split; [exact Hsum|]. split.
  - intros ->. cbn in Hacc. injection Hacc as <- <-. reflexivity.
  - intros Hne. specialize (Htotal Hne).
    destruct (percentage_bounds p (p + n) ltac:(lia) Htotal) as (H0 & H100 & Hzero).
    split; [exact Htotal|]. split; [|auto].
    unfold percentage. destruct (0 <? p + n) eqn:Hlt; [reflexivity|lia].
Qed.

(** C3, as the code has it.  In [get_session_summary] and in
    [analyze_and_end_session], the judgment number [i] lasts the whole
    seconds from its timestamp to the timestamp of the judgment number
    [i + 1], the last judgment lasts the estimate (the sampling interval when
    it is positive and 30 otherwise in the monitor, 30 in the analyzer);
    [productive_time] is the sum of the durations of the focused judgments,
    [not_productive_time] of the others, and the two add up to the sum of all
    the durations.  [focus_percentage] is 0 without judgments; with at least
    one judgment the total is positive, [focus_percentage] is
    [productive_time / total * 100], lies in the closed range from 0 to 100,
    and is 0 exactly when [productive_time] is 0. *)
Theorem C3_durations_and_focus_percentage
    claude json_loads format_1f db now sid session self :
  Database.get_session db sid = Some session →
  Database.status session = "active" →
  (let analyses :=
     Database.get_screenshot_analyses (FocusMonitor.db self)
       (FocusMonitor.session_id self) in
   let estimate :=
     if 0 <? FocusMonitor.screenshot_interval self
     then FocusMonitor.screenshot_interval self else 30 in
   let p := summary_productive_time (FocusMonitor.get_session_summary self) in
   let n := summary_not_productive_time (FocusMonitor.get_session_summary self) in
   let pct := summary_focus_percentage (FocusMonitor.get_session_summary self) in
   p = sum_over analyses (duration_in_state true estimate analyses)
   ∧ n = sum_over analyses (duration_in_state false estimate analyses)
   ∧ p + n = sum_over analyses (inferred_duration estimate analyses)
   ∧ (analyses = [] → (pct == 0)%Q)
   ∧ (analyses ≠ [] →
        0 < p + n
        ∧ (pct == inject_Z p / inject_Z (p + n) * 100)%Q
        ∧ (0 <= pct)%Q ∧ (pct <= 100)%Q
        ∧ ((pct == 0)%Q ↔ p = 0)))
  ∧ ∃ db' ended,
      SessionAnalyzer.analyze_and_end_session claude json_loads format_1f db now sid
        = inr (db', Some ended)
      ∧ let analyses := Database.get_screenshot_analyses db sid in
        let p := Database.productive_time ended in
        let n := Database.not_productive_time ended in
        let pct := Database.focus_percentage ended in
        p = sum_over analyses (duration_in_state true 30 analyses)
        ∧ n = sum_over analyses (duration_in_state false 30 analyses)
        ∧ p + n = sum_over analyses (inferred_duration 30 analyses)
        ∧ (analyses = [] → (pct == 0)%Q)
        ∧ (analyses ≠ [] →
             0 < p + n
             ∧ (pct == inject_Z p / inject_Z (p + n) * 100)%Q
             ∧ (0 <= pct)%Q ∧ (pct <= 100)%Q
             ∧ ((pct == 0)%Q ↔ p = 0)).
Proof.
  intros Hget Hstatus. split.
  - cbv zeta. unfold FocusMonitor.get_session_summary.
    pose proof (get_screenshot_analyses_sorted (FocusMonitor.db self)
                  (FocusMonitor.session_id self)) as Hsorted.
    set (estimate := if 0 <? FocusMonitor.screenshot_interval self
                     then FocusMonitor.screenshot_interval self else 30).
    assert (0 < estimate) as Hest.
    { subst estimate. destruct (0 <? _) eqn:Hlt; lia. }
    destruct (Database.get_screenshot_analyses (FocusMonitor.db self)
                (FocusMonitor.session_id self)) as [|a rest] eqn:Han.
    + cbn. repeat split; try reflexivity; congruence.
    + destruct (accumulate_durations estimate (a :: rest) (0, 0)) as [p n] eqn:Hacc.
      cbn [summary_productive_time summary_not_productive_time
           summary_focus_percentage].
      exact (accounting_percentage estimate (a :: rest) p n Hest Hsorted Hacc).
  - destruct (analyze_and_end_session_active claude json_loads format_1f db now sid
                session Hget Hstatus)
      as (db' & ended & Hrun & _ & _ & _ & _ & _ & Hfields).
    exists db', ended. split; [exact Hrun|]. cbv zeta in *.
    destruct (accumulate_durations 30 (Database.get_screenshot_analyses db sid) (0, 0))
      as [p n] eqn:Hacc.
    destruct Hfields as (-> & -> & -> & _).
    exact (accounting_percentage 30 _ p n ltac:(lia)
             (get_screenshot_analyses_sorted db sid) Hacc).
Qed.

Lemma C3_witness :
  Database.get_session FocusMonitor.distracted_store "s1"
    = Some FocusMonitor.scenario_session
  ∧ Database.status FocusMonitor.scenario_session = "active"
  ∧ ∃ db' ended,
      SessionAnalyzer.analyze_and_end_session (λ _, None) (λ _, None) (λ _, "0.0")
        FocusMonitor.distracted_store 30000000 "s1" = inr (db', Some ended)
      ∧ Database.productive_time ended + Database.not_productive_time ended =
          sum_over (Database.get_screenshot_analyses FocusMonitor.distracted_store "s1")
            (inferred_duration 30
               (Database.get_screenshot_analyses FocusMonitor.distracted_store "s1")).
Proof.
  split; [vm_compute; reflexivity|]. split; [reflexivity|].
  destruct (C3_durations_and_focus_percentage (λ _, None) (λ _, None) (λ _, "0.0")
              FocusMonitor.distracted_store 30000000 "s1"
              FocusMonitor.scenario_session
              (FocusMonitor.init FocusMonitor.distracted_store "s1" "write the report" 30)
              ltac:(vm_compute; reflexivity) eq_refl)
    as [_ (db' & ended & Hrun & _ & _ & Hsum & _)].
  exists db', ended. split; [exact Hrun|exact Hsum].
Defined.

(** The claim as stated fails: a session whose only judgment is a
    distraction has a judgment, and ends with the focus percentage 0, outside
    the range (0, 100]. *)
Lemma C3_counterexample :
  ¬ (∀ db now sid session db' ended,
       Database.get_session db sid = Some session →
       Database.status session = "active" →
       Database.get_screenshot_analyses db sid ≠ [] →
       SessionAnalyzer.analyze_and_end_session (λ _, None) (λ _, None) (λ _, "0.0")
         db now sid = inr (db', Some ended) →
       (0 < Database.focus_percentage ended)%Q
       ∧ (Database.focus_percentage ended <= 100)%Q).
Proof.
  intros H.
  destruct (SessionAnalyzer.analyze_and_end_session (λ _, None) (λ _, None)
              (λ _, "0.0") FocusMonitor.distracted_store 30000000 "s1")
    as [e|[db' [ended|]]] eqn:Hrun; try (vm_compute in Hrun; discriminate Hrun).
  destruct (H FocusMonitor.distracted_store 30000000 "s1"
              FocusMonitor.scenario_session db' ended) as [Hpos _].
  - vm_compute. reflexivity.
  - reflexivity.
  - vm_compute. discriminate.
  - exact Hrun.
  - vm_compute in Hrun. injection Hrun as _ <-. vm_compute in Hpos. discriminate Hpos.
Qed.

End AggregatorFacts.

(** ** Strings *)

Module StringFacts.

(** [String.append] does not unfold under [cbn]; its two equations. *)
Lemma append_nil_l s : "" +:+ s = s.
Proof. reflexivity. Qed.

Lemma append_cons c a b : String c a +:+ b = String c (a +:+ b).
Proof. reflexivity. Qed.

Ltac str_simpl :=
  repeat progress (cbn in *; rewrite ?append_nil_l, ?append_cons in * ).

Lemma append_nil_r s : s +:+ "" = s.
Proof. induction s as [|c s IH]; str_simpl; congruence. Qed.

Lemma append_assoc a b c : (a +:+ b) +:+ c = a +:+ b +:+ c.
Proof. induction a as [|x a IH]; str_simpl; congruence. Qed.

Lemma prefix_spec p s :
  String.prefix p s = true ↔ ∃ suf, s = p +:+ suf.
Proof.
  revert s. induction p as [|c p IH]; intros s.
  - split; [intros _; exists s; reflexivity|intros _; destruct s; reflexivity].
  - destruct s as [|d s]; cbn.
    + split; [discriminate|]. intros [suf H]. discriminate.
    + destruct (ascii_dec c d) as [->|Hne].
      * rewrite IH. split; intros [suf H]; exists suf; str_simpl; congruence.
      * split; [discriminate|]. intros [suf H]. str_simpl. congruence.
Qed.

Lemma contains_spec p s :
  contains p s = true ↔ ∃ pre suf, s = pre +:+ p +:+ suf.
Proof.
  induction s as [|c s IH].
  - cbn [contains]. rewrite orb_false_r, prefix_spec. split.
    + intros [suf H]. exists "", suf. exact H.
    + intros (pre & suf & H). destruct pre; [|discriminate]. eauto.
  - cbn [contains]. rewrite orb_true_iff, prefix_spec, IH. split.
    + intros [[suf H]|(pre & suf & H)].
      * exists "", suf. exact H.
      * exists (String c pre), suf. rewrite append_cons. congruence.
    + intros (pre & suf & H). destruct pre as [|x pre].
      * left. eauto.
      * right. exists pre, suf. rewrite append_cons in H. congruence.
Qed.

Lemma upper_app a b : upper (a +:+ b) = upper a +:+ upper b.
Proof. induction a as [|c a IH]; str_simpl; congruence. Qed.

Lemma upper_app_inv s x y :
  upper s = x +:+ y → ∃ a b, s = a +:+ b ∧ upper a = x ∧ upper b = y.
Proof.
  revert s. induction x as [|c x IH]; intros s H.
  - exists "", s. auto.
  - destruct s as [|d s]; [discriminate|].
    rewrite append_cons in H. cbn in H. injection H as Hc Hs.
    destruct (IH s Hs) as (a & b & -> & Ha & Hb).
    exists (String d a), b. cbn. rewrite Ha, Hc. auto.
Qed.

(** Case-insensitive occurrence is occurrence in the upper-cased text. *)
Lemma contains_upper pat s :
  contains (upper pat) (upper s) = true ↔ occurs_ignoring_case pat s.
Proof.
  rewrite contains_spec. unfold occurs_ignoring_case. split.
  - intros (x & z & H).
    destruct (upper_app_inv s _ _ H) as (pre & rest & -> & Hpre & Hrest).
    destruct (upper_app_inv rest _ _ Hrest) as (mid & suf & -> & Hmid & Hsuf).
    eauto.
  - intros (pre & mid & suf & -> & Hmid).
    exists (upper pre), (upper suf). rewrite !upper_app, Hmid. reflexivity.
Qed.

(** *** Stripping *)

Lemma lstrip_with_app d a c b :
  d c = false →
  lstrip_with d (a +:+ String c b) = lstrip_with d a +:+ String c b.
Proof.
  intros Hc. induction a as [|x a IH].
  - rewrite append_nil_l. cbn [lstrip_with]. rewrite Hc. reflexivity.
  - rewrite append_cons. cbn [lstrip_with]. destruct (d x); [exact IH|reflexivity].
Qed.

Lemma rstrip_with_app d a c b :
  d c = false →
  rstrip_with d (a +:+ String c b) = a +:+ String c (rstrip_with d b).
Proof.
  intros Hc. induction a as [|x a IH].
  - rewrite !append_nil_l. cbn [rstrip_with]. rewrite Hc.
    destruct (rstrip_with d b); reflexivity.
  - rewrite !append_cons. cbn [rstrip_with]. rewrite IH. destruct a; reflexivity.
Qed.

Lemma lstrip_with_suffix d s : ∃ pre, s = pre +:+ lstrip_with d s.
Proof.
  induction s as [|c s [pre IH]]; cbn.
  - exists "". reflexivity.
  - destruct (d c).
    + exists (String c pre). rewrite append_cons. congruence.
    + exists "". reflexivity.
Qed.

Lemma rstrip_with_prefix d s : ∃ suf, s = rstrip_with d s +:+ suf.
Proof.
  induction s as [|c s [suf IH]]; cbn.
  - exists "". reflexivity.
  - destruct (rstrip_with d s) as [|x r] eqn:Hr.
    + destruct (d c).
      * exists (String c s). reflexivity.
      * exists s. reflexivity.
    + exists suf. rewrite append_cons. congruence.
Qed.

(** A stripped text is a part of the text. *)
Lemma strip_with_infix d s : ∃ pre suf, s = pre +:+ strip_with d s +:+ suf.
Proof.
  unfold strip_with.
  destruct (lstrip_with_suffix d s) as [pre Hpre].
  destruct (rstrip_with_prefix d (lstrip_with d s)) as [suf Hsuf].
  exists pre, suf. rewrite <- Hsuf. exact Hpre.
Qed.

(** Stripping keeps a part that begins and ends with characters that are
    not stripped. *)
Lemma strip_with_middle d pre c1 m c2 suf :
  d c1 = false → d c2 = false →
  strip_with d (pre +:+ String c1 (m +:+ String c2 suf)) =
    lstrip_with d pre +:+ String c1 (m +:+ String c2 (rstrip_with d suf)).
Proof.
  intros H1 H2. unfold strip_with. rewrite lstrip_with_app by exact H1.
  rewrite <- (append_cons c1 m (String c2 suf)).
  rewrite <- append_assoc, rstrip_with_app by exact H2.
  rewrite append_assoc, append_cons. reflexivity.
Qed.

Lemma strip_with_kept d c r :
  d c = false → strip_with d (String c r) = String c (rstrip_with d r).
Proof.
  intros Hc. unfold strip_with. cbn [lstrip_with]. rewrite Hc.
  exact (rstrip_with_app d "" c r Hc).
Qed.

(** A stripped text is empty or begins with a character that is kept. *)
Lemma strip_with_head d s :
  strip_with d s = "" ∨ ∃ c r, strip_with d s = String c r ∧ d c = false.
Proof.
  induction s as [|c s IH].
  - left. reflexivity.
  - destruct (d c) eqn:Hc.
    + unfold strip_with in *. cbn [lstrip_with]. rewrite Hc. exact IH.
    + right. rewrite strip_with_kept by exact Hc. eauto.
Qed.

End StringFacts.

(** ** The classifier *)

Module ClassifierFacts.
Import FocusMonitor StringFacts MonitorFacts.

Lemma upper_char_F c : upper_char c = "F"%char → isspace c = false.
Proof.
  destruct c as [[] [] [] [] [] [] [] []]; vm_compute; intros H;
    first [reflexivity | discriminate H].
Qed.

Lemma upper_char_D c : upper_char c = "D"%char → isspace c = false.
Proof.
  destruct c as [[] [] [] [] [] [] [] []]; vm_compute; intros H;
    first [reflexivity | discriminate H].
Qed.

(** A text that reads FOCUSED when the case is ignored begins and ends with
    characters that [strip] keeps. *)
Lemma focused_shape mid :
  upper mid = "FOCUSED" →
  ∃ c1 m c2, mid = String c1 (m +:+ String c2 "")
             ∧ isspace c1 = false ∧ isspace c2 = false.
Proof.
  intros H.
  destruct mid as [|c1 [|c2 [|c3 [|c4 [|c5 [|c6 [|c7 [|c8 mid]]]]]]]];
    try discriminate H.
  cbn in H. injection H as H1 H2 H3 H4 H5 H6 H7.
  exists c1, (String c2 (String c3 (String c4 (String c5 (String c6 ""))))), c7.
  split; [reflexivity|]. split; [apply upper_char_F|apply upper_char_D]; assumption.
Qed.

(** The test of [monitor_loop] on the first line finds FOCUSED exactly when
    the line has it, whatever the case of its letters. *)
Lemma focused_line line :
  contains "FOCUSED" (upper (strip line)) = true
  ↔ occurs_ignoring_case "FOCUSED" line.
Proof.
  change "FOCUSED" with (upper "FOCUSED") at 1. rewrite contains_upper. split.
  - intros (pre & mid & suf & Hline & Hmid).
    destruct (strip_with_infix isspace line) as (a & b & Ha).
    fold (strip line) in Ha. rewrite Hline in Ha.
    exists (a +:+ pre), mid, (suf +:+ b). split; [|exact Hmid].
    rewrite Ha, !append_assoc. reflexivity.
  - intros (pre & mid & suf & -> & Hmid).
    destruct (focused_shape mid Hmid) as (c1 & m & c2 & -> & H1 & H2).
    exists (lstrip_with isspace pre), (String c1 (m +:+ String c2 "")),
           (rstrip_with isspace suf).
    split; [|exact Hmid].
    unfold strip. rewrite !append_cons, !append_assoc, !append_cons, !append_nil_l.
    apply strip_with_middle; assumption.
Qed.

Lemma split_newline_once_kept c r :
  isspace c = false →
  ∃ line, first_line (String c r) = String c line.
Proof.
  intros Hc. unfold first_line. cbn [split_newline_once].
  destruct (Ascii.eqb c newline) eqn:Heq.
  - apply Ascii.eqb_eq in Heq. subst c. discriminate Hc.
  - destruct (split_newline_once r) as [line rest]. eauto.
Qed.

(** The classification is empty exactly when the stripped reply is. *)
Lemma truthy_classification r :
  truthy (upper (strip (first_line (strip r)))) = truthy (strip r).
Proof.
  destruct (strip_with_head isspace r) as [H|(c & r' & H & Hc)];
    fold (strip r) in H; rewrite H.
  - reflexivity.
  - destruct (split_newline_once_kept c r' Hc) as [line ->].
    unfold strip. rewrite strip_with_kept by exact Hc. reflexivity.
Qed.

Lemma truthy_false s : truthy s = false ↔ s = "".
Proof. destruct s; cbn; split; congruence. Qed.

Lemma truthy_true s : truthy s = true ↔ s ≠ "".
Proof. destruct s; cbn; split; congruence. Qed.

(** [classify] in closed form. *)
Lemma classify_some v r :
  classify (Some v) (Some r) =
    if truthy (strip v) && truthy (strip r)
    then Some (contains "FOCUSED" (upper (strip (first_line (strip r)))),
               match after_first_line (strip r) with
               | Some rest => strip rest
               | None => ""
               end)
    else None.
Proof.
  unfold classify, analyze_with_qwen, analyze_with_claude.
  destruct (truthy (strip v)); [|reflexivity]. cbn [andb].
  rewrite <- (truthy_classification r).
  unfold first_line, after_first_line.
  destruct (split_newline_once (strip r)) as [line rest]. reflexivity.
Qed.

Lemma not_occurs_in_empty pat :
  upper pat ≠ "" → ¬ occurs_ignoring_case pat "".
Proof.
  intros Hpat (pre & mid & suf & H & Hmid).
  destruct pre; [|discriminate H]. rewrite append_nil_l in H.
  destruct mid; [|discriminate H]. cbn in Hmid. congruence.
Qed.

Lemma has_newline_app a b :
  has_newline (a +:+ b) = has_newline a || has_newline b.
Proof.
  induction a as [|c a IH]; [reflexivity|].
  rewrite append_cons. cbn [has_newline]. rewrite IH, orb_assoc. reflexivity.
Qed.

Lemma has_newline_strip s : has_newline s = false → has_newline (strip s) = false.
Proof.
  destruct (strip_with_infix isspace s) as (pre & suf & H). fold (strip s) in H.
  intros Hs. rewrite H, !has_newline_app in Hs.
  apply orb_false_elim in Hs as [_ Hs]. apply orb_false_elim in Hs as [Hs _].
  exact Hs.
Qed.

Lemma split_newline_once_single s :
  has_newline s = false → split_newline_once s = (s, None).
Proof.
  induction s as [|c s IH]; [reflexivity|]. cbn [has_newline split_newline_once].
  intros H. apply orb_false_elim in H as [Hc Hs].
  rewrite Hc, (IH Hs). reflexivity.
Qed.

(** A reply of one line is classified on the whole reply. *)
Lemma focused_single_line r :
  has_newline r = false →
  contains "FOCUSED" (upper (strip (first_line (strip r)))) = true
  ↔ occurs_ignoring_case "FOCUSED" r.
Proof.
  intros Hr. unfold first_line.
  rewrite (split_newline_once_single _ (has_newline_strip r Hr)). cbn [fst].
  rewrite focused_line. rewrite <- (focused_line r).
  change "FOCUSED" with (upper "FOCUSED") at 2. rewrite contains_upper.
  reflexivity.
Qed.

(** C4, as the code has it.  On a description and a reply that are not
    empty once stripped, the classifier answers focused exactly when FOCUSED
    occurs, case ignored, in the first line of the stripped reply, and the
    explanation is the stripped rest of the reply (empty when the reply has
    one line).  It is unavailable when the vision stage fails or gives a
    description that is empty once stripped, when the text stage fails, and
    when the reply is empty once stripped.  A pass whose classification is
    unavailable leaves the monitor and its store as they were, sleeps, and
    the loop goes on with the next pass. *)
Theorem C4_classifier_and_unavailable_pass :
  (∀ v r, strip v ≠ "" → strip r ≠ "" →
     ∃ f,
       classify (Some v) (Some r) =
         Some (f, match after_first_line (strip r) with
                  | Some rest => strip rest
                  | None => ""
                  end)
       ∧ (f = true ↔ occurs_ignoring_case "FOCUSED" (first_line (strip r))))
  ∧ (∀ response, classify None response = None)
  ∧ (∀ v response, strip v = "" → classify (Some v) response = None)
  ∧ (∀ vision, classify vision None = None)
  ∧ (∀ vision r, strip r = "" → classify vision (Some r) = None)
  ∧ (∀ tk self,
       classify (vision tk) (response tk) = None →
       iteration tk self = (self, [Sleep 30], Some tt))
  ∧ (∀ tk rest self,
       Database.check_session_active (db self) (session_id self) = true →
       classify (vision tk) (response tk) = None →
       while_true (tk :: rest) self =
         (object_after (while_true rest self),
          Sleep 30 :: effects_of (while_true rest self),
          returned (while_true rest self))).
Proof.
  split.
  { intros v r Hv Hr. rewrite classify_some.
    apply truthy_true in Hv, Hr. rewrite Hv, Hr. cbn [andb].
    eexists. split; [reflexivity|]. apply focused_line. }
  split; [reflexivity|].
  split.
  { intros v response Hv. unfold classify, analyze_with_qwen.
    rewrite Hv. reflexivity. }
  split.
  { intros vision. unfold classify.
    destruct (analyze_with_qwen vision) as [d|]; [|reflexivity].
    destruct (truthy d); reflexivity. }
  split.
  { intros [v|] r Hr; [|reflexivity]. rewrite classify_some.
    apply truthy_false in Hr. rewrite Hr, andb_false_r. reflexivity. }
  split.
  { intros tk self Hnone. apply iteration_unavailable.
    unfold judgment_of. rewrite Hnone. reflexivity. }
  intros tk rest self Hactive Hnone.
  rewrite while_true_cons by exact Hactive.
  rewrite iteration_unavailable by (unfold judgment_of; rewrite Hnone; reflexivity).
  destruct (while_true rest self) as [[self' out] r]. reflexivity.
Qed.

Lemma C4_witness :
  strip "An editor window" ≠ ""
  ∧ strip "Focused" ≠ ""
  ∧ classify (Some "An editor window") (Some "Focused") = Some (true, "").
Proof.
  assert (strip "An editor window" ≠ "") as Hv by (vm_compute; discriminate).
  assert (strip "Focused" ≠ "") as Hr by (vm_compute; discriminate).
  split; [exact Hv|]. split; [exact Hr|].
  destruct C4_classifier_and_unavailable_pass as [Hclassify _].
  destruct (Hclassify "An editor window" "Focused" Hv Hr) as (f & Heq & Hf).
  rewrite Heq. f_equal. f_equal.
  apply Hf. exists "", "Focused", "". split; reflexivity.
Defined.

(** The claim as stated fails on the empty reply: FOCUSED is absent from its
    first line, and the classification is unavailable instead of
    [focused = false]. *)
Lemma C4_counterexample :
  ¬ (∀ v r, strip v ≠ "" →
       ¬ occurs_ignoring_case "FOCUSED" (first_line r) →
       ∃ e, classify (Some v) (Some r) = Some (false, e)).
Proof.
  intros H.
  destruct (H "An editor window" "") as [e He].
  - vm_compute. discriminate.
  - apply not_occurs_in_empty. vm_compute. discriminate.
  - vm_compute in He. discriminate He.
Qed.

(** C8. Whatever sampling interval the monitor was constructed with, a pass
    of the loop ends by sleeping 30 seconds: the interval does not set the
    cadence. *)
Theorem C8_sleep_ignores_screenshot_interval store sid g si tk :
  ∃ out,
    effects_of (iteration tk (init store sid g si)) = out ++ [Sleep 30]
    ∧ ∀ seconds, Sleep seconds ∈ effects_of (iteration tk (init store sid g si)) →
                 seconds = 30.
Proof.
  destruct (judgment_of tk) as [[[tk' f] e]|] eqn:Hj.
  - assert (tk' = tk) as ->.
    { unfold judgment_of in Hj. destruct (classify _ _) as [[]|]; congruence. }
    destruct (iteration_classified tk f e _ (init_consistent store sid g si) Hj)
      as (self' & nudged & -> & _).
    unfold effects_of. cbn [fst snd]. eexists. split; [reflexivity|].
    intros seconds Hin. destruct nudged; cbn in Hin.
    + apply elem_of_cons in Hin as [Hin|Hin]; [discriminate|].
      apply list_elem_of_singleton in Hin. congruence.
    + apply list_elem_of_singleton in Hin. congruence.
  - rewrite (iteration_unavailable tk _ Hj). unfold effects_of. cbn [fst snd].
    exists []. split; [reflexivity|].
    intros seconds Hin. apply list_elem_of_singleton in Hin. congruence.
Qed.

(** The monitor built with a sampling interval of 60 seconds sleeps 30. *)
Example sleep_with_interval_60 :
  effects_of
    (iteration (scenario_tick 0 "FOCUSED")
       (init scenario_store "s1" "write the report" 60)) = [Sleep 30].
Proof. vm_compute. reflexivity. Qed.

(** C9, as the code has it.  When the reply has no line feed and is not
    empty once stripped, the pass stores one judgment whose explanation is
    the empty string and whose state is decided on the whole reply.  A
    classification that is present always comes with an explanation, so that
    the insertion into the column [explanation], which is [NOT NULL], never
    fails: every pass returns. *)
Theorem C9_single_line_reply_is_persisted tk self v r :
  consistent self →
  vision tk = Some v → strip v ≠ "" →
  response tk = Some r → has_newline r = false → strip r ≠ "" →
  (∃ self' out f,
     iteration tk self = (self', out, Some tt)
     ∧ Database.screenshot_analyses (db self') =
         Database.screenshot_analyses (db self) ++
           [{| Database.analysis_session_id := session_id self;
               Database.timestamp := now tk;
               Database.focused := f;
               Database.explanation := "" |}]
     ∧ (f = true ↔ occurs_ignoring_case "FOCUSED" r))
  ∧ (∀ response c,
       (analyze_with_claude response).1 = Some c →
       is_Some (analyze_with_claude response).2)
  ∧ (∀ tk' self', consistent self' → returned (iteration tk' self') = Some tt).
Proof.
  intros Hwf Hvision Hv Hresponse Hline Hr. split; [|split].
  - assert (judgment_of tk =
              Some (tk, contains "FOCUSED" (upper (strip (first_line (strip r)))), ""))
      as Hj.
    { unfold judgment_of. rewrite Hvision, Hresponse, classify_some.
      apply truthy_true in Hv, Hr. rewrite Hv, Hr. cbn [andb].
      unfold after_first_line.
      rewrite (split_newline_once_single _ (has_newline_strip r Hline)).
      reflexivity. }
    destruct (iteration_classified tk _ _ self Hwf Hj)
      as (self' & nudged & Hrun & _ & _ & _ & _ & _ & _ & Han & _).
    eexists self', _, _. split; [exact Hrun|]. split; [exact Han|].
    apply focused_single_line, Hline.
  - apply analyze_with_claude_explained.
  - intros tk' self' Hwf'.
    destruct (iteration_returns tk' self' Hwf') as (self2 & out & -> & _).
    reflexivity.
Qed.

Lemma C9_witness :
  let tk := scenario_tick 0 "distracted" in
  let tk1 :=
    {| now := now tk; vision := vision tk; response := Some "Distracted";
       nudge_now := nudge_now tk |} in
  let self := init scenario_store "s1" "write the report" 30 in
  ∃ self' out,
    iteration tk1 self = (self', out, Some tt)
    ∧ Database.screenshot_analyses (db self') =
        [{| Database.analysis_session_id := "s1";
            Database.timestamp := 0;
            Database.focused := false;
            Database.explanation := "" |}].
Proof.
  intros tk tk1 self.
  destruct (C9_single_line_reply_is_persisted tk1 self
              "An editor window with a document" "Distracted")
    as [(self' & out & f & Hrun & Han & Hf) _].
  - apply init_consistent.
  - reflexivity.
  - vm_compute. discriminate.
  - reflexivity.
  - reflexivity.
  - vm_compute. discriminate.
  - exists self', out. split; [exact Hrun|]. rewrite Han.
    destruct f; [|reflexivity].
    destruct (proj1 Hf eq_refl) as (pre & mid & suf & Hsplit & Hmid).
    exfalso. clear -Hsplit Hmid.
    assert (contains "FOCUSED" (upper "Distracted") = true) as Hc.
    { change "FOCUSED" with (upper "FOCUSED"). apply contains_upper.
      exists pre, mid, suf. auto. }
    vm_compute in Hc. discriminate Hc.
Defined.

(** The claim as stated fails on the empty reply: it has no line feed, and
    no judgment is stored for it. *)
Lemma C9_counterexample :
  ¬ (∀ tk self v r,
       consistent self →
       vision tk = Some v → strip v ≠ "" →
       response tk = Some r → has_newline r = false →
       ∃ row,
         Database.screenshot_analyses (db (object_after (iteration tk self))) =
           Database.screenshot_analyses (db self) ++ [row]
         ∧ Database.explanation row = "").
Proof.
  intros H.
  destruct (H {| now := 0; vision := Some "An editor window";
                 response := Some ""; nudge_now := 1 |}
              (init scenario_store "s1" "write the report" 30)
              "An editor window" "") as (row & Hrow & _).
  - apply init_consistent.
  - reflexivity.
  - vm_compute. discriminate.
  - reflexivity.
  - reflexivity.
  - vm_compute in Hrow. discriminate Hrow.
Qed.

End ClassifierFacts.

(** ** The analyzer *)

Module AnalyzerFacts.
Import SessionAnalyzer AggregatorFacts.

Lemma time_diffs_by_index analyses :
  time_diffs (map Database.timestamp analyses) =
    map (gap analyses) (seq 0 (length analyses - 1)).
Proof.
  induction analyses as [|a rest IH]; [reflexivity|].
  destruct rest as [|b rest]; [reflexivity|].
  cbn [map time_diffs] in *. rewrite IH.
  cbn [length Nat.sub seq map]. rewrite Nat.sub_0_r.
  f_equal. rewrite <- seq_shift, map_map. reflexivity.
Qed.

Lemma time_diffs_length times : length (time_diffs times) = (length times - 1)%nat.
Proof.
  induction times as [|a rest IH]; [reflexivity|].
  destruct rest as [|b rest]; [reflexivity|].
  cbn [time_diffs length] in *. rewrite IH. lia.
Qed.

Lemma total_seconds_add x y :
  (total_seconds x + total_seconds y == total_seconds (x + y))%Q.
Proof. unfold total_seconds, Qeq, Qplus. cbn. lia. Qed.

Lemma sum_Q_from xs : ∀ acc, (fold_left Qplus xs acc == acc + sum_Q xs)%Q.
Proof.
  unfold sum_Q. induction xs as [|x xs IH]; intros acc; cbn [fold_left].
  - ring.
  - rewrite (IH (acc + x)%Q), (IH (0 + x)%Q). ring.
Qed.

Lemma last_default_irrelevant {A} (l : list A) : ∀ x d d',
  List.last (x :: l) d = List.last (x :: l) d'.
Proof.
  induction l as [|y l IH]; intros x d d'; [reflexivity|].
  change (List.last (y :: l) d = List.last (y :: l) d'). apply IH.
Qed.

Lemma last_cons_default {A} (x : A) l d : List.last (x :: l) d = List.last l x.
Proof.
  destruct l as [|y l]; [reflexivity|].
  change (List.last (y :: l) d = List.last (y :: l) x).
  apply last_default_irrelevant.
Qed.

(** The gaps between consecutive timestamps add up to the time from the
    first timestamp to the last. *)
Lemma time_diffs_telescope rest : ∀ a,
  (sum_Q (time_diffs (a :: rest)) == total_seconds (List.last rest a - a))%Q.
Proof.
  induction rest as [|b rest IH]; intros a.
  - cbn. unfold total_seconds, Qeq. cbn. lia.
  - cbn [time_diffs]. unfold sum_Q at 1. cbn [fold_left].
    rewrite sum_Q_from, (IH b), Qplus_0_l, total_seconds_add.
    cbn [List.last]. destruct rest as [|c rest].
    + cbn. replace (b - a + (b - b)) with (b - a) by lia. reflexivity.
    + rewrite (last_cons_default c rest b), (last_cons_default c rest a).
      replace (b - a + (List.last rest c - b)) with (List.last rest c - a) by lia.
      reflexivity.
Qed.

Lemma avg_interval_few analyses :
  (length analyses < 2)%nat → avg_interval analyses = 30%Q.
Proof.
  intros Hlen. unfold avg_interval.
  destruct (1 <? length analyses)%nat eqn:H; [|reflexivity].
  apply Nat.ltb_lt in H. lia.
Qed.

Lemma avg_interval_many analyses :
  (2 ≤ length analyses)%nat →
  avg_interval analyses =
    (sum_Q (time_diffs (map Database.timestamp analyses))
     / inject_Z (Z.of_nat (length analyses - 1)))%Q.
Proof.
  intros Hlen. unfold avg_interval.
  destruct (1 <? length analyses)%nat eqn:H; [|apply Nat.ltb_ge in H; lia].
  pose proof (time_diffs_length (map Database.timestamp analyses)) as Hd.
  rewrite length_map in Hd.
  destruct (time_diffs (map Database.timestamp analyses)) as [|d ds] eqn:Hdiffs.
  - cbn in Hd. lia.
  - rewrite Hd. reflexivity.
Qed.

Lemma last_map {A B} (f : A → B) l d :
  List.last (map f l) (f d) = f (List.last l d).
Proof.
  induction l as [|x l IH]; [reflexivity|].
  cbn [map List.last]. destruct l; [reflexivity|]. exact IH.
Qed.

(** C10. The average interval of the distraction breakdown is computed on
    all the judgments of the session, whatever their state: it is 30 with
    fewer than two judgments; with more it is the mean of the gaps between
    consecutive judgments, that is the time from the first judgment to the
    last divided by the number of gaps.  This one value is the estimate put
    in the request and the factor of the fallback bucket. *)
Theorem C10_average_interval_over_all_judgments claude json_loads db sid :
  let all := Database.get_screenshot_analyses db sid in
  ((length all < 2)%nat → avg_interval all = 30%Q)
  ∧ ((2 ≤ length all)%nat →
       avg_interval all =
         (sum_Q (map (gap all) (seq 0 (length all - 1)))
          / inject_Z (Z.of_nat (length all - 1)))%Q
       ∧ ∀ first rest, all = first :: rest →
           (avg_interval all ==
              total_seconds (Database.timestamp (List.last rest first)
                             - Database.timestamp first)
              / inject_Z (Z.of_nat (length rest)))%Q)
  ∧ (distracted all ≠ [] →
       (∃ distraction_summary,
          (analyze_distractions claude json_loads db sid).2 =
            [DistractionPrompt (avg_interval all) distraction_summary])
       ∧ (claude (distraction_prompt all) = None →
            (analyze_distractions claude json_loads db sid).1 =
              {["General distraction" :=
                  Z.of_nat (length (distracted all)) * int (avg_interval all)]})).
Proof.
  intros all. split; [apply avg_interval_few|]. split.
  - intros Hlen. rewrite (avg_interval_many all Hlen). split.
    + rewrite time_diffs_by_index. reflexivity.
    + intros first rest Hall. rewrite Hall.
      cbn [map]. rewrite time_diffs_telescope.
      rewrite last_map. cbn [length]. rewrite Nat.sub_succ, Nat.sub_0_r.
      reflexivity.
  - intros Hd. unfold analyze_distractions. fold all.
    destruct (distracted all) as [|a rest] eqn:Hdist; [congruence|].
    split.
    + unfold distraction_prompt.
      destruct (claude _) as [text|]; [destruct (json_loads _)|];
        cbn [snd]; eauto.
    + intros Hfail. rewrite Hfail. reflexivity.
Qed.

Lemma C10_witness :
  (2 ≤ length (Database.get_screenshot_analyses fractional_store "s1"))%nat
  ∧ (avg_interval (Database.get_screenshot_analyses fractional_store "s1")
     == 309 # 10)%Q.
Proof.
  assert (2 ≤ length (Database.get_screenshot_analyses fractional_store "s1"))%nat
    as Hlen by (vm_compute; lia).
  split; [exact Hlen|].
  destruct (C10_average_interval_over_all_judgments (λ _, None) (λ _, None)
              fractional_store "s1") as (_ & Hmany & _).
  destruct (Hmany Hlen) as [-> _]. vm_compute. reflexivity.
Defined.

(** C5, as the code has it.  Without distracted judgments the breakdown is
    the empty mapping and no request is sent.  With distracted judgments,
    when the request fails or its reply does not parse, the breakdown is the
    single bucket "General distraction" whose seconds are the number of
    distracted judgments times the average interval truncated to whole
    seconds. *)
Theorem C5_distraction_breakdown_fallback claude json_loads db sid :
  let all := Database.get_screenshot_analyses db sid in
  (distracted all = [] →
     analyze_distractions claude json_loads db sid = (∅, []))
  ∧ (distracted all ≠ [] →
       (claude (distraction_prompt all) = None
        ∨ ∃ text, claude (distraction_prompt all) = Some text
                  ∧ json_loads (extract_json (strip text)) = None) →
       analyze_distractions claude json_loads db sid =
         ({["General distraction" :=
              Z.of_nat (length (distracted all)) * int (avg_interval all)]},
          [distraction_prompt all])).
Proof.
  intros all. unfold analyze_distractions. fold all. split.
  - intros ->. reflexivity.
  - intros Hd Hfail.
    destruct (distracted all) as [|a rest] eqn:Hdist; [congruence|].
    rewrite <- Hdist in *.
    destruct Hfail as [->|(text & -> & ->)]; reflexivity.
Qed.

Lemma C5_witness :
  distracted (Database.get_screenshot_analyses fractional_store "s1") ≠ []
  ∧ analyze_distractions (λ _, None) (λ _, None) fractional_store "s1" =
      ({["General distraction" := 60]},
       [distraction_prompt (Database.get_screenshot_analyses fractional_store "s1")]).
Proof.
  assert (distracted (Database.get_screenshot_analyses fractional_store "s1") ≠ [])
    as Hd by (vm_compute; discriminate).
  split; [exact Hd|].
  destruct (C5_distraction_breakdown_fallback (λ _, None) (λ _, None)
              fractional_store "s1") as [_ Hfallback].
  rewrite (Hfallback Hd (or_introl eq_refl)). reflexivity.
Defined.

(** The claim as stated fails: with two distracted judgments 30.9 seconds
    apart the bucket holds 60 seconds, while the number of distracted
    judgments times the average interval is 61.8, so that 60 is not that
    product rounded to an integer, whatever the rounding. *)
Lemma C5_counterexample :
  ¬ (∀ claude json_loads db sid,
       let all := Database.get_screenshot_analyses db sid in
       distracted all ≠ [] →
       claude (distraction_prompt all) = None →
       ∃ seconds,
         (analyze_distractions claude json_loads db sid).1 =
           {["General distraction" := seconds]}
         ∧ (inject_Z (Z.of_nat (length (distracted all))) * avg_interval all - 1
            < inject_Z seconds)%Q).
Proof.
  intros H.
  destruct (H (λ _, None) (λ _, None) fractional_store "s1")
    as (seconds & Hmap & Hlow).
  - vm_compute. discriminate.
  - reflexivity.
  - assert (seconds = 60) as ->.
    { apply (f_equal (λ m : gmap string Z, m !! "General distraction")) in Hmap.
      rewrite lookup_singleton_eq in Hmap. vm_compute in Hmap. congruence. }
    vm_compute in Hlow. discriminate Hlow.
Qed.

(** C6. Ending an active session succeeds whatever the language model
    answers and whatever the judgments are: the session is written as
    completed with a title, a focus percentage and a narrative.  When the
    request for the title fails the title is "Focus Session"; when the request
    for the narrative fails the narrative is the sentence built from the goal
    and the focus percentage. *)
Theorem C6_end_session_survives_service_failures
    claude json_loads format_1f db now sid session :
  Database.get_session db sid = Some session →
  Database.status session = "active" →
  ∃ db' ended title narrative,
    analyze_and_end_session claude json_loads format_1f db now sid
      = inr (db', Some ended)
    ∧ Database.get_session db' sid = Some ended
    ∧ Database.status ended = "completed"
    ∧ Database.title ended = Some title
    ∧ Database.ai_analysis ended = Some narrative
    ∧ is_Some (Database.ai_structured_output ended)
    ∧ Database.focus_percentage ended =
        percentage (Database.productive_time ended)
          (Database.productive_time ended + Database.not_productive_time ended)
    ∧ ((∀ g f d n, claude (TitlePrompt g f d n) = None) →
         title = "Focus Session")
    ∧ ((∀ g pct p n f d k pattern more examples,
          claude (AnalysisPrompt g pct p n f d k pattern more examples) = None) →
         narrative =
           "You worked on: " +:+ Database.goal session
             +:+ ". Your focus percentage was "
             +:+ format_1f (Database.focus_percentage ended) +:+ "%.").
Proof.
  intros Hget Hstatus.
  destruct (analyze_and_end_session_active claude json_loads format_1f db now sid
              session Hget Hstatus)
    as (db' & ended & Hrun & Hget' & _ & Hcompleted & _ & _ & Hfields).
  cbv zeta in Hfields.
  destruct (accumulate_durations 30 (Database.get_screenshot_analyses db sid) (0, 0))
    as [p n].
  destruct Hfields as (Hp & Hn & Hpct & _ & Htitle & Hnarrative & Hbreakdown).
  eexists db', ended, _, _.
  split; [exact Hrun|]. split; [exact Hget'|]. split; [exact Hcompleted|].
  split; [exact Htitle|]. split; [exact Hnarrative|].
  split; [rewrite Hbreakdown; eauto|].
  split; [rewrite Hp, Hn; exact Hpct|].
  split.
  - intros Hfail. unfold generate_session_title. rewrite Hfail. reflexivity.
  - intros Hfail. unfold generate_session_analysis, analysis_prompt.
    rewrite Hfail, Hpct. reflexivity.
Qed.

Lemma C6_witness :
  Database.get_session fractional_store "s1" = Some FocusMonitor.scenario_session
  ∧ Database.status FocusMonitor.scenario_session = "active"
  ∧ ∃ db' ended,
      analyze_and_end_session (λ _, None) (λ _, None) (λ _, "0.0")
        fractional_store 60000000 "s1" = inr (db', Some ended)
      ∧ Database.status ended = "completed"
      ∧ Database.title ended = Some "Focus Session"
      ∧ Database.ai_analysis ended =
          Some "You worked on: write the report. Your focus percentage was 0.0%.".
Proof.
  assert (Database.get_session fractional_store "s1"
            = Some FocusMonitor.scenario_session) as Hget
    by (vm_compute; reflexivity).
  split; [exact Hget|]. split; [reflexivity|].
  destruct (C6_end_session_survives_service_failures (λ _, None) (λ _, None)
              (λ _, "0.0") fractional_store 60000000 "s1"
              FocusMonitor.scenario_session Hget eq_refl)
    as (db' & ended & title & narrative & Hrun & _ & Hstatus & Htitle & Hnarr
        & _ & _ & Ht & Hn).
  exists db', ended. split; [exact Hrun|]. split; [exact Hstatus|].
  rewrite Htitle, Hnarr, Ht, Hn by reflexivity. split; reflexivity.
Defined.

Lemma check_session_active_spec db sid :
  Database.check_session_active db sid = true
  ↔ ∃ session, Database.get_session db sid = Some session
               ∧ Database.status session = "active".
Proof.
  unfold Database.check_session_active, Database.get_session.
  destruct (Database.sessions db !! sid) as [row|].
  - rewrite String.eqb_eq. split; [eauto|].
    intros (session & Heq & Hs). congruence.
  - split; [discriminate|]. intros (session & Heq & _). discriminate.
Qed.

(** C7. The end operation of the analyzer raises unless the session exists
    and is active; when it succeeds the session is completed, so that ending
    it again raises.  The route that ends a session rejects a session that is
    missing or not active, completes an active one, and rejects it from then
    on.  A session that exists is never created again. *)
Theorem C7_end_session_once claude json_loads format_1f db now sid :
  (Database.get_session db sid = None →
     analyze_and_end_session claude json_loads format_1f db now sid =
       inl (ValueError ("Session " +:+ sid +:+ " not found")))
  ∧ (∀ session,
       Database.get_session db sid = Some session →
       Database.status session ≠ "active" →
       analyze_and_end_session claude json_loads format_1f db now sid =
         inl (ValueError ("Session " +:+ sid +:+ " is not active")))
  ∧ (∀ session,
       Database.get_session db sid = Some session →
       Database.status session = "active" →
       ∃ db' ended,
         analyze_and_end_session claude json_loads format_1f db now sid =
           inr (db', Some ended)
         ∧ Database.get_session db' sid = Some ended
         ∧ Database.status ended = "completed"
         ∧ (∀ claude' json_loads' format_1f' now',
              analyze_and_end_session claude' json_loads' format_1f' db' now' sid =
                inl (ValueError ("Session " +:+ sid +:+ " is not active"))))
  ∧ (∀ data,
       Database.check_session_active db sid = false →
       App.end_session db now sid data = inl (App.HTTP 400 "Session is not active"))
  ∧ (∀ data,
       Database.check_session_active db sid = true →
       ∃ db' ended,
         App.end_session db now sid data = inr db'
         ∧ Database.get_session db' sid = Some ended
         ∧ Database.status ended = "completed"
         ∧ (∀ now' data',
              App.end_session db' now' sid data' =
                inl (App.HTTP 400 "Session is not active")))
  ∧ (∀ goal, is_Some (Database.get_session db sid) →
       Database.create_session db now sid goal = None).
Proof.
  split; [|split; [|split; [|split; [|split]]]].
  - intros Hget. unfold analyze_and_end_session. rewrite Hget. reflexivity.
  - intros session Hget Hstatus. unfold analyze_and_end_session. rewrite Hget.
    apply String.eqb_neq in Hstatus. rewrite Hstatus. reflexivity.
  - intros session Hget Hstatus.
    destruct (analyze_and_end_session_active claude json_loads format_1f db now sid
                session Hget Hstatus)
      as (db' & ended & Hrun & Hget' & _ & Hcompleted & _).
    exists db', ended. split; [exact Hrun|]. split; [exact Hget'|].
    split; [exact Hcompleted|].
    intros claude' json_loads' format_1f' now'.
    unfold analyze_and_end_session. rewrite Hget', Hcompleted. reflexivity.
  - intros data Hinactive. unfold App.end_session. rewrite Hinactive. reflexivity.
  - intros data Hactive. unfold App.end_session. rewrite Hactive. cbn [negb].
    apply check_session_active_spec in Hactive as (session & Hget & _).
    unfold Database.get_session in *. unfold Database.end_session.
    cbn [Database.sessions].
    eexists _, _. split; [reflexivity|]. cbn [Database.sessions].
    split; [rewrite lookup_alter_eq, Hget; reflexivity|].
    split; [reflexivity|].
    intros now' data'. unfold Database.check_session_active.
    cbn [Database.sessions]. rewrite lookup_alter_eq, Hget. reflexivity.
  - intros goal [session Hget]. unfold Database.create_session.
    unfold Database.get_session in Hget. rewrite Hget. reflexivity.
Qed.

Lemma C7_witness :
  Database.get_session fractional_store "s1" = Some FocusMonitor.scenario_session
  ∧ Database.status FocusMonitor.scenario_session = "active"
  ∧ ∃ db' ended,
      analyze_and_end_session (λ _, None) (λ _, None) (λ _, "0.0")
        fractional_store 60000000 "s1" = inr (db', Some ended)
      ∧ Database.status ended = "completed"
      ∧ analyze_and_end_session (λ _, None) (λ _, None) (λ _, "0.0")
          db' 90000000 "s1" = inl (ValueError "Session s1 is not active").
Proof.
  assert (Database.get_session fractional_store "s1"
            = Some FocusMonitor.scenario_session) as Hget
    by (vm_compute; reflexivity).
  split; [exact Hget|]. split; [reflexivity|].
  destruct (C7_end_session_once (λ _, None) (λ _, None) (λ _, "0.0")
              fractional_store 60000000 "s1") as (_ & _ & Hend & _).
  destruct (Hend FocusMonitor.scenario_session Hget eq_refl)
    as (db' & ended & Hrun & _ & Hstatus & Hagain).
  exists db', ended. split; [exact Hrun|]. split; [exact Hstatus|].
  apply Hagain.
Defined.

End AnalyzerFacts.

(** ** A whole run of the monitor *)

Module RunFacts.
Import FocusMonitor MonitorFacts Observe.

Lemma while_true_inactive ticks self :
  Database.check_session_active (db self) (session_id self) = false →
  while_true ticks self = (self, [], Some tt).
Proof.
  intros Hinactive. destruct ticks as [|tk rest]; [reflexivity|].
  cbn [while_true]. unfold mbind, M_bind, bind, get. rewrite Hinactive.
  reflexivity.
Qed.

Lemma save_final_interval_closed end_now self :
  consistent self →
  ∃ self',
    save_final_interval end_now self = (self', [], Some tt)
    ∧ Database.intervals (db self') =
        Database.intervals (db self)
          ++ tracker_close (session_id self) (open_interval self) end_now
    ∧ nudges_sent self' = nudges_sent self
    ∧ consecutive_distractions self' = consecutive_distractions self
    ∧ Database.nudges (db self') = Database.nudges (db self)
    ∧ Database.screenshot_analyses (db self') = Database.screenshot_analyses (db self)
    ∧ Database.sessions (db self') = Database.sessions (db self).
Proof.
  unfold consistent. intros Hwf.
  unfold save_final_interval, mbind, M_bind, bind, get, FocusMonitor.store,
    open_interval.
  destruct (current_interval_start self) as [start|] eqn:Hs,
           (current_interval_focused self) as [state|] eqn:Hf.
  2: { exfalso. apply (@is_Some_None bool), Hwf. eauto. }
  2: { exfalso. apply (@is_Some_None Z), Hwf. eauto. }
  - cbn. eexists. split; [reflexivity|]. cbn. auto 10.
  - cbn. eexists. split; [reflexivity|]. rewrite app_nil_r. auto 10.
Qed.

(** The effects of the passes: one sleep of 30 seconds for each pass, one
    notification for each nudge. *)
Lemma while_true_effects ticks : ∀ self,
  consistent self →
  Database.check_session_active (db self) (session_id self) = true →
  ∃ self' out,
    while_true ticks self = (self', out, Some tt)
    ∧ nudges_sent self ≤ nudges_sent self'
    ∧ List.filter is_sleep out = replicate (length ticks) (Sleep 30)
    ∧ List.filter is_notification out =
        replicate (Z.to_nat (nudges_sent self' - nudges_sent self))
          (Notification reminder_title ("Get back to: " +:+ goal self)).
Proof.
  induction ticks as [|tk rest IH]; intros self Hwf Hactive.
  - exists self, []. rewrite Z.sub_diag. cbn. auto with lia.
  - rewrite while_true_cons by assumption.
    destruct (judgment_of tk) as [[[tk' f] e]|] eqn:Hj.
    + assert (tk' = tk) as ->.
      { unfold judgment_of in Hj. destruct (classify _ _) as [[]|]; congruence. }
      destruct (iteration_classified tk f e self Hwf Hj)
        as (self1 & nudged & -> & Hwf1 & Hsid & Hgoal & _ & _ & Hsess
            & _ & _ & _ & Hns & _).
      destruct (IH self1 Hwf1) as (self2 & out2 & -> & Hle & Hsleep & Hnote).
      { rewrite Hsid, (check_session_active_sessions _ (db self)); auto. }
      eexists _, _. split; [reflexivity|].
      rewrite !List.filter_app, Hsleep, Hnote, Hgoal, Hns.
      destruct nudged; cbn [List.filter is_sleep is_notification app length replicate].
      * split; [lia|]. split; [reflexivity|].
        replace (Z.to_nat (nudges_sent self2 - nudges_sent self))
          with (S (Z.to_nat (nudges_sent self2 - (nudges_sent self + 1)))) by lia.
        reflexivity.
      * split; [lia|]. split; reflexivity.
    + rewrite (iteration_unavailable tk self Hj).
      destruct (IH self Hwf Hactive) as (self2 & out2 & -> & Hle & Hsleep & Hnote).
      eexists _, _. split; [reflexivity|]. split; [exact Hle|].
      cbn [app List.filter is_sleep is_notification length replicate].
      rewrite Hsleep, Hnote. split; reflexivity.
Qed.

(** The run of a new monitor on an active session, in closed form. *)
Lemma monitor_loop_closed store sid g si ticks end_now :
  Database.check_session_active store sid = true →
  ∃ self out,
    monitor_loop ticks end_now (init store sid g si) = (self, Sleep 10 :: out, Some tt)
    ∧ Database.sessions (db self) = Database.sessions store
    ∧ Database.screenshot_analyses (db self) =
        Database.screenshot_analyses store ++ map (analysis_row sid) (judgments ticks)
    ∧ Database.intervals (db self) =
        Database.intervals store ++
          intervals_of_runs sid (maximal_runs (map sample_of (judgments ticks))) end_now
    ∧ Database.nudges (db self) =
        Database.nudges store ++
          map (nudge_row (init store sid g si)) (policy_run 3 0 (judgments ticks)).1
    ∧ nudges_sent self = Z.of_nat (length (policy_run 3 0 (judgments ticks)).1)
    ∧ consecutive_distractions self = (policy_run 3 0 (judgments ticks)).2
    ∧ List.filter is_sleep out = replicate (length ticks) (Sleep 30)
    ∧ List.filter is_notification out =
        replicate (length (policy_run 3 0 (judgments ticks)).1)
          (Notification reminder_title ("Get back to: " +:+ g)).
Proof.
  intros Hactive.
  pose proof (init_consistent store sid g si) as Hwf0.
  destruct (while_true_run ticks (init store sid g si) Hwf0 Hactive)
    as (self1 & out1 & Hrun & Hwf1 & Hsid & _ & _ & _ & Hsess & Han & Htr & Hpol).
  destruct (while_true_effects ticks (init store sid g si) Hwf0 Hactive)
    as (self1' & out1' & Hrun' & _ & Hsleep & Hnote).
  rewrite Hrun in Hrun'. injection Hrun' as <- <-.
  cbn [init open_interval current_interval_start session_id db
       consecutive_distractions_for_nudge consecutive_distractions nudges_sent
       goal] in *.
  destruct (policy_run 3 0 (judgments ticks)) as [nudging counter].
  destruct Hpol as (Hc & Hns & Hnud). cbn [fst snd].
  destruct (save_final_interval_closed end_now self1 Hwf1)
    as (self2 & Hfin & Hint2 & Hns2 & Hc2 & Hnud2 & Han2 & Hsess2).
  exists self2, out1. split.
  { unfold monitor_loop. unfold mbind at 1, M_bind at 1, bind at 1, emit at 1.
    rewrite Hrun, Hfin. cbn. rewrite app_nil_r. reflexivity. }
  rewrite Hsess2, Han2, Hint2, Hnud2, Hns2, Hc2, Hsess, Han, Hnud, Hns, Hc, Hsid.
  split; [reflexivity|]. split; [reflexivity|]. split.
  { pose proof (tracker_run_closed sid end_now (map sample_of (judgments ticks)))
      as Hclosed.
    destruct (tracker_run sid None (map sample_of (judgments ticks)))
      as [closed open].
    injection Htr as -> ->. rewrite <- Hclosed, app_assoc. reflexivity. }
  split; [reflexivity|]. split; [lia|]. split; [reflexivity|].
  split; [exact Hsleep|].
  rewrite Hnote, Hns. f_equal. lia.
Qed.

(** On a session that is not active the loop does nothing but wait. *)
Lemma monitor_loop_inactive store sid g si ticks end_now :
  Database.check_session_active store sid = false →
  monitor_loop ticks end_now (init store sid g si) =
    (init store sid g si, [Sleep 10], Some tt).
Proof.
  intros Hinactive. unfold monitor_loop.
  unfold mbind at 1, M_bind at 1, bind at 1, emit at 1.
  rewrite while_true_inactive by exact Hinactive. reflexivity.
Qed.

Lemma intervals_of_runs_session sid runs end_now :
  Forall (λ r, Database.interval_session_id r = sid)
    (intervals_of_runs sid runs end_now).
Proof.
  induction runs as [|[|[start state] run] more IH]; cbn; [constructor|exact IH|].
  constructor; [reflexivity|exact IH].
Qed.

Lemma filter_other_app {A} (P : A → Prop) `{∀ x, Decision (P x)} (old new : list A) :
  Forall (λ x, ¬ P x) new → filter P (old ++ new) = filter P old.
Proof.
  intros Hnew. rewrite filter_app.
  replace (filter P new) with (@nil A); [apply app_nil_r|].
  symmetry. induction Hnew as [|x new Hx _ IH]; [reflexivity|].
  rewrite filter_cons_False by exact Hx. exact IH.
Qed.

Lemma filter_own_app {A} (P : A → Prop) `{∀ x, Decision (P x)} (old new : list A) :
  Forall P new → filter P (old ++ new) = filter P old ++ new.
Proof.
  intros Hnew. rewrite filter_app. f_equal.
  induction Hnew as [|x new Hx _ IH]; [reflexivity|].
  rewrite filter_cons_True by exact Hx. f_equal. exact IH.
Qed.

(** What a run adds to the three tables: rows of its own session only. *)
Lemma monitor_loop_appends store sid g si ticks end_now :
  ∃ self out r new_intervals new_nudges new_analyses,
    monitor_loop ticks end_now (init store sid g si) = (self, out, r)
    ∧ Database.sessions (db self) = Database.sessions store
    ∧ Database.intervals (db self) = Database.intervals store ++ new_intervals
    ∧ Database.nudges (db self) = Database.nudges store ++ new_nudges
    ∧ Database.screenshot_analyses (db self) =
        Database.screenshot_analyses store ++ new_analyses
    ∧ Forall (λ r, Database.interval_session_id r = sid) new_intervals
    ∧ Forall (λ r, Database.nudge_session_id r = sid) new_nudges
    ∧ Forall (λ r, Database.analysis_session_id r = sid) new_analyses.
Proof.
  destruct (Database.check_session_active store sid) eqn:Hactive.
  - destruct (monitor_loop_closed store sid g si ticks end_now Hactive)
      as (self & out & Hrun & Hsess & Han & Hint & Hnud & _).
    eexists self, _, _, _, _, _. split; [exact Hrun|].
    split; [exact Hsess|]. split; [exact Hint|]. split; [exact Hnud|].
    split; [exact Han|]. split; [apply intervals_of_runs_session|].
    split; apply List.Forall_map, Forall_true; intros j; reflexivity.
  - rewrite (monitor_loop_inactive store sid g si ticks end_now Hactive).
    eexists _, _, _, [], [], []. split; [reflexivity|]. cbn [init db].
    rewrite !app_nil_r. repeat split; constructor.
Qed.

(** X1. A run of the monitor only appends rows of its own session: it never
    changes the table of sessions, never removes or rewrites a row, and what
    the three queries return for any other session is what they returned
    before. *)
Theorem run_touches_only_its_session store sid g si ticks end_now :
  let after := db (object_after (monitor_loop ticks end_now (init store sid g si))) in
  Database.sessions after = Database.sessions store
  ∧ (∃ new, Database.intervals after = Database.intervals store ++ new)
  ∧ (∃ new, Database.nudges after = Database.nudges store ++ new)
  ∧ (∃ new, Database.screenshot_analyses after =
              Database.screenshot_analyses store ++ new)
  ∧ ∀ other, other ≠ sid →
      Database.get_session_intervals after other
        = Database.get_session_intervals store other
      ∧ Database.get_session_nudges after other
          = Database.get_session_nudges store other
      ∧ Database.get_screenshot_analyses after other
          = Database.get_screenshot_analyses store other
      ∧ Database.get_session after other = Database.get_session store other.
Proof.
  intros after.
  destruct (monitor_loop_appends store sid g si ticks end_now)
    as (self & out & r & new_i & new_n & new_a & Hrun & Hsess & Hint & Hnud
        & Han & Hi & Hn & Ha).
  subst after. rewrite Hrun. unfold object_after. cbn [fst].
  split; [exact Hsess|]. split; [eauto|]. split; [eauto|]. split; [eauto|].
  intros other Hother.
  unfold Database.get_session_intervals, Database.get_session_nudges,
    Database.get_screenshot_analyses, Database.get_session.
  rewrite Hint, Hnud, Han, Hsess.
  rewrite !filter_other_app; [auto| | |].
  - eapply Forall_impl; [exact Ha|]. cbn. congruence.
  - eapply Forall_impl; [exact Hn|]. cbn. congruence.
  - eapply Forall_impl; [exact Hi|]. cbn. congruence.
Qed.

(** X2. On an active session the loop returns (no insertion violates a
    constraint of the store), and the judgments it has stored are those of
    the successfully classified passes: one row for each, in the order of the
    passes, with the timestamp, the state and the explanation of the pass. *)
Theorem run_stores_every_judgment store sid g si ticks end_now :
  Database.check_session_active store sid = true →
  let r := monitor_loop ticks end_now (init store sid g si) in
  returned r = Some tt
  ∧ Database.screenshot_analyses (db (object_after r)) =
      Database.screenshot_analyses store ++
        map (λ j, {| Database.analysis_session_id := sid;
                     Database.timestamp := now j.1.1;
                     Database.focused := j.1.2;
                     Database.explanation := j.2 |}) (judgments ticks)
  ∧ length (analyses_of (db (object_after r)) sid) =
      (length (analyses_of store sid) + length (judgments ticks))%nat.
Proof.
  intros Hactive r.
  destruct (monitor_loop_closed store sid g si ticks end_now Hactive)
    as (self & out & Hrun & _ & Han & _).
  subst r. rewrite Hrun. unfold returned, object_after. cbn [fst snd].
  split; [reflexivity|]. split; [exact Han|].
  unfold analyses_of. rewrite Han, filter_own_app, length_app, length_map.
  - reflexivity.
  - apply List.Forall_map, Forall_true. intros j. reflexivity.
Qed.

Lemma run_stores_every_judgment_witness :
  let r :=
    monitor_loop (scenario_ticks ["FOCUSED"; "DISTRACTED"]) 60000000
      (init scenario_store "s1" "write the report" 30) in
  returned r = Some tt
  ∧ length (analyses_of (db (object_after r)) "s1") = 2%nat.
Proof.
  destruct (run_stores_every_judgment scenario_store "s1" "write the report" 30
              (scenario_ticks ["FOCUSED"; "DISTRACTED"]) 60000000)
    as (Hret & _ & Hlen).
  - vm_compute. reflexivity.
  - split; [exact Hret|]. rewrite Hlen. vm_compute. reflexivity.
Defined.

(** X3. On an active session the loop first waits 10 seconds and then waits
    30 seconds after every pass; it shows one notification, naming the goal,
    for each nudge it counts in [nudges_sent], stores one nudge row for each,
    and the summary of the monitor counts these rows with the nudge rows that
    the session had before. *)
Theorem run_effects_match_nudges store sid g si ticks end_now :
  Database.check_session_active store sid = true →
  let r := monitor_loop ticks end_now (init store sid g si) in
  let sent := Z.to_nat (nudges_sent (object_after r)) in
  0 ≤ nudges_sent (object_after r)
  ∧ List.filter is_sleep (effects_of r) =
      Sleep 10 :: replicate (length ticks) (Sleep 30)
  ∧ List.filter is_notification (effects_of r) =
      replicate sent (Notification reminder_title ("Get back to: " +:+ g))
  ∧ length (Database.nudges (db (object_after r))) =
      (length (Database.nudges store) + sent)%nat
  ∧ summary_nudges_received (get_session_summary (object_after r)) =
      Z.of_nat (length (nudges_of store sid)) + nudges_sent (object_after r).
Proof.
  intros Hactive r sent.
  destruct (monitor_loop_closed store sid g si ticks end_now Hactive)
    as (self & out & Hrun & _ & _ & _ & Hnud & Hns & _ & Hsleep & Hnote).
  assert (session_id self = sid) as Hsid.
  { destruct (monitor_loop_appends store sid g si ticks end_now)
      as (self' & out' & r' & ni & nn & na & Hrun' & _).
    clear -Hrun Hrun' Hactive.
    unfold monitor_loop in Hrun.
    unfold mbind at 1, M_bind at 1, bind at 1, emit at 1 in Hrun.
    destruct (while_true_run ticks (init store sid g si)
                (init_consistent store sid g si) Hactive)
      as (self1 & out1 & Hw & Hwf1 & Hsid1 & _).
    rewrite Hw in Hrun.
    unfold save_final_interval, mbind, M_bind, bind, get, FocusMonitor.store
      in Hrun.
    destruct (current_interval_start self1);
      [destruct (Database.add_interval _ _ _ _ _)|];
      cbn in Hrun; injection Hrun as <- _; exact Hsid1. }
  subst r sent. rewrite Hrun. unfold object_after, effects_of. cbn [fst snd].
  rewrite Hns, Nat2Z.id.
  split; [lia|]. split; [cbn; rewrite Hsleep; reflexivity|].
  split; [cbn; exact Hnote|].
  split; [rewrite Hnud, length_app, length_map; reflexivity|].
  unfold get_session_summary, Database.get_session_nudges.
  rewrite AggregatorFacts.order_by_length, Hsid, Hnud, filter_own_app.
  - unfold nudges_of. rewrite length_app, length_map.
    destruct (Database.get_screenshot_analyses (db self) sid);
      [|destruct (accumulate_durations _ _ _)];
      cbn [summary_nudges_received]; lia.
  - apply List.Forall_map, Forall_true. intros j. reflexivity.
Qed.

Lemma run_effects_match_nudges_witness :
  let r :=
    monitor_loop (scenario_ticks ["DISTRACTED"; "DISTRACTED"; "DISTRACTED"])
      90000000 (init scenario_store "s1" "write the report" 30) in
  nudges_sent (object_after r) = 1
  ∧ List.filter is_notification (effects_of r) =
      [Notification reminder_title "Get back to: write the report"].
Proof.
  destruct (run_effects_match_nudges scenario_store "s1" "write the report" 30
              (scenario_ticks ["DISTRACTED"; "DISTRACTED"; "DISTRACTED"]) 90000000)
    as (_ & _ & Hnote & _).
  - vm_compute. reflexivity.
  - split; [vm_compute; reflexivity|]. rewrite Hnote. vm_compute. reflexivity.
Defined.

Lemma distractions_cons j js :
  distractions (j :: js) =
    ((if state_of j then 0 else 1) + distractions js)%nat.
Proof.
  unfold distractions. destruct (state_of j) eqn:Hj.
  - rewrite filter_cons_False by congruence. reflexivity.
  - rewrite filter_cons_True by assumption. reflexivity.
Qed.

Lemma policy_run_bound js : ∀ c,
  0 ≤ c < 3 →
  0 ≤ (policy_run 3 c js).2 < 3
  ∧ 3 * Z.of_nat (length (policy_run 3 c js).1) + (policy_run 3 c js).2
    ≤ c + Z.of_nat (distractions js).
Proof.
  induction js as [|j js IH]; intros c Hc.
  - cbn. unfold distractions. cbn. lia.
  - cbn [policy_run]. rewrite distractions_cons. unfold policy_step.
    destruct (state_of j).
    + specialize (IH 0 ltac:(lia)).
      destruct (policy_run 3 0 js) as [nudging c2]. cbn [fst snd app] in *. lia.
    + destruct (3 <=? c + 1) eqn:Hle.
      * apply Z.leb_le in Hle. specialize (IH 0 ltac:(lia)).
        destruct (policy_run 3 0 js) as [nudging c2].
        cbn [fst snd app length] in *. lia.
      * apply Z.leb_gt in Hle. specialize (IH (c + 1) ltac:(lia)).
        destruct (policy_run 3 (c + 1) js) as [nudging c2].
        cbn [fst snd app] in *. lia.
Qed.

(** X4. The nudges of a run are bounded by its distractions: three times the
    number of nudges sent, plus the count of consecutive distractions that is
    left, is at most the number of distracted judgments; the count that is
    left is 0, 1 or 2. *)
Theorem run_nudges_bounded_by_distractions store sid g si ticks end_now :
  Database.check_session_active store sid = true →
  let self := object_after (monitor_loop ticks end_now (init store sid g si)) in
  0 ≤ consecutive_distractions self < 3
  ∧ 3 * nudges_sent self + consecutive_distractions self
    ≤ Z.of_nat (distractions (judgments ticks)).
Proof.
  intros Hactive self0.
  destruct (monitor_loop_closed store sid g si ticks end_now Hactive)
    as (self & out & Hrun & _ & _ & _ & _ & Hns & Hc & _).
  subst self0. rewrite Hrun. unfold object_after. cbn [fst].
  rewrite Hns, Hc.
  pose proof (policy_run_bound (judgments ticks) 0 ltac:(lia)) as [Hrange Hbound].
  split; [exact Hrange|]. lia.
Qed.

Lemma run_nudges_bounded_by_distractions_witness :
  let self :=
    object_after
      (monitor_loop
         (scenario_ticks ["DISTRACTED"; "DISTRACTED"; "FOCUSED"; "DISTRACTED"])
         120000000 (init scenario_store "s1" "write the report" 30)) in
  3 * nudges_sent self + consecutive_distractions self ≤ 3.
Proof.
  destruct (run_nudges_bounded_by_distractions scenario_store "s1"
              "write the report" 30
              (scenario_ticks ["DISTRACTED"; "DISTRACTED"; "FOCUSED"; "DISTRACTED"])
              120000000) as [_ Hbound].
  - vm_compute. reflexivity.
  - exact Hbound.
Defined.

Lemma sum_Z_app xs ys : sum_Z (xs ++ ys) = sum_Z xs + sum_Z ys.
Proof.
  unfold sum_Z. induction xs as [|x xs IH]; cbn [app foldr]; [lia|].
  rewrite IH. lia.
Qed.

(** The intervals of the tracker tile the time from the start of the open
    interval to the termination. *)
Lemma tracker_run_spans sid end_now js : ∀ start state,
  (let '(closed, open) := tracker_run sid (Some (start, state)) js in
   sum_Z (map span (closed ++ tracker_close sid open end_now)))
  = end_now - start.
Proof.
  induction js as [|[t f] rest IH]; intros start state.
  - cbn. unfold span. cbn. lia.
  - cbn [tracker_run tracker_step snd fst].
    destruct (Bool.eqb state f).
    + specialize (IH start state).
      destruct (tracker_run sid (Some (start, state)) rest) as [closed open].
      exact IH.
    + specialize (IH t f).
      destruct (tracker_run sid (Some (t, f)) rest) as [closed open].
      cbn [app map]. change (sum_Z (?x :: ?l)) with (x + sum_Z l).
      rewrite IH. unfold span. cbn. lia.
Qed.

Lemma tracker_run_ordered sid end_now js : ∀ start state,
  StronglySorted Z.le (start :: map fst js ++ [end_now]) →
  let '(closed, open) := tracker_run sid (Some (start, state)) js in
  Forall (λ iv, Database.interval_time_started iv ≤ Database.interval_time_ended iv)
    (closed ++ tracker_close sid open end_now).
Proof.
  induction js as [|[t f] rest IH]; intros start state Hsorted.
  - cbn. constructor; [|constructor]. cbn.
    apply StronglySorted_inv in Hsorted as [_ Hle].
    apply Forall_inv in Hle. exact Hle.
  - cbn [tracker_run tracker_step snd fst].
    cbn [map fst app] in Hsorted.
    apply StronglySorted_inv in Hsorted as [Htail Hle].
    destruct (Bool.eqb state f).
    + specialize (IH start state).
      destruct (tracker_run sid (Some (start, state)) rest) as [closed open].
      apply IH. apply StronglySorted_inv in Htail as [Htail' _].
      constructor; [exact Htail'|]. apply Forall_inv_tail in Hle. exact Hle.
    + specialize (IH t f Htail).
      destruct (tracker_run sid (Some (t, f)) rest) as [closed open].
      cbn [app]. constructor; [|exact IH]. cbn.
      apply Forall_inv in Hle. exact Hle.
Qed.

Lemma tracker_run_first sid j js :
  tracker_run sid None (j :: js) = tracker_run sid (Some j) js.
Proof.
  cbn [tracker_run tracker_step].
  destruct (tracker_run sid (Some j) js) as [closed open]. reflexivity.
Qed.

(** X5. The intervals that a run writes tile the time of the session: their
    lengths add up to the time from the first judgment to the termination;
    without a judgment no interval is written; and when the clock does not go
    back between the judgments and the termination, no interval ends before
    it starts. *)
Theorem run_intervals_tile_the_session store sid g si ticks end_now :
  Database.check_session_active store sid = true →
  ∃ written,
    Database.intervals
      (db (object_after (monitor_loop ticks end_now (init store sid g si))))
      = Database.intervals store ++ written
    ∧ (judgments ticks = [] → written = [])
    ∧ (∀ first rest, judgments ticks = first :: rest →
         sum_Z (map span written) = end_now - now first.1.1)
    ∧ (Sorted Z.le (map (λ j, now j.1.1) (judgments ticks) ++ [end_now]) →
         Forall (λ iv, Database.interval_time_started iv
                         ≤ Database.interval_time_ended iv) written).
Proof.
  intros Hactive.
  destruct (monitor_loop_run store sid g si ticks end_now Hactive)
    as (self & out & Hrun & Hint).
  rewrite Hrun. unfold object_after. cbn [fst].
  destruct (judgments ticks) as [|[[tk f] e] rest].
  - eexists. split; [exact Hint|].
    split; [reflexivity|]. split; [discriminate|]. intros _. constructor.
  - cbn [map] in Hint. rewrite tracker_run_first in Hint.
    change (sample_of (tk, f, e)) with (now tk, f) in Hint.
    pose proof (tracker_run_spans sid end_now (map sample_of rest) (now tk) f)
      as Hspans.
    pose proof (tracker_run_ordered sid end_now (map sample_of rest) (now tk) f)
      as Hordered.
    destruct (tracker_run sid (Some (now tk, f)) (map sample_of rest))
      as [closed open].
    eexists. split; [exact Hint|]. split; [discriminate|]. split.
    + intros first rest' Heq. injection Heq as <- <-. exact Hspans.
    + intros Hsorted. apply Hordered.
      apply Sorted_StronglySorted; [apply _|].
      rewrite map_map. exact Hsorted.
Qed.

Lemma run_intervals_tile_the_session_witness :
  ∃ written,
    Database.intervals
      (db (object_after
             (monitor_loop (scenario_ticks ["FOCUSED"; "DISTRACTED"]) 60000000
                (init scenario_store "s1" "write the report" 30))))
      = Database.intervals scenario_store ++ written
    ∧ sum_Z (map span written) = 60000000.
Proof.
  destruct (run_intervals_tile_the_session scenario_store "s1"
              "write the report" 30 (scenario_ticks ["FOCUSED"; "DISTRACTED"])
              60000000)
    as (written & Hint & _ & Hsum & _).
  - vm_compute. reflexivity.
  - exists written. split; [exact Hint|].
    destruct (judgments (scenario_ticks ["FOCUSED"; "DISTRACTED"]))
      as [|first rest] eqn:Hj; [vm_compute in Hj; discriminate Hj|].
    rewrite (Hsum first rest eq_refl).
    vm_compute in Hj. injection Hj as <- _. reflexivity.
Defined.

End RunFacts.

(** ** The routes and the command line *)

Module RouteFacts.
Import AggregatorFacts.

Lemma accumulate_live_as_estimate now analyses : ∀ last acc,
  list.last analyses = Some last →
  Routes.accumulate_live now analyses acc =
    accumulate_durations
      (Z.min (seconds_between (Database.timestamp last) now) 120) analyses acc.
Proof.
  induction analyses as [|a rest IH]; intros last acc Hlast; [discriminate|].
  destruct rest as [|b rest].
  - cbn in Hlast. injection Hlast as <-. reflexivity.
  - cbn [Routes.accumulate_live accumulate_durations].
    apply IH. exact Hlast.
Qed.

(** The estimate of the last judgment enters the total once. *)
Lemma total_shifts_with_estimate analyses e e' :
  analyses ≠ [] →
  sum_over analyses (inferred_duration e analyses) - e =
  sum_over analyses (inferred_duration e' analyses) - e'.
Proof.
  induction analyses as [|a rest IH]; intros Hne; [congruence|].
  rewrite !sum_over_cons.
  rewrite (sum_over_ext rest (λ i, inferred_duration e (a :: rest) (S i))
             (inferred_duration e rest)) by reflexivity.
  rewrite (sum_over_ext rest (λ i, inferred_duration e' (a :: rest) (S i))
             (inferred_duration e' rest)) by reflexivity.
  destruct rest as [|b rest].
  - unfold sum_over, inferred_duration. cbn. lia.
  - specialize (IH ltac:(discriminate)).
    unfold inferred_duration at 1 3. cbn [lookup list_lookup]. lia.
Qed.

Lemma accounting_nonneg estimate analyses p n :
  0 ≤ estimate →
  Sorted (Database.key_le Database.timestamp) analyses →
  accumulate_durations estimate analyses (0, 0) = (p, n) →
  0 ≤ p ∧ 0 ≤ n
  ∧ p + n = sum_over analyses (inferred_duration estimate analyses).
Proof.
  intros Hest Hsorted Hacc.
  rewrite accumulate_durations_sums in Hacc. injection Hacc as <- <-.
  rewrite !Z.add_0_l.
  split; [apply sum_over_nonneg; intros i; apply duration_in_state_nonneg; assumption|].
  split; [apply sum_over_nonneg; intros i; apply duration_in_state_nonneg; assumption|].
  rewrite sum_over_add. apply sum_over_ext. intros i.
  apply duration_in_state_split.
Qed.

Lemma percentage_in_range p n :
  0 ≤ p → 0 ≤ n →
  (0 <= percentage p (p + n))%Q ∧ (percentage p (p + n) <= 100)%Q.
Proof.
  intros Hp Hn. destruct (Z.eq_dec (p + n) 0) as [Hz|Hnz].
  - rewrite Hz. cbn. split; [apply Qle_refl|]. unfold Qle. cbn. lia.
  - destruct (percentage_bounds p (p + n) ltac:(lia) ltac:(lia)) as (H0 & H100 & _).
    auto.
Qed.

(** X6. The live statistics count every judgment but the last as the final
    analysis does, and the last one for the whole seconds since its
    timestamp, at most 120: the live total is the final total with this
    trailing time in place of the 30 seconds of the final estimate.  When the
    clock is not before the last judgment the two times are not negative and
    the percentage is between 0 and 100.  Without judgments all is 0. *)
Theorem live_stats_differ_by_the_trailing_time app now sid :
  let analyses := Database.get_screenshot_analyses (Routes.db app) sid in
  let stats := Routes.get_live_session_stats app now sid in
  let final := accumulate_durations 30 analyses (0, 0) in
  Routes.live_analyses_count stats = Z.of_nat (length analyses)
  ∧ (analyses = [] →
       Routes.live_productive_time stats = 0
       ∧ Routes.live_not_productive_time stats = 0
       ∧ Routes.live_focus_percentage stats = 0%Q)
  ∧ (∀ last, list.last analyses = Some last →
       let trailing :=
         Z.min (seconds_between (Database.timestamp last) now) 120 in
       trailing ≤ 120
       ∧ Routes.live_productive_time stats + Routes.live_not_productive_time stats
         = sum_over analyses (inferred_duration trailing analyses)
       ∧ Routes.live_productive_time stats + Routes.live_not_productive_time stats
         = final.1 + final.2 - 30 + trailing
       ∧ (Database.timestamp last ≤ now →
            0 ≤ Routes.live_productive_time stats
            ∧ 0 ≤ Routes.live_not_productive_time stats
            ∧ (0 <= Routes.live_focus_percentage stats)%Q
            ∧ (Routes.live_focus_percentage stats <= 100)%Q)).
Proof.
  intros analyses stats final. subst stats final.
  unfold Routes.get_live_session_stats. fold analyses.
  pose proof (get_screenshot_analyses_sorted (Routes.db app) sid) as Hsorted.
  fold analyses in Hsorted. clearbody analyses.
  split.
  { destruct analyses; [reflexivity|].
    destruct (Routes.accumulate_live _ _ _). reflexivity. }
  split.
  { intros ->. cbn. auto. }
  intros last Hlast.
  set (trailing := Z.min (seconds_between (Database.timestamp last) now) 120).
  cbv zeta.
    assert (analyses ≠ []) as Hne by (intros ->; discriminate Hlast).
    assert (match analyses with
            | [] => (0, 0)
            | _ :: _ => Routes.accumulate_live now analyses (0, 0)
            end = accumulate_durations trailing analyses (0, 0)) as ->.
    { destruct analyses; [congruence|].
      apply accumulate_live_as_estimate. exact Hlast. }
    destruct (accumulate_durations trailing analyses (0, 0)) as [p n] eqn:Hlive.
    destruct (accumulate_durations 30 analyses (0, 0)) as [p30 n30] eqn:Hfinal.
    cbn [Routes.live_productive_time Routes.live_not_productive_time
         Routes.live_focus_percentage fst snd].
    pose proof (accumulate_durations_sums trailing analyses 0 0) as Hl.
    pose proof (accumulate_durations_sums 30 analyses 0 0) as Hf.
    rewrite Hlive in Hl. rewrite Hfinal in Hf.
    injection Hl as Hp Hn. injection Hf as Hp30 Hn30.
    assert (p + n = sum_over analyses (inferred_duration trailing analyses)) as Hsum.
    { rewrite Hp, Hn, !Z.add_0_l, sum_over_add. apply sum_over_ext.
      intros i. apply duration_in_state_split. }
    assert (p30 + n30 = sum_over analyses (inferred_duration 30 analyses)) as Hsum30.
    { rewrite Hp30, Hn30, !Z.add_0_l, sum_over_add. apply sum_over_ext.
      intros i. apply duration_in_state_split. }
    split; [subst trailing; lia|]. split; [exact Hsum|]. split.
    { pose proof (total_shifts_with_estimate analyses trailing 30 Hne). lia. }
    intros Hclock.
    assert (0 ≤ trailing) as Htrail.
    { subst trailing. pose proof (seconds_between_nonneg _ _ Hclock). lia. }
    destruct (accounting_nonneg trailing analyses p n Htrail Hsorted Hlive)
      as (Hp0 & Hn0 & _).
    split; [exact Hp0|]. split; [exact Hn0|].
    apply percentage_in_range; assumption.
Qed.

Lemma live_stats_differ_by_the_trailing_time_witness :
  let app := {| Routes.db := SessionAnalyzer.fractional_store;
                Routes.active_monitors := ∅ |} in
  let stats := Routes.get_live_session_stats app 500000000 "s1" in
  Routes.live_productive_time stats + Routes.live_not_productive_time stats = 150.
Proof.
  intros app stats.
  destruct (live_stats_differ_by_the_trailing_time app 500000000 "s1")
    as (_ & _ & Hlast).
  destruct (Hlast {| Database.analysis_session_id := "s1";
                     Database.timestamp := 30900000;
                     Database.focused := false;
                     Database.explanation := "A video is playing." |})
    as (_ & _ & Htotal & _).
  - vm_compute. reflexivity.
  - subst stats. rewrite Htotal. vm_compute. reflexivity.
Defined.

(** X7. What the monitor reports is what the analyzer stores: when the
    sampling interval of the monitor is 30 (the value both callers pass) or
    is not positive, the summary of a monitor on a store has the productive
    time, the other time, the percentage and the number of nudges that ending
    the session on that store writes in its record. *)
Theorem summary_agrees_with_final_record
    claude json_loads format_1f db now sid session self :
  Database.get_session db sid = Some session →
  Database.status session = "active" →
  FocusMonitor.db self = db →
  FocusMonitor.session_id self = sid →
  FocusMonitor.screenshot_interval self ≤ 0
  ∨ FocusMonitor.screenshot_interval self = 30 →
  ∃ db' ended,
    SessionAnalyzer.analyze_and_end_session claude json_loads format_1f db now sid
      = inr (db', Some ended)
    ∧ Database.productive_time ended =
        summary_productive_time (FocusMonitor.get_session_summary self)
    ∧ Database.not_productive_time ended =
        summary_not_productive_time (FocusMonitor.get_session_summary self)
    ∧ Database.focus_percentage ended =
        summary_focus_percentage (FocusMonitor.get_session_summary self)
    ∧ Database.nudges_received ended =
        summary_nudges_received (FocusMonitor.get_session_summary self).
Proof.
  intros Hget Hstatus Hdb Hsid Hsi.
  destruct (analyze_and_end_session_active claude json_loads format_1f db now sid
              session Hget Hstatus)
    as (db' & ended & Hrun & _ & _ & _ & _ & _ & Hfields).
  exists db', ended. split; [exact Hrun|]. cbv zeta in Hfields.
  unfold FocusMonitor.get_session_summary. rewrite Hdb, Hsid.
  assert ((if 0 <? FocusMonitor.screenshot_interval self
           then FocusMonitor.screenshot_interval self else 30) = 30) as ->.
  { destruct (0 <? FocusMonitor.screenshot_interval self) eqn:Hlt; [|reflexivity].
    apply Z.ltb_lt in Hlt. lia. }
  destruct (Database.get_screenshot_analyses db sid) as [|a rest].
  - cbn in Hfields. destruct Hfields as (-> & -> & -> & -> & _).
    cbn. auto.
  - destruct (accumulate_durations 30 (a :: rest) (0, 0)) as [p n].
    destruct Hfields as (-> & -> & -> & -> & _). cbn. auto.
Qed.

Lemma summary_agrees_with_final_record_witness :
  ∃ db' ended,
    SessionAnalyzer.analyze_and_end_session (λ _, None) (λ _, None) (λ _, "0.0")
      SessionAnalyzer.fractional_store 60000000 "s1" = inr (db', Some ended)
    ∧ Database.not_productive_time ended =
        summary_not_productive_time
          (FocusMonitor.get_session_summary
             (FocusMonitor.init SessionAnalyzer.fractional_store "s1"
                "write the report" 30)).
Proof.
  destruct (summary_agrees_with_final_record (λ _, None) (λ _, None) (λ _, "0.0")
              SessionAnalyzer.fractional_store 60000000 "s1"
              FocusMonitor.scenario_session
              (FocusMonitor.init SessionAnalyzer.fractional_store "s1"
                 "write the report" 30))
    as (db' & ended & Hrun & _ & Hn & _).
  - vm_compute. reflexivity.
  - reflexivity.
  - reflexivity.
  - reflexivity.
  - right. reflexivity.
  - exists db', ended. split; [exact Hrun|exact Hn].
Defined.

Lemma monitored_spec app sid :
  Routes.monitored app sid = true ↔ is_Some (Routes.active_monitors app !! sid).
Proof.
  unfold Routes.monitored. destruct (Routes.active_monitors app !! sid).
  - split; eauto.
  - split; [discriminate|]. intros H. destruct (is_Some_None H).
Qed.

(** X8. Stopping the monitoring of a session succeeds exactly when the
    session is active in the store, whether or not a monitor is registered
    for it: the session is then completed with the record of the analyzer,
    and only its entry leaves the registry.  A session that is not active is
    refused with the status 400 when no monitor is registered for it, and
    with the status 500 and the message of the analyzer when one is. *)
Theorem stop_monitoring_succeeds_iff_active
    claude json_loads format_1f app now sid :
  (Database.check_session_active (Routes.db app) sid = true →
     ∃ app' ended,
       Routes.stop_monitoring claude json_loads format_1f app now sid
         = inr (app', Some ended)
       ∧ SessionAnalyzer.analyze_and_end_session claude json_loads format_1f
           (Routes.db app) now sid = inr (Routes.db app', Some ended)
       ∧ Database.status ended = "completed"
       ∧ Database.get_session (Routes.db app') sid = Some ended
       ∧ Routes.active_monitors app' !! sid = None
       ∧ ∀ other, other ≠ sid →
           Routes.active_monitors app' !! other = Routes.active_monitors app !! other)
  ∧ (Database.check_session_active (Routes.db app) sid = false →
       Routes.monitored app sid = false →
       Routes.stop_monitoring claude json_loads format_1f app now sid
         = inl (App.HTTP 400 "Session is not active"))
  ∧ (Database.check_session_active (Routes.db app) sid = false →
       Routes.monitored app sid = true →
       Routes.stop_monitoring claude json_loads format_1f app now sid
         = inl (App.HTTP 500
                  ("Session " +:+ sid +:+
                   match Database.get_session (Routes.db app) sid with
                   | Some _ => " is not active"
                   | None => " not found"
                   end))).
Proof.
  split; [|split].
  - intros Hactive. unfold Routes.stop_monitoring. rewrite Hactive.
    rewrite andb_false_r.
    apply AnalyzerFacts.check_session_active_spec in Hactive
      as (session & Hget & Hstatus).
    destruct (analyze_and_end_session_active claude json_loads format_1f
                (Routes.db app) now sid session Hget Hstatus)
      as (db' & ended & Hrun & Hget' & _ & Hcompleted & _).
    rewrite Hrun. eexists _, ended. split; [reflexivity|].
    cbn [Routes.db Routes.active_monitors].
    split; [reflexivity|]. split; [exact Hcompleted|]. split; [exact Hget'|].
    unfold Routes.monitored.
    destruct (Routes.active_monitors app !! sid) eqn:Hreg.
    + split; [apply lookup_delete_eq|].
      intros other Hother. apply lookup_delete_ne. congruence.
    + split; [exact Hreg|]. reflexivity.
  - intros Hinactive Hreg. unfold Routes.stop_monitoring.
    rewrite Hinactive, Hreg. reflexivity.
  - intros Hinactive Hreg. unfold Routes.stop_monitoring.
    rewrite Hinactive, Hreg. cbn [negb andb].
    unfold SessionAnalyzer.analyze_and_end_session.
    unfold Database.check_session_active, Database.get_session in *.
    destruct (Database.sessions (Routes.db app) !! sid) as [session|];
      [|reflexivity].
    rewrite Hinactive. reflexivity.
Qed.

Lemma stop_monitoring_succeeds_iff_active_witness :
  let app := {| Routes.db := SessionAnalyzer.fractional_store;
                Routes.active_monitors := ∅ |} in
  ∃ app' ended,
    Routes.stop_monitoring (λ _, None) (λ _, None) (λ _, "0.0") app 60000000 "s1"
      = inr (app', Some ended)
    ∧ Database.status ended = "completed".
Proof.
  intros app.
  destruct (stop_monitoring_succeeds_iff_active (λ _, None) (λ _, None)
              (λ _, "0.0") app 60000000 "s1") as [Hstop _].
  destruct Hstop as (app' & ended & Hrun & _ & Hstatus & _).
  - vm_compute. reflexivity.
  - exists app', ended. split; [exact Hrun|exact Hstatus].
Defined.

(** X9. Starting the monitoring answers with the session and its goal
    exactly when the session is active and no monitor is registered for it;
    every refusal has the status 400, and the answer 404 of the code is never
    given, since an active session exists. *)
Theorem start_monitoring_never_answers_404 app sid :
  match Routes.start_monitoring app sid with
  | inr (scheduled, goal) =>
      scheduled = sid
      ∧ Database.check_session_active (Routes.db app) sid = true
      ∧ Routes.monitored app sid = false
      ∧ ∃ session, Database.get_session (Routes.db app) sid = Some session
                   ∧ Database.goal session = goal
  | inl (App.HTTP code detail) =>
      code = 400
      ∧ (Database.check_session_active (Routes.db app) sid = false
         ∨ Routes.monitored app sid = true)
  end.
Proof.
  unfold Routes.start_monitoring.
  destruct (Database.check_session_active (Routes.db app) sid) eqn:Hactive;
    cbn [negb]; [|auto].
  destruct (Routes.monitored app sid) eqn:Hreg; [auto|].
  apply AnalyzerFacts.check_session_active_spec in Hactive
    as (session & Hget & Hstatus).
  rewrite Hget. repeat split; eauto.
Qed.

Lemma create_session_fresh db now sid goal :
  Database.get_session db sid = None →
  ∃ db',
    Database.create_session db now sid goal = Some db'
    ∧ Database.get_session db' sid =
        Some {| Database.title := None; Database.goal := goal;
                Database.time_started := now; Database.time_ended := None;
                Database.focus_percentage := 0%Q; Database.productive_time := 0;
                Database.not_productive_time := 0; Database.nudges_received := 0;
                Database.ai_analysis := None;
                Database.ai_structured_output := None;
                Database.status := "active" |}
    ∧ Database.check_session_active db' sid = true
    ∧ (∀ other, other ≠ sid →
         Database.get_session db' other = Database.get_session db other)
    ∧ Database.intervals db' = Database.intervals db
    ∧ Database.nudges db' = Database.nudges db
    ∧ Database.screenshot_analyses db' = Database.screenshot_analyses db.
Proof.
  unfold Database.get_session, Database.create_session,
    Database.check_session_active.
  intros Hfresh. rewrite Hfresh. eexists. split; [reflexivity|].
  cbn [Database.sessions Database.intervals Database.nudges
       Database.screenshot_analyses].
  rewrite lookup_insert_eq. split; [reflexivity|]. split; [reflexivity|].
  split; [|auto]. intros other Hother. apply lookup_insert_ne. congruence.
Qed.

(** X10. A session is created exactly when its identifier is new.  It is
    then active, with its goal and its start time, and the fields of a
    completed session (title, end time, narrative, breakdown) are not set;
    the other sessions and the three other tables are as before.  The route
    stores the goal as it is given, empty or not; the command line stores the
    goal stripped and creates nothing when the stripped goal is empty. *)
Theorem created_session_is_active_and_bare db app now sid goal typed :
  (is_Some (Database.get_session db sid) →
     Database.create_session db now sid goal = None)
  ∧ (Database.get_session db sid = None →
       ∃ db',
         Database.create_session db now sid goal = Some db'
         ∧ Database.get_session db' sid =
             Some {| Database.title := None; Database.goal := goal;
                     Database.time_started := now; Database.time_ended := None;
                     Database.focus_percentage := 0%Q;
                     Database.productive_time := 0;
                     Database.not_productive_time := 0;
                     Database.nudges_received := 0;
                     Database.ai_analysis := None;
                     Database.ai_structured_output := None;
                     Database.status := "active" |}
         ∧ Database.check_session_active db' sid = true
         ∧ (∀ other, other ≠ sid →
              Database.get_session db' other = Database.get_session db other)
         ∧ Database.intervals db' = Database.intervals db
         ∧ Database.nudges db' = Database.nudges db
         ∧ Database.screenshot_analyses db' = Database.screenshot_analyses db)
  ∧ (Database.get_session (Routes.db app) sid = None →
       ∃ app' answer,
         Routes.create_session app now sid goal = inr (app', answer)
         ∧ Routes.created_goal answer = goal
         ∧ Routes.created_status answer = "active"
         ∧ Routes.get_session app' sid =
             inr {| Database.title := None; Database.goal := goal;
                    Database.time_started := now; Database.time_ended := None;
                    Database.focus_percentage := 0%Q;
                    Database.productive_time := 0;
                    Database.not_productive_time := 0;
                    Database.nudges_received := 0;
                    Database.ai_analysis := None;
                    Database.ai_structured_output := None;
                    Database.status := "active" |})
  ∧ (strip typed = "" → Main.create_new_session db now typed sid = Main.EmptyGoal)
  ∧ (strip typed ≠ "" → Database.get_session db sid = None →
       ∃ db',
         Main.create_new_session db now typed sid = Main.Created db' sid (strip typed)
         ∧ Database.create_session db now sid (strip typed) = Some db').
Proof.
  split; [|split; [|split; [|split]]].
  - intros [session Hget]. unfold Database.create_session.
    unfold Database.get_session in Hget. rewrite Hget. reflexivity.
  - apply create_session_fresh.
  - intros Hfresh.
    destruct (create_session_fresh (Routes.db app) now sid goal Hfresh)
      as (db' & Hcreate & Hget & _).
    unfold Routes.create_session. rewrite Hcreate.
    eexists _, _. split; [reflexivity|]. cbn [Routes.created_goal Routes.created_status].
    split; [reflexivity|]. split; [reflexivity|].
    unfold Routes.get_session. cbn [Routes.db]. rewrite Hget. reflexivity.
  - intros Hempty. unfold Main.create_new_session. rewrite Hempty. reflexivity.
  - intros Hgoal Hfresh.
    destruct (create_session_fresh db now sid (strip typed) Hfresh)
      as (db' & Hcreate & _).
    unfold Main.create_new_session.
    apply ClassifierFacts.truthy_true in Hgoal. rewrite Hgoal, Hcreate.
    exists db'. split; reflexivity.
Qed.

Lemma created_session_is_active_and_bare_witness :
  ∃ db',
    Main.create_new_session FocusMonitor.scenario_store 5 "  read a paper  " "s2"
      = Main.Created db' "s2" "read a paper"
    ∧ Database.create_session FocusMonitor.scenario_store 5 "s2" "read a paper"
      = Some db'.
Proof.
  destruct (created_session_is_active_and_bare FocusMonitor.scenario_store
              {| Routes.db := FocusMonitor.scenario_store;
                 Routes.active_monitors := ∅ |}
              5 "s2" "" "  read a paper  ") as (_ & _ & _ & _ & Hcli).
  apply Hcli.
  - vm_compute. discriminate.
  - vm_compute. reflexivity.
Defined.






End RouteFacts.

(** ** The tables *)

Module StoreFacts.
Import Observe.

Lemma filter_filter_other {A} (key : A → string) (sid other : string) (l : list A) :
  other ≠ sid →
  filter (λ r, key r = other) (filter (λ r, key r ≠ sid) l)
  = filter (λ r, key r = other) l.
Proof.
  intros Hother. induction l as [|x l IH]; [reflexivity|].
  destruct (decide (key x = sid)) as [Hx|Hx].
  - rewrite (filter_cons_False (λ r, key r ≠ sid)) by (cbn; tauto).
    rewrite (filter_cons_False (λ r, key r = other)) by (cbn; congruence).
    exact IH.
  - rewrite (filter_cons_True (λ r, key r ≠ sid)) by exact Hx.
    destruct (decide (key x = other)) as [Ho|Ho].
    + rewrite !(filter_cons_True (λ r, key r = other)) by exact Ho.
      f_equal. exact IH.
    + rewrite !(filter_cons_False (λ r, key r = other)) by exact Ho.
      exact IH.
Qed.

Lemma filter_filter_same {A} (key : A → string) (sid : string) (l : list A) :
  filter (λ r, key r = sid) (filter (λ r, key r ≠ sid) l) = [].
Proof.
  induction l as [|x l IH]; [reflexivity|].
  destruct (decide (key x = sid)) as [Hx|Hx].
  - rewrite (filter_cons_False (λ r, key r ≠ sid)) by (cbn; tauto). exact IH.
  - rewrite (filter_cons_True (λ r, key r ≠ sid)) by exact Hx.
    rewrite (filter_cons_False (λ r, key r = sid)) by exact Hx. exact IH.
Qed.

(** X13. Each query returns the rows of the session it is asked for, each
    one once, in ascending order of its time column.  A judgment that is
    inserted for a session is returned for that session, next to the rows
    that were returned before, and changes the answer for no other session;
    the same holds for an interval and for a nudge.  An insertion with a
    missing explanation or state is refused and writes nothing. *)
Theorem queries_return_what_was_inserted db sid :
  (Database.get_screenshot_analyses db sid ≡ₚ analyses_of db sid
   ∧ Sorted (Database.key_le Database.timestamp)
       (Database.get_screenshot_analyses db sid))
  ∧ (Database.get_session_intervals db sid ≡ₚ intervals_of db sid
     ∧ Sorted (Database.key_le Database.interval_time_started)
         (Database.get_session_intervals db sid))
  ∧ (Database.get_session_nudges db sid ≡ₚ nudges_of db sid
     ∧ Sorted (Database.key_le Database.nudge_timestamp)
         (Database.get_session_nudges db sid))
  ∧ (∀ ts f text,
       ∃ db',
         Database.add_screenshot_analysis db sid ts f (Some text) = Some db'
         ∧ Database.get_screenshot_analyses db' sid ≡ₚ
             Database.get_screenshot_analyses db sid ++
               [{| Database.analysis_session_id := sid; Database.timestamp := ts;
                   Database.focused := f; Database.explanation := text |}]
         ∧ ∀ other, other ≠ sid →
             Database.get_screenshot_analyses db' other
             = Database.get_screenshot_analyses db other)
  ∧ (∀ start ended f,
       ∃ db',
         Database.add_interval db sid start ended (Some f) = Some db'
         ∧ Database.get_session_intervals db' sid ≡ₚ
             Database.get_session_intervals db sid ++
               [{| Database.interval_session_id := sid;
                   Database.interval_time_started := start;
                   Database.interval_time_ended := ended;
                   Database.interval_focused := f |}]
         ∧ ∀ other, other ≠ sid →
             Database.get_session_intervals db' other
             = Database.get_session_intervals db other)
  ∧ (∀ now reason,
       Database.get_session_nudges (Database.add_nudge db now sid reason) sid ≡ₚ
         Database.get_session_nudges db sid ++
           [{| Database.nudge_session_id := sid; Database.nudge_timestamp := now;
               Database.nudge_reason := reason |}]
       ∧ ∀ other, other ≠ sid →
           Database.get_session_nudges (Database.add_nudge db now sid reason) other
           = Database.get_session_nudges db other)
  ∧ (∀ ts f, Database.add_screenshot_analysis db sid ts f None = None)
  ∧ (∀ start ended, Database.add_interval db sid start ended None = None).
Proof.
  unfold Database.get_screenshot_analyses, Database.get_session_intervals,
    Database.get_session_nudges, Database.order_by.
  split; [split; [apply merge_sort_Permutation|apply AggregatorFacts.order_by_sorted]|].
  split; [split; [apply merge_sort_Permutation|apply AggregatorFacts.order_by_sorted]|].
  split; [split; [apply merge_sort_Permutation|apply AggregatorFacts.order_by_sorted]|].
  split.
  { intros ts f text. eexists. split; [reflexivity|].
    cbn [Database.screenshot_analyses]. split.
    - rewrite !merge_sort_Permutation, filter_app.
      rewrite (filter_cons_True _ _ []) by reflexivity. reflexivity.
    - intros other Hother. rewrite RunFacts.filter_other_app; [reflexivity|].
      constructor; [cbn; congruence|constructor]. }
  split.
  { intros start ended f. eexists. split; [reflexivity|].
    cbn [Database.intervals]. split.
    - rewrite !merge_sort_Permutation, filter_app.
      rewrite (filter_cons_True _ _ []) by reflexivity. reflexivity.
    - intros other Hother. rewrite RunFacts.filter_other_app; [reflexivity|].
      constructor; [cbn; congruence|constructor]. }
  split.
  { intros now reason. cbn [Database.add_nudge Database.nudges]. split.
    - rewrite !merge_sort_Permutation, filter_app.
      rewrite (filter_cons_True _ _ []) by reflexivity. reflexivity.
    - intros other Hother. rewrite RunFacts.filter_other_app; [reflexivity|].
      constructor; [cbn; congruence|constructor]. }
  split; reflexivity.
Qed.

(** X14. Deleting the judgments of a session leaves none for this session
    and leaves those of every other session, the intervals, the nudges and
    the sessions as they were; deleting twice is deleting once. *)
Theorem delete_screenshot_analyses_of_one_session db sid :
  let db' := DatabaseRest.delete_screenshot_analyses db sid in
  Database.get_screenshot_analyses db' sid = []
  ∧ (∀ other, other ≠ sid →
       Database.get_screenshot_analyses db' other
       = Database.get_screenshot_analyses db other)
  ∧ Database.sessions db' = Database.sessions db
  ∧ Database.intervals db' = Database.intervals db
  ∧ Database.nudges db' = Database.nudges db
  ∧ DatabaseRest.delete_screenshot_analyses db' sid = db'.
Proof.
  intros db'. subst db'.
  unfold Database.get_screenshot_analyses, DatabaseRest.delete_screenshot_analyses.
  cbn [Database.screenshot_analyses Database.sessions Database.intervals
       Database.nudges].
  split; [rewrite filter_filter_same; reflexivity|].
  split; [intros other Hother; rewrite filter_filter_other by exact Hother;
          reflexivity|].
  split; [reflexivity|]. split; [reflexivity|]. split; [reflexivity|].
  f_equal. induction (Database.screenshot_analyses db) as [|x l IH]; [reflexivity|].
  destruct (decide (Database.analysis_session_id x = sid)) as [Hx|Hx].
  - rewrite (filter_cons_False _ x l) by (cbn; tauto). exact IH.
  - rewrite (filter_cons_True _ x l) by exact Hx.
    rewrite (filter_cons_True _ x _) by exact Hx. f_equal. exact IH.
Qed.

End StoreFacts.

(** ** The requests of the analyzer *)

Module PromptFacts.
Import SessionAnalyzer StringFacts.

Lemma slice_step_from_length {A} (step : nat) (l : list A) : ∀ skip,
  (1 ≤ step)%nat →
  length (slice_step_from step skip l) =
    if (length l <=? skip)%nat then O
    else S ((length l - skip - 1) / step).
Proof.
  induction l as [|x rest IH]; intros skip Hstep; [reflexivity|].
  destruct skip as [|k]; cbn [slice_step_from length].
  - rewrite (IH (step - 1)%nat Hstep). cbn [Nat.leb].
    rewrite Nat.sub_0_r. cbn [Nat.sub]. rewrite Nat.sub_0_r. f_equal.
    destruct (length rest <=? step - 1)%nat eqn:Hle.
    + apply Nat.leb_le in Hle. symmetry. apply Nat.div_small. lia.
    + apply Nat.leb_gt in Hle.
      replace (length rest - (step - 1) - 1)%nat with (length rest - step)%nat by lia.
      replace (length rest) with ((length rest - step) + 1 * step)%nat at 2 by lia.
      rewrite Nat.div_add by lia. lia.
  - rewrite (IH k Hstep). cbn [Nat.leb Nat.sub]. reflexivity.
Qed.

Lemma slice_step_from_subset {A} (step : nat) (l : list A) : ∀ skip x,
  x ∈ slice_step_from step skip l → x ∈ l.
Proof.
  induction l as [|y rest IH]; intros skip x Hx; [exact Hx|].
  destruct skip as [|k]; cbn [slice_step_from] in Hx.
  - apply elem_of_cons in Hx as [->|Hx]; [left|right; eapply IH; exact Hx].
  - right. eapply IH. exact Hx.
Qed.

(** The number of examples: five when there are five distractions or more,
    all of them otherwise. *)
Lemma sample_length {A} (l : list A) :
  length (take 5 (slice_step (Nat.max 1 (length l / 5)) l)) = Nat.min (length l) 5.
Proof.
  rewrite length_take. unfold slice_step.
  rewrite slice_step_from_length by lia.
  destruct (length l <=? 0)%nat eqn:Hzero.
  - apply Nat.leb_le in Hzero. lia.
  - apply Nat.leb_gt in Hzero. rewrite Nat.sub_0_r.
    destruct (le_lt_dec 5 (length l)) as [Hbig|Hsmall].
    + assert (4 ≤ (length l - 1) / Nat.max 1 (length l / 5))%nat; [|lia].
      pose proof (Nat.Div0.mul_div_le (length l) 5) as Hdiv.
      assert (1 ≤ length l / 5)%nat as Hstep.
      { apply Nat.div_le_lower_bound; lia. }
      rewrite Nat.max_r by exact Hstep.
      apply Nat.div_le_lower_bound; lia.
    + rewrite (Nat.div_small (length l) 5) by lia.
      cbn [Nat.max]. rewrite Nat.div_1_r. lia.
Qed.

(** X15. The request for the narrative carries five examples of
    distractions when the session has five distracted judgments or more, and
    all of them otherwise; the first example is the first distracted
    judgment, and every example is the timestamp and the explanation of a
    distracted judgment of the session. *)
Theorem narrative_request_samples_distractions
    db goal intervals nudges pct p n sid :
  let distracted_analyses :=
    distracted (Database.get_screenshot_analyses db sid) in
  ∃ pattern more examples,
    analysis_prompt db goal intervals nudges pct p n sid =
      AnalysisPrompt goal pct p n (focused_intervals intervals)
        (length intervals - focused_intervals intervals) (length nudges)
        pattern more examples
    ∧ length examples = Nat.min (length distracted_analyses) 5
    ∧ (∀ a rest, distracted_analyses = a :: rest →
         head examples = Some (Database.timestamp a, Database.explanation a))
    ∧ ∀ example, example ∈ examples →
        ∃ a, a ∈ distracted_analyses
             ∧ Database.focused a = false
             ∧ example = (Database.timestamp a, Database.explanation a).
Proof.
  intros distracted_analyses. unfold analysis_prompt. fold distracted_analyses.
  eexists _, _, _. split; [reflexivity|].
  assert (∀ a, a ∈ distracted_analyses → Database.focused a = false) as Hstate.
  { intros a Ha. unfold distracted_analyses, distracted in Ha.
    apply list_elem_of_filter in Ha as [Ha _]. exact Ha. }
  destruct distracted_analyses as [|a rest] eqn:Hd.
  - split; [reflexivity|]. split; [discriminate|].
    intros example Hin. apply elem_of_nil in Hin. destruct Hin.
  - rewrite <- Hd in *. split.
    { rewrite length_map. apply sample_length. }
    split.
    { intros a' rest' Heq. rewrite Hd in *. injection Heq as <- <-.
      unfold slice_step. cbn [slice_step_from take map head]. reflexivity. }
    intros example Hin.
    apply list_elem_of_fmap in Hin as (a' & -> & Ha').
    apply elem_of_take in Ha' as (i & Ha' & _).
    apply list_elem_of_lookup_2 in Ha'.
    apply slice_step_from_subset in Ha'.
    exists a'. auto.
Qed.

End PromptFacts.

(** ** The fences of a reply *)

Module FenceFacts.
Import SessionAnalyzer StringFacts.

Lemma has_char_app c a b :
  has_char c (a +:+ b) = has_char c a || has_char c b.
Proof.
  induction a as [|x a IH]; str_simpl; [reflexivity|].
  rewrite IH, orb_assoc. reflexivity.
Qed.

Lemma has_char_fence sepr pre suf :
  has_char backtick (pre +:+ String backtick sepr +:+ suf) = true.
Proof.
  rewrite has_char_app. str_simpl. apply orb_true_r.
Qed.

Lemma prefix_fence sepr s :
  has_char backtick s = false → String.prefix (String backtick sepr) s = false.
Proof.
  intros Hs. destruct (String.prefix _ s) eqn:Hp; [|reflexivity].
  apply prefix_spec in Hp as [suf ->].
  rewrite <- (append_nil_l (String backtick sepr +:+ suf)), has_char_fence in Hs.
  discriminate.
Qed.

Lemma contains_fence sepr s :
  has_char backtick s = false → contains (String backtick sepr) s = false.
Proof.
  intros Hs. destruct (contains _ s) eqn:Hc; [|reflexivity].
  apply contains_spec in Hc as (pre & suf & ->).
  rewrite has_char_fence in Hs. discriminate.
Qed.

Lemma partition_at_none sepr s :
  has_char backtick s = false → partition_at (String backtick sepr) s = None.
Proof.
  induction s as [|c s IH]; intros Hs.
  - reflexivity.
  - cbn [partition_at]. rewrite (prefix_fence _ _ Hs).
    cbn [has_char] in Hs. apply orb_false_iff in Hs as [_ Hs].
    rewrite (IH Hs). reflexivity.
Qed.

Lemma string_drop_app p s : string_drop (String.length p) (p +:+ s) = s.
Proof. induction p as [|c p IH]; str_simpl; [reflexivity|exact IH]. Qed.

Lemma partition_at_first sepr pre rest :
  has_char backtick pre = false →
  partition_at (String backtick sepr) (pre +:+ String backtick sepr +:+ rest)
  = Some (pre, rest).
Proof.
  induction pre as [|c pre IH]; intros Hpre.
  - rewrite append_nil_l.
    assert (String.prefix (String backtick sepr) (String backtick sepr +:+ rest)
            = true) as Hp by (apply prefix_spec; eauto).
    rewrite append_cons in *. cbn [partition_at]. rewrite Hp.
    rewrite <- append_cons, string_drop_app. reflexivity.
  - cbn [has_char] in Hpre. apply orb_false_iff in Hpre as [Hc Hpre].
    rewrite append_cons. cbn [partition_at].
    assert (String.prefix (String backtick sepr)
              (String c (pre +:+ String backtick sepr +:+ rest)) = false) as Hp.
    { destruct (String.prefix _ _) eqn:Hp; [|reflexivity].
      apply prefix_spec in Hp as [suf Hp]. rewrite append_cons in Hp.
      injection Hp as -> _. rewrite Ascii.eqb_refl in Hc. discriminate. }
    rewrite Hp, (IH Hpre). reflexivity.
Qed.

Lemma prefix_same a p s :
  String.prefix (String a p) (String a s) = String.prefix p s.
Proof. cbn [String.prefix]. destruct (ascii_dec a a); congruence. Qed.

Lemma split_item0_cons sepr c s :
  Ascii.eqb c backtick = false →
  split_item0 (String backtick sepr) (String c s)
  = String c (split_item0 (String backtick sepr) s).
Proof.
  intros Hc. unfold split_item0. cbn [partition_at].
  assert (String.prefix (String backtick sepr) (String c s) = false) as Hp.
  { destruct (String.prefix _ _) eqn:Hp; [|reflexivity].
    apply prefix_spec in Hp as [suf Hp]. rewrite append_cons in Hp.
    injection Hp as -> _. rewrite Ascii.eqb_refl in Hc. discriminate. }
  rewrite Hp. destruct (partition_at _ s) as [[before after]|]; reflexivity.
Qed.

(** What is between a fence and the next one, or the end of the text. *)
Lemma split_item0_body body post :
  has_char backtick body = false →
  split_item0 "```" (body +:+ "```" +:+ post) = body
  ∧ split_item0 "```" body = body.
Proof.
  intros Hbody. unfold split_item0.
  rewrite (partition_at_first _ _ _ Hbody), (partition_at_none _ _ Hbody).
  split; reflexivity.
Qed.

(** The text after a closing fence, up to the next fence that opens with
    json: nothing when json follows the closing fence, all of it otherwise. *)
Lemma split_item0_after_fence post :
  has_char backtick post = false →
  split_item0 "```json" ("```" +:+ post) = ""
  ∨ split_item0 "```json" ("```" +:+ post) = "```" +:+ post.
Proof.
  intros Hpost. unfold split_item0. str_simpl.
  assert (String.prefix "`json" post = false) as H1
    by exact (prefix_fence "json" post Hpost).
  assert (String.prefix "``json" post = false) as H2
    by exact (prefix_fence "`json" post Hpost).
  assert (partition_at "```json" post = None) as H3
    by exact (partition_at_none "``json" post Hpost).
  rewrite H1, H2. change (partition_at _ post) with (partition_at "```json" post).
  rewrite H3.
  destruct (String.prefix "json" post); [left|right]; reflexivity.
Qed.

(** The body of a fence that opens with json, as the two splits find it. *)
Lemma fence_body body post :
  has_char backtick body = false →
  has_char backtick post = false →
  split_item0 "```" (split_item0 "```json" (body +:+ "```" +:+ post)) = body.
Proof.
  intros Hbody Hpost. induction body as [|c body IH].
  - rewrite append_nil_l.
    destruct (split_item0_after_fence post Hpost) as [-> | ->].
    + reflexivity.
    + apply (split_item0_body "" post). reflexivity.
  - cbn [has_char] in Hbody. apply orb_false_iff in Hbody as [Hc Hbody].
    rewrite append_cons.
    change "```json" with (String backtick "``json").
    change "```" with (String backtick "``") at 1.
    rewrite (split_item0_cons _ _ _ Hc), (split_item0_cons _ _ _ Hc).
    f_equal. apply (IH Hbody).
Qed.

(** X16. A reply is unwrapped from its fence.  When no backtick comes before
    the fence that opens with json and none is in its body, the text handed
    to the parser is the body without the blanks around it, when no backtick
    follows the closing fence and also when the fence is never closed.  A
    bare fence is unwrapped the same way, whatever follows it, when the fence
    with json occurs nowhere in the reply, and a reply without a backtick is
    handed over as it is. *)
Theorem fenced_reply_is_unwrapped (pre body post : string) :
  has_char backtick pre = false →
  has_char backtick body = false →
  (has_char backtick post = false →
   extract_json (pre +:+ "```json" +:+ body +:+ "```" +:+ post) = strip body)
  ∧ extract_json (pre +:+ "```json" +:+ body) = strip body
  ∧ (contains "```json" (pre +:+ "```" +:+ body +:+ "```" +:+ post) = false →
     extract_json (pre +:+ "```" +:+ body +:+ "```" +:+ post) = strip body)
  ∧ extract_json pre = pre.
Proof.
  intros Hpre Hbody.
  destruct (split_item0_body body post Hbody) as [Hclosed Hopen].
  split; [|split; [|split]].
  - intros Hpost. unfold extract_json, split_item1.
    rewrite (proj2 (contains_spec _ _)) by eauto.
    rewrite (partition_at_first _ _ _ Hpre).
    rewrite (fence_body body post Hbody Hpost). reflexivity.
  - unfold extract_json, split_item1.
    rewrite (proj2 (contains_spec _ _)) by eauto.
    rewrite (partition_at_first _ _ _ Hpre).
    unfold split_item0 at 2. rewrite (partition_at_none _ _ Hbody).
    rewrite Hopen. reflexivity.
  - intros Hjson. unfold extract_json, split_item1. rewrite Hjson.
    rewrite (proj2 (contains_spec "```" _)) by eauto.
    rewrite (partition_at_first _ _ _ Hpre), Hclosed, Hopen. reflexivity.
  - unfold extract_json.
    rewrite !(contains_fence _ _ Hpre). reflexivity.
Qed.

Lemma fenced_reply_is_unwrapped_witness :
  extract_json ("Here it is: " +:+ "```json" +:+ " {} " +:+ "```" +:+ " done")
  = strip " {} ".
Proof.
  apply (fenced_reply_is_unwrapped "Here it is: " " {} " " done");
    vm_compute; reflexivity.
Defined.

End FenceFacts.
